(** * The JDWP-over-ADB transport (src/jdwp/jdwp_adb.cc, src/jdwp/jdwp_priv.h)

    A shallow embedding of the transport functions of jdwp_adb.cc:
    [adbStateFree], [receiveClientFd], [acceptConnection],
    [adbStateShutdown] and [processIncoming].

    The C++ code talks to the kernel through system calls.  The results of
    those calls are supplied by a script of answers ([Resp]), the calls the
    code issues are recorded in a trace ([Event]), and the process's
    descriptor table is kept as the list of open descriptors.  The mutable
    object [JdwpNetState] is passed explicitly from function to function. *)

From Stdlib Require Import ZArith List String Ascii Bool Lia.
Import ListNotations.
Open Scope Z_scope.

(** ** Constants of jdwp_priv.h and of the C library *)

Definition kJDWPHeaderLen : Z := 11.

Definition kMagicHandshake : list ascii := list_ascii_of_string "JDWP-Handshake".

(** [sizeof(kMagicHandshake)-1] *)
Definition kMagicHandshakeLen : Z := Z.of_nat (List.length kMagicHandshake).

Definition kInputBufferSize : Z := 8192.

Definition EINTR : Z := 4.
Definition EBADF : Z := 9.

(** ** JdwpNetState (with the fields of its base class JdwpNetStateBase) *)

Record JdwpNetState : Type := mkNetState {
  clientSock : Z;                (* active connection to debugger *)
  inputBuffer : list ascii;      (* unsigned char inputBuffer[kInputBufferSize] *)
  inputCount : Z;
  awaiting_handshake_ : bool;
  controlSock : Z;
  shuttingDown : bool;
  wakeFds : Z * Z                (* wakeFds[0], wakeFds[1] *)
}.

Definition set_clientSock (v : Z) (s : JdwpNetState) : JdwpNetState :=
  mkNetState v (inputBuffer s) (inputCount s) (awaiting_handshake_ s)
             (controlSock s) (shuttingDown s) (wakeFds s).

Definition set_inputBuffer (v : list ascii) (s : JdwpNetState) : JdwpNetState :=
  mkNetState (clientSock s) v (inputCount s) (awaiting_handshake_ s)
             (controlSock s) (shuttingDown s) (wakeFds s).

Definition set_inputCount (v : Z) (s : JdwpNetState) : JdwpNetState :=
  mkNetState (clientSock s) (inputBuffer s) v (awaiting_handshake_ s)
             (controlSock s) (shuttingDown s) (wakeFds s).

Definition set_controlSock (v : Z) (s : JdwpNetState) : JdwpNetState :=
  mkNetState (clientSock s) (inputBuffer s) (inputCount s) (awaiting_handshake_ s)
             v (shuttingDown s) (wakeFds s).

Definition set_shuttingDown (v : bool) (s : JdwpNetState) : JdwpNetState :=
  mkNetState (clientSock s) (inputBuffer s) (inputCount s) (awaiting_handshake_ s)
             (controlSock s) v (wakeFds s).

Definition set_wakeFds (v : Z * Z) (s : JdwpNetState) : JdwpNetState :=
  mkNetState (clientSock s) (inputBuffer s) (inputCount s) (awaiting_handshake_ s)
             (controlSock s) (shuttingDown s) v.

(** The accessors of the private field [awaiting_handshake_]. *)
Definition IsAwaitingHandshake (s : JdwpNetState) : bool := awaiting_handshake_ s.

Definition SetAwaitingHandshake (new_state : bool) (s : JdwpNetState) : JdwpNetState :=
  mkNetState (clientSock s) (inputBuffer s) (inputCount s) new_state
             (controlSock s) (shuttingDown s) (wakeFds s).

(** The constructor [JdwpNetState()]; the base-class fields start with no
    client, an empty buffer and no handshake pending. *)
Definition new_JdwpNetState : JdwpNetState :=
  mkNetState (-1) (repeat zero (Z.to_nat kInputBufferSize)) 0 false (-1) false (-1, -1).

(** ** The environment: system calls, their answers, the descriptor table *)

(** A system call (or log line) issued by the JDWP thread. *)
Inductive Event : Type :=
| EvSocket
| EvPipe
| EvConnect (fd : Z)
| EvPeerTrusted (fd : Z)
| EvSend (fd : Z) (buf : list ascii)
| EvUsleep (usec : Z)
| EvRecvmsg (fd : Z)
| EvSelect (nfds : Z) (readfds : list Z)
| EvRead (fd : Z) (offset count : Z)
| EvWrite (fd : Z) (buf : list ascii)
| EvShutdown (fd : Z)
| EvClose (fd : Z)
| EvHandlePacket (packet : list ascii)   (* a packet given to the packet handler *)
| EvLog (msg : string).

(** The kernel's answer to one call: return value and the errno it leaves on
    failure.  The calls the JDWP thread can be parked in ([usleep], [recvmsg],
    [select]) also say whether the VM thread ran [adbStateShutdown] meanwhile. *)
Inductive Resp : Type :=
| RSocket (ret err : Z)
| RPipe (ret err : Z) (rd wr : Z)
| RConnect (ret err : Z)
| RPeerTrusted (trusted : bool)
| RSend (ret err : Z)
| RUsleep (peer_shutdown : bool)
| RRecvmsg (ret err : Z) (ancillary_fd : option Z) (peer_shutdown : bool)
| RSelect (ret err : Z) (ready : list Z) (peer_shutdown : bool)
| RRead (ret err : Z) (data : list ascii)
| RWrite (ret err : Z).

Record World : Type := mkWorld {
  trace : list Event;     (* calls issued so far, oldest first *)
  open_fds : list Z;      (* descriptors open in this process *)
  errno : Z;
  pid : Z;                (* what getpid() returns *)
  script : list Resp      (* the answers still to come *)
}.

Definition emit (e : Event) (w : World) : World :=
  mkWorld (trace w ++ [e]) (open_fds w) (errno w) (pid w) (script w).

Definition set_errno (e : Z) (w : World) : World :=
  mkWorld (trace w) (open_fds w) e (pid w) (script w).

Definition set_script (s : list Resp) (w : World) : World :=
  mkWorld (trace w) (open_fds w) (errno w) (pid w) s.

Definition is_open (fd : Z) (w : World) : bool := existsb (Z.eqb fd) (open_fds w).

Definition install_fd (fd : Z) (w : World) : World :=
  mkWorld (trace w) (if is_open fd w then open_fds w else fd :: open_fds w)
          (errno w) (pid w) (script w).

Definition release_fd (fd : Z) (w : World) : World :=
  mkWorld (trace w) (remove Z.eq_dec fd (open_fds w)) (errno w) (pid w) (script w).

(** A failing call leaves its error number in errno; a successful one leaves
    errno alone. *)
Definition fail_errno (ret err : Z) (w : World) : World :=
  if ret <? 0 then set_errno err w else w.

(** Which loop of the source a run was still in when the fuel ran out. *)
Inductive Loop : Type :=
| LoopEintr        (* do/while (ret < 0 && errno == EINTR), TEMP_FAILURE_RETRY *)
| LoopConnect      (* for (;;) around connect() *)
| LoopRetry        (* goto retry *)
| LoopSelect.      (* while (1) around select() *)

Inductive Outcome (A : Type) : Type :=
| Returned (a : A)
| Aborted (check : string)   (* a CHECK_xx failed: the runtime aborts *)
| Blocked                    (* the pending call is never answered *)
| OutOfFuel (l : Loop).

Arguments Returned {A} a.
Arguments Aborted {A} check.
Arguments Blocked {A}.
Arguments OutOfFuel {A} l.

Definition bindO {A B : Type} (m : Outcome A) (k : A -> Outcome B) : Outcome B :=
  match m with
  | Returned a => k a
  | Aborted c => Aborted c
  | Blocked => Blocked
  | OutOfFuel l => OutOfFuel l
  end.

Notation "' p <- m ;; k" := (bindO m (fun x => let 'p := x in k))
  (at level 61, p pattern, m at next level, right associativity).

(** *** The system calls *)

Definition sys_getpid (w : World) : Z := pid w.

Definition sys_socket (w : World) : Outcome (Z * World) :=
  match script w with
  | RSocket ret err :: rest =>
      let w1 := fail_errno ret err (emit EvSocket (set_script rest w)) in
      Returned (ret, if ret <? 0 then w1 else install_fd ret w1)
  | _ => Blocked
  end.

(** [pipe(fds)]: on success both ends are written into [fds]. *)
Definition sys_pipe (fds : Z * Z) (w : World) : Outcome (Z * (Z * Z) * World) :=
  match script w with
  | RPipe ret err rd wr :: rest =>
      let w1 := fail_errno ret err (emit EvPipe (set_script rest w)) in
      if ret <? 0 then Returned (ret, fds, w1)
      else Returned (ret, (rd, wr), install_fd wr (install_fd rd w1))
  | _ => Blocked
  end.

Definition sys_connect (fd : Z) (w : World) : Outcome (Z * World) :=
  match script w with
  | RConnect ret err :: rest =>
      Returned (ret, fail_errno ret err (emit (EvConnect fd) (set_script rest w)))
  | _ => Blocked
  end.

Definition socket_peer_is_trusted (fd : Z) (w : World) : Outcome (bool * World) :=
  match script w with
  | RPeerTrusted b :: rest => Returned (b, emit (EvPeerTrusted fd) (set_script rest w))
  | _ => Blocked
  end.

Definition sys_send (fd : Z) (buf : list ascii) (w : World) : Outcome (Z * World) :=
  match script w with
  | RSend ret err :: rest =>
      Returned (ret, fail_errno ret err (emit (EvSend fd buf) (set_script rest w)))
  | _ => Blocked
  end.

(** Returns whether the VM thread shut the transport down during the sleep. *)
Definition sys_usleep (usec : Z) (w : World) : Outcome (bool * World) :=
  match script w with
  | RUsleep peer :: rest => Returned (peer, emit (EvUsleep usec) (set_script rest w))
  | _ => Blocked
  end.

(** [recvmsg] on a message whose control buffer holds one int, pre-set to
    [cmsg_data]: a descriptor passed as SCM_RIGHTS overwrites it and enters
    the descriptor table; without ancillary data the int is left as it was. *)
Definition sys_recvmsg (fd : Z) (cmsg_data : Z) (w : World)
  : Outcome (Z * Z * bool * World) :=
  match script w with
  | RRecvmsg ret err anc peer :: rest =>
      let w1 := fail_errno ret err (emit (EvRecvmsg fd) (set_script rest w)) in
      if ret <? 0 then Returned (ret, cmsg_data, peer, w1)
      else match anc with
           | Some newfd => Returned (ret, newfd, peer, install_fd newfd w1)
           | None => Returned (ret, cmsg_data, peer, w1)
           end
  | _ => Blocked
  end.

Definition FD_ISSET (fd : Z) (fds : list Z) : bool := existsb (Z.eqb fd) fds.

(** [select(nfds, &readfds, NULL, NULL, NULL)]: on return [readfds] holds the
    descriptors of the request that are ready. *)
Definition sys_select (nfds : Z) (readfds : list Z) (w : World)
  : Outcome (Z * list Z * bool * World) :=
  match script w with
  | RSelect ret err ready peer :: rest =>
      Returned (ret, filter (fun fd => FD_ISSET fd readfds) ready, peer,
                fail_errno ret err (emit (EvSelect nfds readfds) (set_script rest w)))
  | _ => Blocked
  end.

(** [read(fd, inputBuffer + offset, count)]: returns the count and the bytes. *)
Definition sys_read (fd : Z) (offset count : Z) (w : World)
  : Outcome (Z * list ascii * World) :=
  match script w with
  | RRead ret err data :: rest =>
      Returned (ret, data, fail_errno ret err (emit (EvRead fd offset count) (set_script rest w)))
  | _ => Blocked
  end.

Definition sys_write (fd : Z) (buf : list ascii) (w : World) : Outcome (Z * World) :=
  match script w with
  | RWrite ret err :: rest =>
      Returned (ret, fail_errno ret err (emit (EvWrite fd buf) (set_script rest w)))
  | _ => Blocked
  end.

(** [shutdown(fd, SHUT_RDWR)] leaves the descriptor open. *)
Definition sys_shutdown (fd : Z) (w : World) : Z * World :=
  if is_open fd w then (0, emit (EvShutdown fd) w)
  else (-1, set_errno EBADF (emit (EvShutdown fd) w)).

(** [close(fd)] removes an open descriptor from the table; on anything else
    it fails with EBADF. *)
Definition sys_close (fd : Z) (w : World) : Z * World :=
  if is_open fd w then (0, release_fd fd (emit (EvClose fd) w))
  else (-1, set_errno EBADF (emit (EvClose fd) w)).

Definition LOG (msg : string) (w : World) : World := emit (EvLog msg) w.

(** [TEMP_FAILURE_RETRY(exp)]: repeat [exp] while it returns -1 with EINTR. *)
Fixpoint TEMP_FAILURE_RETRY (fuel : nat) (exp : World -> Outcome (Z * World)) (w : World)
  : Outcome (Z * World) :=
  match fuel with
  | O => OutOfFuel LoopEintr
  | S fuel' =>
      '(rc, w1) <- exp w ;;
      if (rc =? -1) && (errno w1 =? EINTR) then TEMP_FAILURE_RETRY fuel' exp w1
      else Returned (rc, w1)
  end.

(** ** Methods defined in other translation units

    jdwp_priv.h declares [HaveFullPacket], [ConsumeBytes] and [Close] on
    JdwpNetStateBase, and jdwp_adb.cc calls [JdwpState::HandlePacket]; their
    bodies are not part of these sources.  The transport is embedded over
    any implementation of them. *)
Class ExternMethods : Type := {
  HaveFullPacket : JdwpNetState -> bool;
  ConsumeBytes : Z -> JdwpNetState -> JdwpNetState;
  Close : JdwpNetState -> World -> JdwpNetState * World;
  HandlePacket : JdwpNetState -> World -> Outcome (bool * JdwpNetState * World)
}.

(** ** C library helpers *)

(** [memcmp(a, b, n)]: zero iff the first [n] bytes agree, otherwise the
    difference of the first pair that differs. *)
Fixpoint memcmp (a b : list ascii) (n : nat) {struct n} : Z :=
  match n with
  | O => 0
  | S n' =>
      match a, b with
      | x :: a', y :: b' =>
          if Ascii.eqb x y then memcmp a' b' n'
          else Z.of_nat (nat_of_ascii x) - Z.of_nat (nat_of_ascii y)
      | [], _ :: _ => -1
      | _, [] => 1
      end
  end.

Definition hex_digit (d : Z) : ascii :=
  nth (Z.to_nat d) (list_ascii_of_string "0123456789abcdef") "0"%char.

(** The hexadecimal digits of [v], most significant first, in front of [acc]. *)
Fixpoint hex_digits (fuel : nat) (v : Z) (acc : list ascii) : list ascii :=
  match fuel with
  | O => acc
  | S fuel' =>
      if v <? 16 then hex_digit v :: acc
      else hex_digits fuel' (v / 16) (hex_digit (v mod 16) :: acc)
  end.

(** What the conversion "%04x" produces for the int [v]: the argument is
    taken as a 32-bit unsigned int and printed in lowercase hexadecimal,
    padded with zeros on the left to a minimum width of 4. *)
Definition format_04x (v : Z) : list ascii :=
  let ds := hex_digits 8 (v mod 2 ^ 32) [] in
  repeat "0"%char (4 - List.length ds) ++ ds.

(** [snprintf(buff, size, "%04x", v)]: at most [size - 1] characters of the
    output are stored, followed by the terminating zero. *)
Definition snprintf_04x (size : nat) (v : Z) : list ascii :=
  firstn (size - 1) (format_04x v) ++ [zero].

(** [buf[i] = c] *)
Fixpoint array_set (buf : list ascii) (i : nat) (c : ascii) : list ascii :=
  match buf, i with
  | [], _ => []
  | _ :: buf', O => c :: buf'
  | x :: buf', S i' => x :: array_set buf' i' c
  end.

(** The bytes a successful [read] of [n] bytes leaves at [buf + offset]. *)
Definition store_at (buf : list ascii) (offset n : Z) (data : list ascii) : list ascii :=
  firstn (Z.to_nat offset) buf ++ firstn (Z.to_nat n) data
    ++ skipn (Z.to_nat (offset + n)) buf.

(** ** adbStateFree (jdwp_adb.cc:82) *)

(** The argument is [None] for a NULL pointer.  The object is deleted at the
    end, so only the environment is left. *)
Definition adbStateFree (netState : option JdwpNetState) (w : World) : World :=
  match netState with
  | None => w
  | Some s =>
      let w :=
        if clientSock s >=? 0
        then snd (sys_close (clientSock s) (snd (sys_shutdown (clientSock s) w)))
        else w in
      let w :=
        if controlSock s >=? 0
        then snd (sys_close (controlSock s) (snd (sys_shutdown (controlSock s) w)))
        else w in
      let '(s, w) :=
        if fst (wakeFds s) >=? 0
        then (set_wakeFds (-1, snd (wakeFds s)) s, snd (sys_close (fst (wakeFds s)) w))
        else (s, w) in
      let '(s, w) :=
        if snd (wakeFds s) >=? 0
        then (set_wakeFds (fst (wakeFds s), -1) s, snd (sys_close (snd (wakeFds s)) w))
        else (s, w) in
      w
  end.

(** ** adbStateShutdown (jdwp_adb.cc:289) *)

Definition adbStateShutdown (fuel : nat) (netState : option JdwpNetState) (w : World)
  : Outcome (option JdwpNetState * World) :=
  match netState with
  | None => Returned (None, w)
  | Some s =>
      let s := set_shuttingDown true s in
      let clientSock_ := clientSock s in
      let '(s, w) :=
        if clientSock_ >=? 0
        then (set_clientSock (-1) s, snd (sys_shutdown clientSock_ w))
        else (s, w) in
      let controlSock_ := controlSock s in
      let '(s, w) :=
        if controlSock_ >=? 0
        then (set_controlSock (-1) s, snd (sys_shutdown controlSock_ w))
        else (s, w) in
      if snd (wakeFds s) >=? 0 then
        '(_, w) <- TEMP_FAILURE_RETRY fuel (sys_write (snd (wakeFds s)) [zero]) w ;;
        Returned (Some s, w)
      else Returned (Some s, w)
  end.

(** What the JDWP thread sees of its own object after the VM thread has run
    [adbStateShutdown] on it while the JDWP thread was parked in a call: the
    three assignments of that function. *)
Definition peer_shutdown (s : JdwpNetState) : JdwpNetState :=
  let s := set_shuttingDown true s in
  let s := if clientSock s >=? 0 then set_clientSock (-1) s else s in
  if controlSock s >=? 0 then set_controlSock (-1) s else s.

Definition after_call (peer : bool) (s : JdwpNetState) : JdwpNetState :=
  if peer then peer_shutdown s else s.

(** ** receiveClientFd (jdwp_adb.cc:125) *)

(** [do { ret = recvmsg(...); } while (ret < 0 && errno == EINTR);]
    [cmsg_data] is the int in the control buffer. *)
Fixpoint recvmsg_retry (fuel : nat) (cmsg_data : Z) (s : JdwpNetState) (w : World)
  : Outcome (Z * Z * JdwpNetState * World) :=
  match fuel with
  | O => OutOfFuel LoopEintr
  | S fuel' =>
      '(ret, cmsg_data, peer, w) <- sys_recvmsg (controlSock s) cmsg_data w ;;
      let s := after_call peer s in
      if (ret <? 0) && (errno w =? EINTR) then recvmsg_retry fuel' cmsg_data s w
      else Returned (ret, cmsg_data, s, w)
  end.

Definition receiveClientFd (fuel : nat) (s : JdwpNetState) (w : World)
  : Outcome (Z * JdwpNetState * World) :=
  '(ret, cmsg_data, s, w) <- recvmsg_retry fuel (-1) s w ;;
  if ret <=? 0 then
    let w := if ret <? 0 then LOG "Receiving file descriptor from ADB failed" w else w in
    let w := snd (sys_close (controlSock s) w) in
    let s := set_controlSock (-1) s in
    Returned (-1, s, w)
  else Returned (cmsg_data, s, w).

Section Transport.

(** Whether the file is compiled with HAVE_ANDROID_OS defined. *)
Variable HAVE_ANDROID_OS : bool.

Context {EM : ExternMethods}.

(** ** acceptConnection (jdwp_adb.cc:175) *)

Definition sleep_max_ms : Z := 2 * 1000.

(** Lines 246-249: the next value of [sleep_ms]. *)
Definition next_sleep_ms (sleep_ms : Z) : Z :=
  let sleep_ms := sleep_ms + Z.shiftr sleep_ms 1 in
  if sleep_ms >? sleep_max_ms then sleep_max_ms else sleep_ms.

(** Lines 205-253, the [for (;;)] around [connect].  The result is [true]
    when the loop is left by [break] and [false] when acceptConnection
    returns false from inside it.  (The "Can't connect" line is only logged
    under verbose logging and is left out, as are all VLOG lines.) *)
Fixpoint connect_loop (fuel : nat) (sleep_ms : Z) (buff : list ascii)
    (s : JdwpNetState) (w : World) : Outcome (bool * JdwpNetState * World) :=
  match fuel with
  | O => OutOfFuel LoopConnect
  | S fuel' =>
      '(ret, w) <- sys_connect (controlSock s) w ;;
      if ret =? 0 then
        '(trusted, w) <- (if HAVE_ANDROID_OS then socket_peer_is_trusted (controlSock s) w
                          else Returned (true, w)) ;;
        if negb trusted then
          let '(r, w) := sys_shutdown (controlSock s) w in
          let w := if r =? 0 then w else LOG "trouble shutting down socket" w in
          Returned (false, s, w)
        else
          (* now try to send our pid to the ADB daemon *)
          '(ret, w) <- TEMP_FAILURE_RETRY fuel (sys_send (controlSock s) (firstn 4 buff)) w ;;
          if ret >=? 0 then Returned (true, s, w)
          else Returned (false, s, LOG "Weird, can't send JDWP process pid to ADB" w)
      else
        '(peer, w) <- sys_usleep (sleep_ms * 1000) w ;;
        let s := after_call peer s in
        let sleep_ms := next_sleep_ms sleep_ms in
        if shuttingDown s then Returned (false, s, w)
        else connect_loop fuel' sleep_ms buff s w
  end.

(** Lines 186-254, the body of [if (netState->controlSock < 0)]. *)
Definition connect_control (fuel : nat) (s : JdwpNetState) (w : World)
  : Outcome (bool * JdwpNetState * World) :=
  let sleep_ms := 500 in
  '(fd, w) <- sys_socket w ;;
  let s := set_controlSock fd s in
  if controlSock s <? 0 then
    Returned (false, s, LOG "Could not create ADB control socket" w)
  else
    '(ret, fds, w) <- sys_pipe (wakeFds s) w ;;
    let s := set_wakeFds fds s in
    if ret <? 0 then Returned (false, s, LOG "pipe failed" w)
    else
      let buff := snprintf_04x 5 (sys_getpid w) in
      let buff := array_set buff 4 zero in
      connect_loop fuel sleep_ms buff s w.

(** The code from the label [retry:] on, with the current [retryCount].
    [retries] bounds the number of passes through the label. *)
Fixpoint acceptConnection_from (retries fuel : nat) (retryCount : Z)
    (s : JdwpNetState) (w : World) : Outcome (bool * JdwpNetState * World) :=
  match retries with
  | O => OutOfFuel LoopRetry
  | S retries' =>
      if shuttingDown s then Returned (false, s, w)
      else
        '(go_on, s, w) <- (if controlSock s <? 0 then connect_control fuel s w
                           else Returned (true, s, w)) ;;
        if negb go_on then Returned (false, s, w)
        else
          (* now we can receive a client file descriptor *)
          '(fd, s, w) <- receiveClientFd fuel s w ;;
          let s := set_clientSock fd s in
          if shuttingDown s then Returned (false, s, w)
          else if clientSock s <? 0 then
            let retryCount := retryCount + 1 in
            if retryCount >? 5 then
              Returned (false, s, LOG "adb connection max retries exceeded" w)
            else acceptConnection_from retries' fuel retryCount s w
          else
            let s := SetAwaitingHandshake true s in
            let s := set_inputCount 0 s in
            Returned (true, s, w)
  end.

Definition acceptConnection (retries fuel : nat) (s : JdwpNetState) (w : World)
  : Outcome (bool * JdwpNetState * World) :=
  acceptConnection_from retries fuel 0 s w.

(** ** establishConnection, netShutdown, netFree *)

Definition establishConnection : bool := false.

Definition netShutdown := adbStateShutdown.

Definition netFree := adbStateFree.

(** ** processIncoming (jdwp_adb.cc:344) *)

(** The label [fail:] *)
Definition fail (s : JdwpNetState) (w : World) : Outcome (bool * JdwpNetState * World) :=
  let '(s, w) := Close s w in
  Returned (false, s, w).

(** How the [while (1)] around [select] is left. *)
Inductive LoopExit : Type :=
| ExitReturn (b : bool)        (* return b; *)
| ExitFail                     (* goto fail; *)
| ExitBreak (readCount : Z).   (* break; *)

Definition FD_SET (fd : Z) (fds : list Z) : list Z := fds ++ [fd].

(** Lines 356-384: the descriptors to wait on and the largest of them. *)
Definition configure_fds (s : JdwpNetState) (w : World) : list Z * Z * World :=
  let readfds : list Z := [] in
  let maxfd := -1 in
  (* configure fds; note these may get zapped by another thread *)
  let fd := controlSock s in
  let '(readfds, maxfd) :=
    if fd >=? 0 then (FD_SET fd readfds, if maxfd <? fd then fd else maxfd)
    else (readfds, maxfd) in
  let fd := clientSock s in
  let '(readfds, maxfd) :=
    if fd >=? 0 then (FD_SET fd readfds, if maxfd <? fd then fd else maxfd)
    else (readfds, maxfd) in
  let fd := fst (wakeFds s) in
  if fd >=? 0 then (FD_SET fd readfds, if maxfd <? fd then fd else maxfd, w)
  else (readfds, maxfd, LOG "NOTE: entering select w/o wakepipe" w).

(** Lines 416-429: a ready control socket is drained. *)
Definition drain_control (fuel : nat) (readfds : list Z) (s : JdwpNetState) (w : World)
  : Outcome (JdwpNetState * World) :=
  if (controlSock s >=? 0) && FD_ISSET (controlSock s) readfds then
    '(sock, s, w) <- receiveClientFd fuel s w ;;
    if sock >=? 0 then
      let w := LOG "Ignoring second debugger -- accepting and dropping" w in
      Returned (s, snd (sys_close sock w))
    else if controlSock s <? 0 then Returned (s, w)
    else Aborted "CHECK_LT(netState->controlSock, 0)"
  else Returned (s, w).

(** Lines 430-446: one read from a ready client socket.  [None] when the
    client socket is not ready and the loop goes round again. *)
Definition read_client (readfds : list Z) (s : JdwpNetState) (w : World)
  : Outcome (option LoopExit * JdwpNetState * World) :=
  if (clientSock s >=? 0) && FD_ISSET (clientSock s) readfds then
    '(readCount, data, w) <-
       sys_read (clientSock s) (inputCount s) (kInputBufferSize - inputCount s) w ;;
    let s :=
      if readCount >? 0
      then set_inputBuffer (store_at (inputBuffer s) (inputCount s) readCount data) s
      else s in
    if readCount <? 0 then
      (* read failed *)
      if negb (errno w =? EINTR) then Returned (Some ExitFail, s, w)
      else Returned (Some (ExitReturn true), s, LOG "+++ EINTR hit" w)
    else if readCount =? 0 then
      (* EOF hit -- far end went away *)
      Returned (Some ExitFail, s, w)
    else Returned (Some (ExitBreak readCount), s, w)
  else Returned (None, s, w).

(** Lines 353-447.  [loops] bounds the passes through the [while (1)];
    [fuel] is handed to the calls made inside. *)
Fixpoint select_loop (loops fuel : nat) (s : JdwpNetState) (w : World)
  : Outcome (LoopExit * JdwpNetState * World) :=
  match loops with
  | O => OutOfFuel LoopSelect
  | S loops' =>
      let '(readfds, maxfd, w) := configure_fds s w in
      if maxfd <? 0 then Returned (ExitReturn false, s, w)
      else
        '(selCount, readfds, peer, w) <- sys_select (maxfd + 1) readfds w ;;
        let s := after_call peer s in
        if selCount <? 0 then
          if errno w =? EINTR then select_loop loops' fuel s w
          else Returned (ExitFail, s, LOG "select failed" w)
        else if (fst (wakeFds s) >=? 0) && FD_ISSET (fst (wakeFds s)) readfds then
          Returned (ExitFail, s, LOG "Got wake-up signal, bailing out of select" w)
        else
          '(s, w) <- drain_control fuel readfds s w ;;
          '(how, s, w) <- read_client readfds s w ;;
          match how with
          | Some how => Returned (how, s, w)
          | None => select_loop loops' fuel s w
          end
  end.

(** Lines 455-487: the handshake special case, otherwise the packet handler. *)
Definition handshake_or_packet (fuel : nat) (s : JdwpNetState) (w : World)
  : Outcome (bool * JdwpNetState * World) :=
  if IsAwaitingHandshake s then
    if negb (memcmp (inputBuffer s) kMagicHandshake (Z.to_nat kMagicHandshakeLen) =? 0) then
      fail s (LOG "ERROR: bad handshake" w)
    else
      let w := set_errno 0 w in
      '(cc, w) <- TEMP_FAILURE_RETRY fuel
                    (sys_write (clientSock s)
                               (firstn (Z.to_nat kMagicHandshakeLen) (inputBuffer s))) w ;;
      if negb (cc =? kMagicHandshakeLen) then
        fail s (LOG "Failed writing handshake bytes" w)
      else
        let s := ConsumeBytes kMagicHandshakeLen s in
        let s := SetAwaitingHandshake false s in
        Returned (true, s, w)
  else
    (* Handle this packet. *)
    HandlePacket s w.

Definition processIncoming (loops fuel : nat) (s : JdwpNetState) (w : World)
  : Outcome (bool * JdwpNetState * World) :=
  if negb (clientSock s >=? 0) then Aborted "CHECK_GE(netState->clientSock, 0)"
  else if negb (HaveFullPacket s) then
    (* read some more, looping until we have data *)
    let w := set_errno 0 w in
    '(how, s, w) <- select_loop loops fuel s w ;;
    match how with
    | ExitReturn b => Returned (b, s, w)
    | ExitFail => fail s w
    | ExitBreak readCount =>
        let s := set_inputCount (inputCount s + readCount) s in
        if negb (HaveFullPacket s) then Returned (true, s, w)   (* still not there yet *)
        else handshake_or_packet fuel s w
    end
  else handshake_or_packet fuel s w.

End Transport.

(** ** A model of the methods defined elsewhere *)

Definition byte_at (buf : list ascii) (i : nat) : Z :=
  Z.of_nat (nat_of_ascii (nth i buf zero)).

(** The big-endian 32-bit integer in the first four bytes. *)
Definition Get4BE (buf : list ascii) : Z :=
  byte_at buf 0 * 2 ^ 24 + byte_at buf 1 * 2 ^ 16 + byte_at buf 2 * 2 ^ 8 + byte_at buf 3.

(** Modelled from the spec: the body of JdwpNetStateBase::HaveFullPacket is
    not in these sources.  A packet is complete when at least the 11-byte
    header is buffered and the buffered bytes reach the length declared in
    the header's first 4 bytes (big-endian, header included); while the
    handshake is awaited the chunk to wait for is the 14-byte literal. *)
Definition HaveFullPacket_model (s : JdwpNetState) : bool :=
  if IsAwaitingHandshake s then kMagicHandshakeLen <=? inputCount s
  else (kJDWPHeaderLen <=? inputCount s) && (Get4BE (inputBuffer s) <=? inputCount s).

(** Modelled from the spec: the body of JdwpNetStateBase::ConsumeBytes is not
    in these sources.  Consuming N bytes shifts the remainder of the buffered
    bytes to the front of the buffer and shrinks [inputCount] by N. *)
Definition ConsumeBytes_model (byte_count : Z) (s : JdwpNetState) : JdwpNetState :=
  let remaining := Z.to_nat (inputCount s - byte_count) in
  let buf := firstn remaining (skipn (Z.to_nat byte_count) (inputBuffer s))
               ++ skipn remaining (inputBuffer s) in
  set_inputCount (inputCount s - byte_count) (set_inputBuffer buf s).

(** Modelled from the spec: the body of JdwpNetStateBase::Close is not in
    these sources.  Tearing the connection down is one close-and-clear of the
    client channel: an open client descriptor is closed and the field is set
    to the unset sentinel; an unset field is left alone. *)
Definition Close_model (s : JdwpNetState) (w : World) : JdwpNetState * World :=
  if clientSock s <? 0 then (s, w)
  else (set_clientSock (-1) s, snd (sys_close (clientSock s) w)).

(** Modelled from the spec: the body of JdwpState::HandlePacket is not in
    these sources.  The buffered packet is handed to the packet handler and
    exactly the declared packet length is consumed from the front of the
    buffer. *)
Definition HandlePacket_model (s : JdwpNetState) (w : World)
  : Outcome (bool * JdwpNetState * World) :=
  let len := Get4BE (inputBuffer s) in
  Returned (true, ConsumeBytes_model len s,
            emit (EvHandlePacket (firstn (Z.to_nat len) (inputBuffer s))) w).

Definition model_methods : ExternMethods := {|
  HaveFullPacket := HaveFullPacket_model;
  ConsumeBytes := ConsumeBytes_model;
  Close := Close_model;
  HandlePacket := HandlePacket_model
|}.

(** * Vocabulary of the properties *)

(** ** Answers and environments of particular runs *)

(** The answers to [n] calls of recvmsg that are interrupted by a signal. *)
Definition eintr_answers (n : nat) : list Resp := repeat (RRecvmsg (-1) EINTR None false) n.

(** The environment after those [n] calls on descriptor [fd]. *)
Definition interrupted (n : nat) (fd : Z) (rest : list Resp) (w : World) : World :=
  mkWorld (trace w ++ repeat (EvRecvmsg fd) n) (open_fds w)
          (match n with O => errno w | S _ => EINTR end) (pid w) rest.

(** The answers to [n] calls of write that are interrupted by a signal. *)
Definition eintr_writes (n : nat) : list Resp := repeat (RWrite (-1) EINTR) n.

(** The errno of a connect that finds nobody listening. *)
Definition ECONNREFUSED : Z := 111.

(** The answers to [n] rounds of the connect loop in which connect fails and
    the sleep passes without a shutdown. *)
Fixpoint failed_connects (n : nat) : list Resp :=
  match n with
  | O => []
  | S n' => RConnect (-1) ECONNREFUSED :: RUsleep false :: failed_connects n'
  end.

(** The calls of [n] such rounds on socket [fd], starting with [sleep_ms]. *)
Fixpoint backoff_events (fd sleep_ms : Z) (n : nat) : list Event :=
  match n with
  | O => []
  | S n' =>
      EvConnect fd :: EvUsleep (sleep_ms * 1000)
        :: backoff_events fd (next_sleep_ms sleep_ms) n'
  end.

(** The value of [sleep_ms] after [k] failed attempts. *)
Definition sleep_ms_at (k : nat) : Z := Nat.iter k next_sleep_ms 500.

(** The arguments of the usleep calls of a trace, in order. *)
Fixpoint usleeps_of (t : list Event) : list Z :=
  match t with
  | [] => []
  | EvUsleep usec :: t' => usec :: usleeps_of t'
  | _ :: t' => usleeps_of t'
  end.

(** The four bytes acceptConnection hands to send. *)
Definition pid_announcement (pid : Z) : list ascii :=
  firstn 4 (array_set (snprintf_04x 5 pid) 4 zero).

(** The four lowercase hexadecimal digits of the low 16 bits of [v]. *)
Definition hex4_low16 (v : Z) : list ascii :=
  let u := v mod 65536 in
  [hex_digit (u / 4096); hex_digit (u / 256 mod 16); hex_digit (u / 16 mod 16);
   hex_digit (u mod 16)].


(** The line logged when select is entered without a wake pipe. *)
Definition wakepipe_note (s : JdwpNetState) : list Event :=
  if fst (wakeFds s) >=? 0 then [] else [EvLog "NOTE: entering select w/o wakepipe"].

(** The wake pipe is reported ready by select. *)
Definition wake_ready (s : JdwpNetState) (ready : list Z) : bool :=
  (fst (wakeFds s) >=? 0) && FD_ISSET (fst (wakeFds s)) ready.

(** The control socket is reported ready by select. *)
Definition control_ready (s : JdwpNetState) (ready : list Z) : bool :=
  (controlSock s >=? 0) && FD_ISSET (controlSock s) ready.

(** The descriptors select reports, among those of the request. *)
Definition reported (s : JdwpNetState) (ready : list Z) (w : World) : list Z :=
  filter (fun fd => FD_ISSET fd (fst (fst (configure_fds s w)))) ready.

(** The environment when select has returned. *)
Definition after_select (s : JdwpNetState) (rest : list Resp) (w : World) : World :=
  let '(readfds, maxfd, w0) := configure_fds s w in
  emit (EvSelect (maxfd + 1) readfds) (set_script rest w0).

Section Scenario.

Variable HAVE_ANDROID_OS : bool.

(** The answer of the peer check, which is only compiled in on Android. *)
Definition trust_answers : list Resp :=
  if HAVE_ANDROID_OS then [RPeerTrusted true] else [].

(** The call of that check on socket [fd]. *)
Definition trust_events (fd : Z) : list Event :=
  if HAVE_ANDROID_OS then [EvPeerTrusted fd] else [].

(** The environment after the control socket has been opened, the wake pipe
    created, [n] connect attempts have failed, the next one has succeeded
    and the pid has been sent. *)
Definition connected (n : nat) (fd rd wr : Z) (rest : list Resp) (w : World) : World :=
  mkWorld (trace w ++ [EvSocket; EvPipe] ++ backoff_events fd 500 n
             ++ [EvConnect fd] ++ trust_events fd
             ++ [EvSend fd (pid_announcement (pid w))])
          (open_fds (install_fd wr (install_fd rd (install_fd fd w))))
          (match n with O => errno w | S _ => ECONNREFUSED end) (pid w) rest.

End Scenario.

(** ** Concrete sessions *)

(** A state with a debugger on descriptor 5, the control socket on 4 and the
    wake pipe on 6 and 7; nothing is buffered and the handshake is awaited. *)
Definition attached : JdwpNetState :=
  mkNetState 5 (repeat zero (Z.to_nat kInputBufferSize)) 0 true 4 false (6, 7).

(** The same with the 14 bytes of the handshake buffered. *)
Definition greeted : JdwpNetState :=
  mkNetState 5 (kMagicHandshake ++ repeat zero (Z.to_nat kInputBufferSize - 14)) 14 true
             4 false (6, 7).

(** The same with 14 bytes buffered of which the last is wrong. *)
Definition misgreeted : JdwpNetState :=
  mkNetState 5 (list_ascii_of_string "JDWP-Handshakf"
                  ++ repeat zero (Z.to_nat kInputBufferSize - 14)) 14 true
             4 false (6, 7).

(** An environment in which descriptors 4 to 7 are open, for process [p] and
    with the answers [answers] to come. *)
Definition running (p : Z) (answers : list Resp) : World :=
  mkWorld [] [4; 5; 6; 7] 0 p answers.

(** An environment with no descriptor of the transport open yet. *)
Definition starting (p : Z) (answers : list Resp) : World :=
  mkWorld [] [] 0 p answers.

(** The answers of a session in which the first control connection is lost
    at the receive (recvmsg returns 0) and the second one delivers the
    debugger's descriptor 9. *)
Definition reconnect_answers : list Resp :=
  [RSocket 3 0; RPipe 0 0 4 5; RConnect 0 0; RSend 4 0; RRecvmsg 0 0 None false;
   RSocket 6 0; RPipe 0 0 7 8; RConnect 0 0; RSend 4 0; RRecvmsg 1 0 (Some 9) false].

(** The answers of a session in which connect fails four times. *)
Definition slow_daemon_answers : list Resp :=
  [RSocket 3 0; RPipe 0 0 4 5] ++ failed_connects 4
    ++ [RConnect 0 0; RSend 4 0; RRecvmsg 1 0 (Some 9) false].

(** The answers of a round in which the read from the client socket is
    interrupted, followed by those of a round that would deliver 3 bytes. *)
Definition interrupted_read_answers : list Resp :=
  [RSelect 1 0 [5] false; RRead (-1) EINTR [];
   RSelect 1 0 [5] false; RRead 3 0 (list_ascii_of_string "abc")].

(** The number of select calls in a trace. *)
Fixpoint selects_of (t : list Event) : nat :=
  match t with
  | [] => O
  | EvSelect _ _ :: t' => S (selects_of t')
  | _ :: t' => selects_of t'
  end.

(** The number of pipe calls in a trace. *)
Fixpoint pipes_of (t : list Event) : nat :=
  match t with
  | [] => O
  | EvPipe :: t' => S (pipes_of t')
  | _ :: t' => pipes_of t'
  end.

(** The state acceptConnection leaves when the debugger's descriptor 9 has
    arrived over control socket [ctl] with the wake pipe [wake]. *)
Definition accepted (ctl : Z) (wake : Z * Z) : JdwpNetState :=
  mkNetState 9 (inputBuffer new_JdwpNetState) 0 true ctl false wake.

(** The environment after acceptConnection for process 74565. *)
Definition after_announcing_74565 : World :=
  mkWorld [EvSocket; EvPipe; EvConnect 3;
           EvSend 3 (list_ascii_of_string "1234"); EvRecvmsg 3]
          [9; 5; 4; 3] 0 74565 [].

(** The environment after acceptConnection with [slow_daemon_answers]. *)
Definition after_slow_daemon : World :=
  mkWorld [EvSocket; EvPipe;
           EvConnect 3; EvUsleep 500000; EvConnect 3; EvUsleep 750000;
           EvConnect 3; EvUsleep 1125000; EvConnect 3; EvUsleep 1687000;
           EvConnect 3; EvSend 3 (list_ascii_of_string "10e1"); EvRecvmsg 3]
          [9; 5; 4; 3] ECONNREFUSED 4321 [].

(** The environment after acceptConnection with [reconnect_answers]. *)
Definition after_reconnect : World :=
  mkWorld [EvSocket; EvPipe; EvConnect 3;
           EvSend 3 (list_ascii_of_string "10e1"); EvRecvmsg 3; EvClose 3;
           EvSocket; EvPipe; EvConnect 6;
           EvSend 6 (list_ascii_of_string "10e1"); EvRecvmsg 6]
          [9; 8; 7; 6; 5; 4] 0 4321 [].

(** The environment after processIncoming with [interrupted_read_answers]. *)
Definition after_interrupted_read : World :=
  mkWorld [EvSelect 7 [4; 5; 6]; EvRead 5 0 8192; EvLog "+++ EINTR hit"]
          [4; 5; 6; 7] EINTR 4321
          [RSelect 1 0 [5] false; RRead 3 0 (list_ascii_of_string "abc")].

(** ** Further vocabulary *)

(** The descriptors held in the four descriptor fields of a state. *)
Definition held_fds (s : JdwpNetState) : list Z :=
  [clientSock s; controlSock s; fst (wakeFds s); snd (wakeFds s)].

(** One step of adbStateFree on the field value [fd]: a field that holds a
    descriptor is closed, after a shutdown when it is a socket. *)
Definition free_field (socket : bool) (fd : Z) (w : World) : World :=
  if fd >=? 0
  then snd (sys_close fd (if socket then snd (sys_shutdown fd w) else w))
  else w.

(** The calls of that step. *)
Definition free_field_events (socket : bool) (fd : Z) : list Event :=
  if fd >=? 0
  then (if socket then [EvShutdown fd] else []) ++ [EvClose fd]
  else [].

(** The shutdown calls of a trace. *)
Fixpoint shutdowns_of (t : list Event) : list Z :=
  match t with
  | [] => []
  | EvShutdown fd :: t' => fd :: shutdowns_of t'
  | _ :: t' => shutdowns_of t'
  end.

(** The descriptors closed in a trace, in order. *)
Fixpoint closes_of (t : list Event) : list Z :=
  match t with
  | [] => []
  | EvClose fd :: t' => fd :: closes_of t'
  | _ :: t' => closes_of t'
  end.

(** The environment after the control socket [fd] and the wake pipe
    ([rd], [wr]) have been created and [n] connect attempts have failed. *)
Definition dialing (n : nat) (fd rd wr : Z) (rest : list Resp) (w : World) : World :=
  mkWorld (trace w ++ [EvSocket; EvPipe] ++ backoff_events fd 500 n)
          (open_fds (install_fd wr (install_fd rd (install_fd fd w))))
          (match n with O => errno w | S _ => ECONNREFUSED end) (pid w) rest.

(** The state in which acceptConnection runs its connect loop. *)
Definition dialing_state (fd rd wr : Z) (s : JdwpNetState) : JdwpNetState :=
  set_wakeFds (rd, wr) (set_controlSock fd s).

(** The answers to [n] calls of send that are interrupted by a signal. *)
Definition eintr_sends (n : nat) : list Resp := repeat (RSend (-1) EINTR) n.

(** The fields of the state the wait loop of processIncoming must leave
    alone, and the shutdown flag it must not clear. *)
Definition loop_frame (s s' : JdwpNetState) : Prop :=
  inputCount s' = inputCount s
  /\ wakeFds s' = wakeFds s
  /\ (shuttingDown s = true -> shuttingDown s' = true).

(** The descriptor set and the largest descriptor processIncoming hands to
    select in state [s] (they do not depend on the environment). *)
Definition waited_fds (s : JdwpNetState) : list Z :=
  fst (fst (configure_fds s (mkWorld [] [] 0 0 []))).

Definition waited_max (s : JdwpNetState) : Z :=
  snd (fst (configure_fds s (mkWorld [] [] 0 0 []))).

(** The calls of one round of the wait loop up to and including select. *)
Definition select_events (s : JdwpNetState) : list Event :=
  wakepipe_note s ++ [EvSelect (waited_max s + 1) (waited_fds s)].

(** The answers to [n] calls of select that are interrupted by a signal. *)
Definition eintr_selects (n : nat) : list Resp := repeat (RSelect (-1) EINTR [] false) n.

(** The state after a read of [k] bytes [data] has been added to the buffer. *)
Definition appended (k : Z) (data : list ascii) (s : JdwpNetState) : JdwpNetState :=
  set_inputCount (inputCount s + k)
    (set_inputBuffer (store_at (inputBuffer s) (inputCount s) k data) s).

(** The characters "%x" prints. *)
Definition hex_chars : list ascii := list_ascii_of_string "0123456789abcdef".

(** The value of a hexadecimal digit (0 for any other character). *)
Definition hex_value (c : ascii) : Z :=
  (fix find (l : list ascii) (i : Z) : Z :=
     match l with
     | [] => 0
     | x :: l' => if Ascii.eqb c x then i else find l' (i + 1)
     end) hex_chars 0.

(** The number written by a string of hexadecimal digits. *)
Definition hex_number (l : list ascii) : Z :=
  fold_left (fun acc c => acc * 16 + hex_value c) l 0.

(** The write calls of a trace, oldest first. *)
Fixpoint writes_of (t : list Event) : list (Z * list ascii) :=
  match t with
  | [] => []
  | EvWrite fd buf :: t' => (fd, buf) :: writes_of t'
  | _ :: t' => writes_of t'
  end.

Section Calls.

Context {EM : ExternMethods}.

(** How a call of processIncoming on state [s] comes to the code behind its
    wait (line 455), and with which state and environment: with those of its
    entry when a full packet is buffered already (line 351), otherwise with
    those its wait loop was left with by [break], the bytes of the last read
    counted in, when they complete a packet (lines 449-452). *)
Inductive packet_ready (loops fuel : nat) (s : JdwpNetState) (w : World)
  : JdwpNetState -> World -> Prop :=
| ready_at_entry :
    HaveFullPacket s = true -> packet_ready loops fuel s w s w
| ready_after_read (rc : Z) (s1 : JdwpNetState) (w1 : World) :
    HaveFullPacket s = false ->
    select_loop loops fuel s (set_errno 0 w) = Returned (ExitBreak rc, s1, w1) ->
    HaveFullPacket (set_inputCount (inputCount s1 + rc) s1) = true ->
    packet_ready loops fuel s w (set_inputCount (inputCount s1 + rc) s1) w1.

(** Any number of successive calls of processIncoming on one connection,
    each of which returned true, from the state and environment before the
    first to those after the last. *)
Inductive served : JdwpNetState -> World -> JdwpNetState -> World -> Prop :=
| served_none (s : JdwpNetState) (w : World) : served s w s w
| served_call (loops fuel : nat) (s : JdwpNetState) (w : World)
              (s1 : JdwpNetState) (w1 : World) (s2 : JdwpNetState) (w2 : World) :
    processIncoming loops fuel s w = Returned (true, s1, w1) ->
    served s1 w1 s2 w2 ->
    served s w s2 w2.

End Calls.

(** An 11-byte packet header that declares length 11, id 1, command set 1,
    command 1: an empty packet. *)
Definition empty_packet : list ascii :=
  map ascii_of_nat [0; 0; 0; 11; 0; 0; 0; 1; 0; 1; 1]%nat.

(** The state of one connection after each of two successive calls of
    processIncoming, when both return true. *)
Definition two_calls {EM : ExternMethods} (loops fuel : nat) (s : JdwpNetState) (w : World)
  : option (JdwpNetState * World * (JdwpNetState * World)) :=
  match processIncoming loops fuel s w with
  | Returned (true, s1, w1) =>
      match processIncoming loops fuel s1 w1 with
      | Returned (true, s2, w2) => Some (s1, w1, (s2, w2))
      | _ => None
      end
  | _ => None
  end.

(** * Properties *)

(** ** Reasoning about the environment *)

Lemma world_eta (w : World) :
  mkWorld (trace w) (open_fds w) (errno w) (pid w) (script w) = w.
Proof. destruct w; reflexivity. Qed.

Lemma is_open_release (fd : Z) (w : World) : is_open fd (release_fd fd w) = false.
Proof.
  unfold is_open, release_fd; simpl.
  destruct (existsb (Z.eqb fd) (remove Z.eq_dec fd (open_fds w))) eqn:E; [|reflexivity].
  apply existsb_exists in E. destruct E as [x [Hin Hx]].
  apply Z.eqb_eq in Hx. subst x. exfalso. revert Hin. apply remove_In.
Qed.

Lemma is_open_after_close (fd : Z) (w : World) : is_open fd (snd (sys_close fd w)) = false.
Proof.
  unfold sys_close. destruct (is_open fd w) eqn:E; simpl.
  - apply is_open_release.
  - exact E.
Qed.

Lemma trace_after_close (fd : Z) (w : World) :
  trace (snd (sys_close fd w)) = trace w ++ [EvClose fd].
Proof. unfold sys_close. destruct (is_open fd w); reflexivity. Qed.

Lemma script_after_close (fd : Z) (w : World) : script (snd (sys_close fd w)) = script w.
Proof. unfold sys_close. destruct (is_open fd w); reflexivity. Qed.

(** ** receiveClientFd *)

Lemma recvmsg_retry_interrupted (n : nat) :
  forall fuel d s w rest,
    script w = eintr_answers n ++ rest ->
    recvmsg_retry (n + fuel) d s w
    = recvmsg_retry fuel d s (interrupted n (controlSock s) rest w).
Proof.
  induction n as [|n IH]; intros fuel d s w rest Hs.
  - simpl in Hs. unfold interrupted. rewrite app_nil_r, <- Hs, world_eta. reflexivity.
  - simpl in Hs. change (S n + fuel)%nat with (S (n + fuel)).
    cbn [recvmsg_retry]. unfold sys_recvmsg at 1. rewrite Hs.
    cbn [bindO fail_errno Z.ltb Z.compare after_call andb].
    cbn [errno set_errno emit set_script]. rewrite Z.eqb_refl.
    rewrite (IH fuel d s _ rest) by reflexivity.
    f_equal. unfold interrupted; cbn [trace open_fds errno pid script set_errno emit set_script].
    rewrite <- app_assoc. simpl. destruct n; reflexivity.
Qed.

(** C7.  When the receive in receiveClientFd, after [n] calls interrupted by
    EINTR, returns 0 or a negative result, receiveClientFd closes the control
    socket it holds, sets [controlSock] to -1 and returns -1; the failing
    receive is the last call of recvmsg it makes. *)
Theorem receiveClientFd_failure_closes_control :
  forall n fuel s w ret err anc peer rest,
    script w = eintr_answers n ++ RRecvmsg ret err anc peer :: rest ->
    ret <= 0 ->
    (ret < 0 -> err <> EINTR) ->
    exists s' w',
      receiveClientFd (n + S fuel) s w = Returned (-1, s', w')
      /\ s' = set_controlSock (-1) (after_call peer s)
      /\ controlSock s' = -1
      /\ trace w' = trace w ++ repeat (EvRecvmsg (controlSock s)) (S n)
                      ++ (if ret <? 0 then [EvLog "Receiving file descriptor from ADB failed"]
                          else [])
                      ++ [EvClose (controlSock (after_call peer s))]
      /\ is_open (controlSock (after_call peer s)) w' = false
      /\ script w' = rest.
Proof.
  intros n fuel s w ret err anc peer rest Hs Hret Herr.
  unfold receiveClientFd.
  rewrite (recvmsg_retry_interrupted n (S fuel) (-1) s w _ Hs).
  cbn [recvmsg_retry]. unfold sys_recvmsg at 1.
  cbn [interrupted script bindO].
  assert (Hle : (ret <=? 0) = true) by (apply Z.leb_le; exact Hret).
  assert (Htr : forall l, repeat (EvRecvmsg (controlSock s)) n
                            ++ EvRecvmsg (controlSock s) :: l
                          = repeat (EvRecvmsg (controlSock s)) (S n) ++ l).
  { intro l. replace (S n) with (n + 1)%nat by lia.
    rewrite repeat_app, <- !app_assoc. reflexivity. }
  destruct (ret <? 0) eqn:Eneg.
  - assert (Hne : (err =? EINTR) = false) by (apply Z.eqb_neq, Herr, Z.ltb_lt, Eneg).
    unfold fail_errno. rewrite Eneg. cbn [bindO errno set_errno andb].
    rewrite Hne, andb_false_r. cbn [bindO]. rewrite Hle, Eneg.
    do 2 eexists. split; [reflexivity|].
    split; [reflexivity|]. split; [reflexivity|].
    split; [|split; [apply is_open_after_close|rewrite script_after_close; reflexivity]].
    rewrite trace_after_close. unfold LOG.
    cbn [trace emit set_errno set_script interrupted].
    rewrite <- !app_assoc. cbn [app]. rewrite Htr. reflexivity.
  - unfold fail_errno. rewrite Eneg.
    destruct anc as [newfd|]; cbn [bindO andb]; rewrite ?Eneg; cbn [bindO andb];
      rewrite Hle, ?Eneg;
      (do 2 eexists; split; [reflexivity|];
       split; [reflexivity|]; split; [reflexivity|];
       split; [|split; [apply is_open_after_close|rewrite script_after_close; reflexivity]]);
      rewrite trace_after_close;
      cbn [trace emit set_errno set_script install_fd interrupted];
      rewrite <- !app_assoc; cbn [app]; rewrite Htr; reflexivity.
Qed.

(** *** The answers of the scripted calls *)

Lemma sys_recvmsg_answer fd d w ret err anc peer rest :
  script w = RRecvmsg ret err anc peer :: rest ->
  sys_recvmsg fd d w
  = let w1 := fail_errno ret err (emit (EvRecvmsg fd) (set_script rest w)) in
    if ret <? 0 then Returned (ret, d, peer, w1)
    else match anc with
         | Some newfd => Returned (ret, newfd, peer, install_fd newfd w1)
         | None => Returned (ret, d, peer, w1)
         end.
Proof. intro H. unfold sys_recvmsg. rewrite H. reflexivity. Qed.

Lemma sys_select_answer nfds fds w ret err ready peer rest :
  script w = RSelect ret err ready peer :: rest ->
  sys_select nfds fds w
  = Returned (ret, filter (fun fd => FD_ISSET fd fds) ready, peer,
              fail_errno ret err (emit (EvSelect nfds fds) (set_script rest w))).
Proof. intro H. unfold sys_select. rewrite H. reflexivity. Qed.

Lemma sys_read_answer fd off cnt w ret err data rest :
  script w = RRead ret err data :: rest ->
  sys_read fd off cnt w
  = Returned (ret, data, fail_errno ret err (emit (EvRead fd off cnt) (set_script rest w))).
Proof. intro H. unfold sys_read. rewrite H. reflexivity. Qed.

Lemma sys_write_answer fd buf w ret err rest :
  script w = RWrite ret err :: rest ->
  sys_write fd buf w
  = Returned (ret, fail_errno ret err (emit (EvWrite fd buf) (set_script rest w))).
Proof. intro H. unfold sys_write. rewrite H. reflexivity. Qed.

Lemma geb_true (a : Z) : 0 <= a -> (a >=? 0) = true.
Proof. intro H. apply Z.geb_le. exact H. Qed.

Lemma ltb_false (a : Z) : 0 <= a -> (a <? 0) = false.
Proof. intro H. apply Z.ltb_ge. exact H. Qed.

Lemma fail_errno_ok ret err w : 0 <= ret -> fail_errno ret err w = w.
Proof.
  intro H. unfold fail_errno.
  destruct (ret <? 0) eqn:E; [apply Z.ltb_lt in E; lia | reflexivity].
Qed.

(** *** The descriptor set handed to select *)

Lemma FD_ISSET_filter (fd : Z) (req ready : list Z) :
  FD_ISSET fd (filter (fun x => FD_ISSET x req) ready)
  = FD_ISSET fd ready && FD_ISSET fd req.
Proof.
  unfold FD_ISSET. induction ready as [|x ready IH]; [reflexivity|].
  cbn [filter existsb].
  destruct (Z.eqb_spec fd x) as [->|Hne].
  - destruct (existsb (Z.eqb x) req) eqn:E; cbn [existsb orb andb].
    + rewrite Z.eqb_refl. reflexivity.
    + rewrite IH, andb_false_r. reflexivity.
  - cbn [orb]. destruct (existsb (Z.eqb x) req); cbn [existsb]; [|exact IH].
    destruct (Z.eqb_spec fd x); [contradiction|]. exact IH.
Qed.

Lemma FD_ISSET_FD_SET (fd x : Z) (fds : list Z) :
  FD_ISSET fd (FD_SET x fds) = FD_ISSET fd fds || (fd =? x).
Proof.
  unfold FD_ISSET, FD_SET. rewrite existsb_app. cbn [existsb].
  rewrite orb_false_r. reflexivity.
Qed.

Lemma configure_fds_spec (s : JdwpNetState) (w : World) readfds maxfd w1 :
  configure_fds s w = (readfds, maxfd, w1) ->
  script w1 = script w /\ errno w1 = errno w /\ open_fds w1 = open_fds w /\ pid w1 = pid w
  /\ trace w1 = trace w ++ wakepipe_note s
  /\ (0 <= controlSock s -> FD_ISSET (controlSock s) readfds = true)
  /\ (0 <= clientSock s -> FD_ISSET (clientSock s) readfds = true)
  /\ (0 <= clientSock s -> 0 <= maxfd).
Proof.
  unfold configure_fds.
  destruct (controlSock s >=? 0) eqn:E1; destruct (clientSock s >=? 0) eqn:E2;
    destruct (fst (wakeFds s) >=? 0) eqn:E3;
    intro H; injection H as <- <- <-; unfold wakepipe_note; rewrite E3;
    repeat split; try reflexivity; try (symmetry; apply app_nil_r); intros;
    rewrite ?FD_ISSET_FD_SET, ?Z.eqb_refl, ?orb_true_r; try reflexivity;
    try (apply Z.geb_le in E1); try (apply Z.geb_le in E2); try (apply Z.geb_le in E3);
    try (rewrite Z.geb_leb in E1; apply Z.leb_gt in E1);
    try (rewrite Z.geb_leb in E2; apply Z.leb_gt in E2);
    try lia;
    repeat match goal with
           | |- context [if ?a <? ?b then _ else _] => destruct (Z.ltb_spec a b)
           end; lia.
Qed.

(** ** The drain of the control socket *)

Lemma receiveClientFd_without_descriptor fuel s w ret err rest :
  script w = RRecvmsg ret err None false :: rest ->
  0 < ret ->
  receiveClientFd (S fuel) s w
  = Returned (-1, s, emit (EvRecvmsg (controlSock s)) (set_script rest w)).
Proof.
  intros Hs Hret. unfold receiveClientFd. cbn [recvmsg_retry].
  rewrite (sys_recvmsg_answer _ _ _ _ _ _ _ _ Hs). cbn zeta.
  rewrite fail_errno_ok by lia.
  assert (E1 : (ret <? 0) = false) by (apply Z.ltb_ge; lia).
  assert (E2 : (ret <=? 0) = false) by (apply Z.leb_gt; lia).
  repeat (progress (rewrite ?E1, ?E2; cbn [bindO andb after_call])). reflexivity.
Qed.

(** ** Shutdown and free *)

Lemma is_open_emit fd e w : is_open fd (emit e w) = is_open fd w.
Proof. reflexivity. Qed.

Lemma is_open_set_errno fd e w : is_open fd (set_errno e w) = is_open fd w.
Proof. reflexivity. Qed.

Lemma is_open_set_script fd sc w : is_open fd (set_script sc w) = is_open fd w.
Proof. reflexivity. Qed.

Lemma is_open_fail_errno fd r e w : is_open fd (fail_errno r e w) = is_open fd w.
Proof. unfold fail_errno. destruct (r <? 0); reflexivity. Qed.

Lemma is_open_release_other fd fd' w :
  fd <> fd' -> is_open fd (release_fd fd' w) = is_open fd w.
Proof.
  intro Hne. unfold is_open, release_fd. cbn [open_fds].
  induction (open_fds w) as [|x l IH]; [reflexivity|].
  cbn [remove existsb]. destruct (Z.eq_dec fd' x) as [->|Hx].
  - rewrite IH. destruct (Z.eqb_spec fd x); [contradiction | reflexivity].
  - cbn [existsb]. rewrite IH. reflexivity.
Qed.

Lemma is_open_after_close_other fd fd' w :
  fd <> fd' -> is_open fd (snd (sys_close fd' w)) = is_open fd w.
Proof.
  intro Hne. unfold sys_close. destruct (is_open fd' w); cbn [snd].
  - rewrite is_open_release_other by assumption. reflexivity.
  - reflexivity.
Qed.

Lemma trace_after_shutdown fd w : trace (snd (sys_shutdown fd w)) = trace w ++ [EvShutdown fd].
Proof. unfold sys_shutdown. destruct (is_open fd w); reflexivity. Qed.

Lemma is_open_after_shutdown fd fd' w : is_open fd (snd (sys_shutdown fd' w)) = is_open fd w.
Proof. unfold sys_shutdown. destruct (is_open fd' w); reflexivity. Qed.

Lemma script_after_shutdown fd w : script (snd (sys_shutdown fd w)) = script w.
Proof. unfold sys_shutdown. destruct (is_open fd w); reflexivity. Qed.

(** The state adbStateShutdown leaves is the one the JDWP thread is taken to
    see after a shutdown by the VM thread. *)
Lemma adbStateShutdown_assignments fuel s w r w' :
  adbStateShutdown fuel (Some s) w = Returned (r, w') -> r = Some (peer_shutdown s).
Proof.
  unfold adbStateShutdown, peer_shutdown.
  cbv beta iota zeta delta [set_shuttingDown set_clientSock set_controlSock
       clientSock controlSock wakeFds inputBuffer inputCount awaiting_handshake_
       shuttingDown].
  destruct s as [cl buf cnt aw ctl sd wk].
  destruct (cl >=? 0); destruct (ctl >=? 0); cbv beta iota zeta;
    destruct (snd wk >=? 0);
    try (intro H; injection H as <- _; reflexivity);
    match goal with
    | |- context [TEMP_FAILURE_RETRY ?f ?e ?x] => destruct (TEMP_FAILURE_RETRY f e x) as [[rc wz]| | |]
    end; cbn [bindO]; intro H; try discriminate; injection H as <- _; reflexivity.
Qed.

(** C2.  Shutdown followed by free does not close every descriptor: with
    the client socket, the control socket and both ends of the wake pipe
    open, netShutdown followed by netFree closes only the two ends of the
    wake pipe.  netShutdown sets [clientSock] and [controlSock] to -1 after
    a shutdown(2) without closing them, so netFree passes them by: both
    descriptors are still open at the end and no close was ever issued on
    them. *)
Theorem shutdown_then_free_leaks_sockets :
  forall fuel s w wret werr rest,
    0 <= clientSock s -> 0 <= controlSock s ->
    0 <= fst (wakeFds s) -> 0 <= snd (wakeFds s) ->
    NoDup [clientSock s; controlSock s; fst (wakeFds s); snd (wakeFds s)] ->
    is_open (clientSock s) w = true -> is_open (controlSock s) w = true ->
    script w = RWrite wret werr :: rest ->
    ~ (wret = -1 /\ werr = EINTR) ->
    exists s' w',
      netShutdown (S fuel) (Some s) w = Returned (Some s', w')
      /\ shuttingDown s' = true /\ clientSock s' = -1 /\ controlSock s' = -1
      /\ trace (netFree (Some s') w')
         = trace w ++ [EvShutdown (clientSock s); EvShutdown (controlSock s);
                       EvWrite (snd (wakeFds s)) [zero];
                       EvClose (fst (wakeFds s)); EvClose (snd (wakeFds s))]
      /\ is_open (clientSock s) (netFree (Some s') w') = true
      /\ is_open (controlSock s) (netFree (Some s') w') = true
      /\ is_open (fst (wakeFds s)) (netFree (Some s') w') = false
      /\ is_open (snd (wakeFds s)) (netFree (Some s') w') = false.
Proof.
  intros fuel s w wret werr rest Hcl Hctl Hw0 Hw1 Hnd Ocl Octl Hs Hnot.
  destruct s as [cl buf cnt aw ctl sd [wk0 wk1]].
  cbn [clientSock controlSock wakeFds fst snd] in *.
  assert (Hd : cl <> ctl /\ cl <> wk0 /\ cl <> wk1 /\ ctl <> wk0 /\ ctl <> wk1 /\ wk0 <> wk1).
  { inversion Hnd as [|? ? N1 Hnd1]; subst. inversion Hnd1 as [|? ? N2 Hnd2]; subst.
    inversion Hnd2 as [|? ? N3 Hnd3]; subst. cbn [In] in *.
    repeat split; intro; subst; tauto. }
  destruct Hd as (D1 & D2 & D3 & D4 & D5 & D6).
  unfold netShutdown, netFree, adbStateShutdown.
  cbv beta iota zeta delta [set_shuttingDown set_clientSock set_controlSock set_wakeFds
       clientSock controlSock wakeFds inputBuffer inputCount awaiting_handshake_
       shuttingDown fst].
  rewrite (geb_true _ Hcl). cbv beta iota zeta.
  rewrite (geb_true _ Hctl). cbv beta iota zeta.
  change (snd (wk0, wk1)) with wk1.
  rewrite (geb_true _ Hw1).
  set (wa := snd (sys_shutdown ctl (snd (sys_shutdown cl w)))).
  assert (Hsa : script wa = RWrite wret werr :: rest).
  { unfold wa. rewrite !script_after_shutdown. exact Hs. }
  cbn [TEMP_FAILURE_RETRY]. rewrite (sys_write_answer _ _ _ _ _ _ Hsa). cbn [bindO].
  set (wb := fail_errno wret werr (emit (EvWrite wk1 [zero]) (set_script rest wa))).
  assert (E : (wret =? -1) && (errno wb =? EINTR) = false).
  { destruct (Z.eqb_spec wret (-1)) as [->|Hne]; [|reflexivity].
    cbn [andb]. unfold wb. cbn [fail_errno Z.ltb Z.compare errno set_errno].
    apply Z.eqb_neq. intro He. apply Hnot. split; [reflexivity | exact He]. }
  rewrite E. cbn [bindO].
  do 2 eexists. split; [reflexivity|].
  split; [reflexivity|]. split; [reflexivity|]. split; [reflexivity|].
  unfold adbStateFree.
  cbv beta iota zeta delta [set_shuttingDown set_clientSock set_controlSock set_wakeFds
       clientSock controlSock wakeFds inputBuffer inputCount awaiting_handshake_
       shuttingDown fst].
  change (-1 >=? 0) with false. cbv beta iota zeta.
  rewrite (geb_true _ Hw0). cbv beta iota zeta.
  change (snd (-1, snd (wk0, wk1))) with wk1. rewrite (geb_true _ Hw1). cbv beta iota zeta.
  assert (Htb : trace wb = trace w ++ [EvShutdown cl; EvShutdown ctl; EvWrite wk1 [zero]]).
  { unfold wb, fail_errno. destruct (wret <? 0);
      cbn [trace set_errno emit set_script]; unfold wa;
      rewrite !trace_after_shutdown, <- !app_assoc; reflexivity. }
  assert (Hob : forall fd, is_open fd wb = is_open fd w).
  { intro fd. unfold wb. rewrite is_open_fail_errno, is_open_emit, is_open_set_script.
    unfold wa. rewrite !is_open_after_shutdown. reflexivity. }
  split.
  { rewrite !trace_after_close, Htb, <- !app_assoc. reflexivity. }
  split.
  { rewrite !is_open_after_close_other by assumption. rewrite Hob. exact Ocl. }
  split.
  { rewrite !is_open_after_close_other by assumption. rewrite Hob. exact Octl. }
  split.
  { rewrite is_open_after_close_other by assumption. apply is_open_after_close. }
  apply is_open_after_close.
Qed.

(** ** acceptConnection *)

Lemma sys_connect_answer fd w ret err rest :
  script w = RConnect ret err :: rest ->
  sys_connect fd w
  = Returned (ret, fail_errno ret err (emit (EvConnect fd) (set_script rest w))).
Proof. intro H. unfold sys_connect. rewrite H. reflexivity. Qed.

Lemma sys_usleep_answer usec w peer rest :
  script w = RUsleep peer :: rest ->
  sys_usleep usec w = Returned (peer, emit (EvUsleep usec) (set_script rest w)).
Proof. intro H. unfold sys_usleep. rewrite H. reflexivity. Qed.

Lemma sys_send_answer fd buf w ret err rest :
  script w = RSend ret err :: rest ->
  sys_send fd buf w
  = Returned (ret, fail_errno ret err (emit (EvSend fd buf) (set_script rest w))).
Proof. intro H. unfold sys_send. rewrite H. reflexivity. Qed.

Lemma sys_socket_answer w ret err rest :
  script w = RSocket ret err :: rest ->
  sys_socket w
  = let w1 := fail_errno ret err (emit EvSocket (set_script rest w)) in
    Returned (ret, if ret <? 0 then w1 else install_fd ret w1).
Proof. intro H. unfold sys_socket. rewrite H. reflexivity. Qed.

Lemma sys_pipe_answer fds w ret err rd wr rest :
  script w = RPipe ret err rd wr :: rest ->
  sys_pipe fds w
  = let w1 := fail_errno ret err (emit EvPipe (set_script rest w)) in
    if ret <? 0 then Returned (ret, fds, w1)
    else Returned (ret, (rd, wr), install_fd wr (install_fd rd w1)).
Proof. intro H. unfold sys_pipe. rewrite H. reflexivity. Qed.

Lemma iter_next_sleep (n : nat) (ms : Z) :
  Nat.iter n next_sleep_ms (next_sleep_ms ms) = next_sleep_ms (Nat.iter n next_sleep_ms ms).
Proof.
  induction n as [|n IH]; [reflexivity|].
  change (Nat.iter (S n) next_sleep_ms (next_sleep_ms ms))
    with (next_sleep_ms (Nat.iter n next_sleep_ms (next_sleep_ms ms))).
  rewrite IH. reflexivity.
Qed.

Lemma receiveClientFd_descriptor fuel s w ret err c rest :
  script w = RRecvmsg ret err (Some c) false :: rest ->
  0 < ret ->
  receiveClientFd (S fuel) s w
  = Returned (c, s, install_fd c (emit (EvRecvmsg (controlSock s)) (set_script rest w))).
Proof.
  intros Hs Hret. unfold receiveClientFd. cbn [recvmsg_retry].
  rewrite (sys_recvmsg_answer _ _ _ _ _ _ _ _ Hs). cbn zeta.
  rewrite fail_errno_ok by lia.
  assert (E1 : (ret <? 0) = false) by (apply Z.ltb_ge; lia).
  assert (E2 : (ret <=? 0) = false) by (apply Z.leb_gt; lia).
  repeat (progress (rewrite ?E1, ?E2; cbn [bindO andb after_call])). reflexivity.
Qed.

(** *** The pid announcement *)

Lemma format_04x_length (v : Z) : (4 <= List.length (format_04x v))%nat.
Proof. unfold format_04x. cbv zeta. rewrite length_app, repeat_length. lia. Qed.

Lemma pid_announcement_firstn (v : Z) : pid_announcement v = firstn 4 (format_04x v).
Proof.
  unfold pid_announcement, snprintf_04x. change (5 - 1)%nat with 4%nat.
  pose proof (format_04x_length v) as H.
  destruct (format_04x v) as [|a [|b [|c [|d l]]]]; cbn [List.length] in H; try lia.
  reflexivity.
Qed.

Lemma pid_announcement_length (v : Z) : List.length (pid_announcement v) = 4%nat.
Proof.
  rewrite pid_announcement_firstn, length_firstn.
  pose proof (format_04x_length v). lia.
Qed.

Lemma pid_announcement_low16 (v : Z) :
  0 <= v < 65536 -> pid_announcement v = hex4_low16 v.
Proof.
  intro Hv. rewrite pid_announcement_firstn. unfold format_04x, hex4_low16.
  change (2 ^ 32) with 4294967296.
  rewrite (Z.mod_small v 4294967296), (Z.mod_small v 65536) by lia.
  cbv zeta. cbn [hex_digits].
  destruct (Z.ltb_spec v 16) as [H1|H1].
  { replace (v / 4096) with 0 by (Z.div_mod_to_equations; lia).
    replace (v / 256) with 0 by (Z.div_mod_to_equations; lia).
    replace (v / 16) with 0 by (Z.div_mod_to_equations; lia).
    replace (v mod 16) with v by (Z.div_mod_to_equations; lia).
    reflexivity. }
  destruct (Z.ltb_spec (v / 16) 16) as [H2|H2].
  { replace (v / 4096) with 0 by (Z.div_mod_to_equations; lia).
    replace (v / 256) with 0 by (Z.div_mod_to_equations; lia).
    replace (v / 16 mod 16) with (v / 16) by (Z.div_mod_to_equations; lia).
    reflexivity. }
  destruct (Z.ltb_spec (v / 16 / 16) 16) as [H3|H3].
  { replace (v / 4096) with 0 by (Z.div_mod_to_equations; lia).
    replace (v / 256 mod 16) with (v / 16 / 16) by (Z.div_mod_to_equations; lia).
    reflexivity. }
  assert (H4 : (v / 16 / 16 / 16 <? 16) = true)
    by (apply Z.ltb_lt; Z.div_mod_to_equations; lia).
  rewrite H4.
  replace (v / 4096) with (v / 16 / 16 / 16) by (Z.div_mod_to_equations; lia).
  replace (v / 256 mod 16) with (v / 16 / 16 mod 16) by (Z.div_mod_to_equations; lia).
  reflexivity.
Qed.

(** *** The backoff *)

Lemma next_sleep_ms_min (ms : Z) : next_sleep_ms ms = Z.min 2000 (ms + ms / 2).
Proof.
  unfold next_sleep_ms, sleep_max_ms. cbv zeta.
  rewrite Z.shiftr_div_pow2 by lia. change (2 ^ 1) with 2. change (2 * 1000) with 2000.
  destruct (Z.gtb_spec (ms + ms / 2) 2000); lia.
Qed.

Lemma sleep_ms_at_succ (k : nat) :
  sleep_ms_at (S k) = Z.min 2000 (sleep_ms_at k + sleep_ms_at k / 2).
Proof. unfold sleep_ms_at. cbn [Nat.iter nat_rect]. apply next_sleep_ms_min. Qed.

Lemma sleep_ms_at_bounds (k : nat) : 500 <= sleep_ms_at k <= 2000.
Proof.
  induction k as [|k IH].
  - unfold sleep_ms_at. cbn. lia.
  - rewrite sleep_ms_at_succ. Z.div_mod_to_equations. lia.
Qed.

Lemma usleeps_of_app (t1 t2 : list Event) :
  usleeps_of (t1 ++ t2) = usleeps_of t1 ++ usleeps_of t2.
Proof.
  induction t1 as [|e t1 IH]; [reflexivity|].
  destruct e; cbn [app usleeps_of]; rewrite IH; reflexivity.
Qed.

Lemma usleeps_of_backoff (fd : Z) (n : nat) :
  forall ms,
    usleeps_of (backoff_events fd ms n)
    = map (fun k => Nat.iter k next_sleep_ms ms * 1000) (seq 0 n).
Proof.
  induction n as [|n IH]; intro ms; [reflexivity|].
  cbn [backoff_events usleeps_of seq map]. f_equal.
  rewrite IH, <- seq_shift, map_map.
  apply map_ext. intro k.
  change (Nat.iter (S k) next_sleep_ms ms) with (next_sleep_ms (Nat.iter k next_sleep_ms ms)).
  rewrite iter_next_sleep. reflexivity.
Qed.

(** *** The retry bound *)







Section Accept.

Variable HAVE_ANDROID_OS : bool.

Lemma connect_loop_failed (n : nat) :
  forall fuel ms buff s w rest,
    shuttingDown s = false ->
    script w = failed_connects n ++ rest ->
    connect_loop HAVE_ANDROID_OS (n + fuel) ms buff s w
    = connect_loop HAVE_ANDROID_OS fuel (Nat.iter n next_sleep_ms ms) buff s
        (mkWorld (trace w ++ backoff_events (controlSock s) ms n) (open_fds w)
                 (match n with O => errno w | S _ => ECONNREFUSED end) (pid w) rest).
Proof.
  induction n as [|n IH]; intros fuel ms buff s w rest Hsd Hs.
  - simpl in Hs. cbn [backoff_events]. change (Nat.iter 0 next_sleep_ms ms) with ms.
    rewrite app_nil_r, <- Hs, world_eta.
    reflexivity.
  - simpl in Hs. change (S n + fuel)%nat with (S (n + fuel)).
    cbn [connect_loop]. rewrite (sys_connect_answer _ _ _ _ _ Hs).
    cbn [bindO Z.eqb fail_errno Z.ltb Z.compare].
    rewrite (sys_usleep_answer _ _ false (failed_connects n ++ rest)) by reflexivity.
    cbn [bindO after_call]. rewrite Hsd.
    rewrite (IH fuel (next_sleep_ms ms) buff s _ rest Hsd) by reflexivity.
    change (Nat.iter (S n) next_sleep_ms ms) with (next_sleep_ms (Nat.iter n next_sleep_ms ms)).
    rewrite <- iter_next_sleep.
    f_equal. cbn [trace open_fds errno pid script set_errno emit set_script backoff_events].
    rewrite <- !app_assoc. cbn [app]. destruct n; reflexivity.
Qed.

Lemma connect_loop_connected fuel ms buff s w e2 r e3 rest :
  script w = RConnect 0 e2 :: trust_answers HAVE_ANDROID_OS ++ RSend r e3 :: rest ->
  0 <= r ->
  connect_loop HAVE_ANDROID_OS (S fuel) ms buff s w
  = Returned (true, s,
              mkWorld (trace w ++ [EvConnect (controlSock s)] ++ trust_events HAVE_ANDROID_OS (controlSock s)
                         ++ [EvSend (controlSock s) (firstn 4 buff)])
                      (open_fds w) (errno w) (pid w) rest).
Proof.
  intros Hs Hr. cbn [connect_loop].
  rewrite (sys_connect_answer _ _ _ _ _ Hs).
  cbn [bindO Z.eqb fail_errno Z.ltb Z.compare].
  assert (E1 : (r =? -1) = false) by (apply Z.eqb_neq; lia).
  unfold trust_answers, trust_events. destruct HAVE_ANDROID_OS.
  - unfold socket_peer_is_trusted. cbn [script emit set_script app bindO negb].
    cbn [TEMP_FAILURE_RETRY].
    rewrite (sys_send_answer _ _ _ r e3 rest) by reflexivity.
    rewrite fail_errno_ok by assumption.
    cbn [bindO]. rewrite E1. cbn [andb bindO]. rewrite (geb_true _ Hr).
    unfold emit, set_script. cbn [trace open_fds errno pid script].
    rewrite <- !app_assoc. reflexivity.
  - cbn [bindO negb TEMP_FAILURE_RETRY app].
    rewrite (sys_send_answer _ _ _ r e3 rest) by reflexivity.
    rewrite fail_errno_ok by assumption.
    cbn [bindO]. rewrite E1. cbn [andb bindO]. rewrite (geb_true _ Hr).
    unfold emit, set_script. cbn [trace open_fds errno pid script].
    rewrite <- !app_assoc. reflexivity.
Qed.

Lemma connect_control_connected n fuel s w fd e0 pret e1 rd wr e2 r e3 rest :
  shuttingDown s = false ->
  script w = RSocket fd e0 :: RPipe pret e1 rd wr
               :: failed_connects n ++ RConnect 0 e2 :: trust_answers HAVE_ANDROID_OS ++ RSend r e3 :: rest ->
  0 <= fd -> 0 <= pret -> 0 <= r ->
  connect_control HAVE_ANDROID_OS (n + S fuel) s w
  = Returned (true, set_wakeFds (rd, wr) (set_controlSock fd s), connected HAVE_ANDROID_OS n fd rd wr rest w).
Proof.
  intros Hsd Hs Hfd Hp Hr. unfold connect_control.
  rewrite (sys_socket_answer _ _ _ _ Hs). cbn zeta.
  rewrite fail_errno_ok by assumption. rewrite (ltb_false _ Hfd).
  cbn [bindO]. cbn [controlSock set_controlSock]. rewrite (ltb_false _ Hfd).
  rewrite (sys_pipe_answer _ _ pret e1 rd wr
             (failed_connects n ++ RConnect 0 e2 :: trust_answers HAVE_ANDROID_OS ++ RSend r e3 :: rest))
    by reflexivity.
  cbn zeta. rewrite fail_errno_ok by assumption. rewrite (ltb_false _ Hp).
  cbn [bindO]. rewrite (ltb_false _ Hp).
  rewrite (connect_loop_failed n (S fuel) _ _ _ _
             (RConnect 0 e2 :: trust_answers HAVE_ANDROID_OS ++ RSend r e3 :: rest)); [|exact Hsd|reflexivity].
  rewrite (connect_loop_connected fuel _ _ _ _ e2 r e3 rest); [|reflexivity|exact Hr].
  unfold connected, pid_announcement, sys_getpid.
  cbn [trace open_fds errno pid script emit set_script install_fd controlSock
       set_controlSock set_wakeFds].
  rewrite <- !app_assoc. reflexivity.
Qed.

Lemma accept_connected n retries fuel retryCount s w
      fd e0 pret e1 rd wr e2 r e3 ret e4 c rest :
  shuttingDown s = false ->
  controlSock s < 0 ->
  script w = RSocket fd e0 :: RPipe pret e1 rd wr
               :: failed_connects n ++ RConnect 0 e2 :: trust_answers HAVE_ANDROID_OS
               ++ RSend r e3 :: RRecvmsg ret e4 (Some c) false :: rest ->
  0 <= fd -> 0 <= pret -> 0 <= r -> 0 < ret -> 0 <= c ->
  acceptConnection_from HAVE_ANDROID_OS (S retries) (n + S fuel) retryCount s w
  = Returned (true,
              set_inputCount 0
                (SetAwaitingHandshake true
                   (set_clientSock c (set_wakeFds (rd, wr) (set_controlSock fd s)))),
              install_fd c
                (emit (EvRecvmsg fd)
                   (connected HAVE_ANDROID_OS n fd rd wr rest w))).
Proof.
  intros Hsd Hctl Hs Hfd Hp Hr Hret Hc.
  cbn [acceptConnection_from]. rewrite Hsd.
  assert (E : (controlSock s <? 0) = true) by (apply Z.ltb_lt; exact Hctl).
  rewrite E.
  rewrite (connect_control_connected n fuel s w fd e0 pret e1 rd wr e2 r e3
             (RRecvmsg ret e4 (Some c) false :: rest) Hsd Hs Hfd Hp Hr).
  cbn [bindO negb].
  replace (n + S fuel)%nat with (S (n + fuel)) by lia.
  rewrite (receiveClientFd_descriptor (n + fuel) _ _ ret e4 c rest); [|reflexivity|exact Hret].
  cbn [bindO]. cbn [shuttingDown set_clientSock set_wakeFds set_controlSock clientSock].
  rewrite Hsd, (ltb_false _ Hc).
  cbn [controlSock set_wakeFds set_controlSock]. reflexivity.
Qed.

(** C3.  The announcement acceptConnection sends right after the connect
    that succeeds is four bytes: the first four characters of the process
    identifier printed with "%04x".  For an identifier below 65536 these are
    the four lowercase, zero-padded hexadecimal digits of its low 16 bits;
    4321 is announced as "10e1". *)
Theorem pid_announced_after_connect :
  forall n retries fuel s w fd e0 pret e1 rd wr e2 r e3 ret e4 c rest,
    shuttingDown s = false ->
    controlSock s < 0 ->
    script w = RSocket fd e0 :: RPipe pret e1 rd wr
                 :: failed_connects n ++ RConnect 0 e2 :: trust_answers HAVE_ANDROID_OS
                 ++ RSend r e3 :: RRecvmsg ret e4 (Some c) false :: rest ->
    0 <= fd -> 0 <= pret -> 0 <= r -> 0 < ret -> 0 <= c ->
    exists s' w',
      acceptConnection HAVE_ANDROID_OS (S retries) (n + S fuel) s w = Returned (true, s', w')
      /\ trace w' = trace w ++ [EvSocket; EvPipe] ++ backoff_events fd 500 n
                       ++ [EvConnect fd] ++ trust_events HAVE_ANDROID_OS fd
                       ++ [EvSend fd (pid_announcement (pid w)); EvRecvmsg fd]
      /\ List.length (pid_announcement (pid w)) = 4%nat
      /\ pid_announcement (pid w) = firstn 4 (format_04x (pid w))
      /\ (0 <= pid w < 65536 -> pid_announcement (pid w) = hex4_low16 (pid w))
      /\ (pid w = 4321 -> pid_announcement (pid w) = list_ascii_of_string "10e1").
Proof.
  intros n retries fuel s w fd e0 pret e1 rd wr e2 r e3 ret e4 c rest
         Hsd Hctl Hs Hfd Hp Hr Hret Hc.
  do 2 eexists. split.
  { unfold acceptConnection.
    apply (accept_connected n retries fuel 0 s w fd e0 pret e1 rd wr e2 r e3 ret e4 c rest);
      assumption. }
  split.
  { unfold connected. cbn [trace install_fd emit]. rewrite <- !app_assoc. reflexivity. }
  split; [apply pid_announcement_length|].
  split; [apply pid_announcement_firstn|].
  split; [apply pid_announcement_low16|].
  intros ->. reflexivity.
Qed.

Lemma usleeps_of_trust_events fd : usleeps_of (trust_events HAVE_ANDROID_OS fd) = [].
Proof. unfold trust_events. destruct HAVE_ANDROID_OS; reflexivity. Qed.

(** C6.  The sleeps between connect attempts.  After [n] failed attempts the
    usleep calls of acceptConnection were for sleep_ms_at 0, ..., sleep_ms_at
    (n-1) milliseconds, where the sequence starts at 500, each value is the
    previous one plus its half rounded down (so 1.5 times it, rounded down to
    a whole millisecond), cut off at 2000, and no value exceeds 2000. *)
Theorem backoff_sleep_sequence :
  forall n retries fuel s w fd e0 pret e1 rd wr e2 r e3 ret e4 c rest,
    shuttingDown s = false ->
    controlSock s < 0 ->
    script w = RSocket fd e0 :: RPipe pret e1 rd wr
                 :: failed_connects n ++ RConnect 0 e2 :: trust_answers HAVE_ANDROID_OS
                 ++ RSend r e3 :: RRecvmsg ret e4 (Some c) false :: rest ->
    0 <= fd -> 0 <= pret -> 0 <= r -> 0 < ret -> 0 <= c ->
    (exists s' w',
       acceptConnection HAVE_ANDROID_OS (S retries) (n + S fuel) s w = Returned (true, s', w')
       /\ usleeps_of (trace w')
          = usleeps_of (trace w) ++ map (fun k => sleep_ms_at k * 1000) (seq 0 n))
    /\ sleep_ms_at 0 = 500
    /\ (forall k, sleep_ms_at (S k) = Z.min 2000 (sleep_ms_at k + sleep_ms_at k / 2))
    /\ (forall k, 500 <= sleep_ms_at k <= 2000).
Proof.
  intros n retries fuel s w fd e0 pret e1 rd wr e2 r e3 ret e4 c rest
         Hsd Hctl Hs Hfd Hp Hr Hret Hc.
  split; [|split; [reflexivity|split; [exact sleep_ms_at_succ|exact sleep_ms_at_bounds]]].
  do 2 eexists. split.
  { unfold acceptConnection.
    apply (accept_connected n retries fuel 0 s w fd e0 pret e1 rd wr e2 r e3 ret e4 c rest);
      assumption. }
  unfold connected. cbn [trace install_fd emit].
  rewrite !usleeps_of_app, usleeps_of_backoff, usleeps_of_trust_events.
  cbn [usleeps_of app]. rewrite !app_nil_r. reflexivity.
Qed.





End Accept.

Section ProcessIncoming.

Context {EM : ExternMethods}.

(** One pass through the loop in which select succeeds and the wake pipe is
    not ready. *)
Lemma select_loop_pass loops fuel s w selCount serr ready rest :
  0 <= clientSock s ->
  script w = RSelect selCount serr ready false :: rest ->
  0 <= selCount ->
  wake_ready s ready = false ->
  select_loop (S loops) fuel s w
  = ('(s1, w1) <- drain_control fuel (reported s ready w) s (after_select s rest w) ;;
     '(how, s2, w2) <- read_client (reported s ready w) s1 w1 ;;
     match how with
     | Some how => Returned (how, s2, w2)
     | None => select_loop loops fuel s2 w2
     end).
Proof.
  intros Hc Hs Hsel Hwake. cbn [select_loop].
  unfold reported, after_select.
  destruct (configure_fds s w) as [[readfds maxfd] w0] eqn:Ecfg.
  destruct (configure_fds_spec s w _ _ _ Ecfg) as (Hscr & _ & _ & _ & _ & _ & _ & Hmax).
  assert (E : (maxfd <? 0) = false) by (apply Z.ltb_ge; auto).
  rewrite E. rewrite Hs in Hscr.
  rewrite (sys_select_answer _ _ _ _ _ _ _ _ Hscr).
  rewrite fail_errno_ok by assumption.
  cbn [bindO after_call fst].
  assert (E2 : (selCount <? 0) = false) by (apply Z.ltb_ge; assumption).
  rewrite E2.
  unfold wake_ready in Hwake. rewrite FD_ISSET_filter.
  apply andb_false_iff in Hwake.
  assert (E3 : (fst (wakeFds s) >=? 0)
               && (FD_ISSET (fst (wakeFds s)) ready && FD_ISSET (fst (wakeFds s)) readfds)
               = false).
  { destruct Hwake as [-> | ->]; [reflexivity | apply andb_false_r]. }
  rewrite E3. reflexivity.
Qed.

Lemma after_select_spec s rest w :
  script (after_select s rest w) = rest
  /\ errno (after_select s rest w) = errno w
  /\ open_fds (after_select s rest w) = open_fds w
  /\ pid (after_select s rest w) = pid w
  /\ exists nfds fds,
       trace (after_select s rest w) = trace w ++ wakepipe_note s ++ [EvSelect nfds fds].
Proof.
  unfold after_select.
  destruct (configure_fds s w) as [[readfds maxfd] w0] eqn:Ecfg.
  destruct (configure_fds_spec s w _ _ _ Ecfg) as (_ & He & Ho & Hp & Ht & _).
  cbn [script errno open_fds pid trace emit set_script].
  repeat split; try assumption.
  exists (maxfd + 1), readfds. rewrite Ht, <- app_assoc. reflexivity.
Qed.

Lemma reported_control s ready w :
  0 <= controlSock s ->
  FD_ISSET (controlSock s) (reported s ready w) = FD_ISSET (controlSock s) ready.
Proof.
  intro H. unfold reported. rewrite FD_ISSET_filter.
  destruct (configure_fds s w) as [[readfds maxfd] w0] eqn:Ecfg.
  destruct (configure_fds_spec s w _ _ _ Ecfg) as (_ & _ & _ & _ & _ & Hctl & _).
  cbn [fst]. rewrite (Hctl H). apply andb_true_r.
Qed.

Lemma reported_client s ready w :
  0 <= clientSock s ->
  FD_ISSET (clientSock s) (reported s ready w) = FD_ISSET (clientSock s) ready.
Proof.
  intro H. unfold reported. rewrite FD_ISSET_filter.
  destruct (configure_fds s w) as [[readfds maxfd] w0] eqn:Ecfg.
  destruct (configure_fds_spec s w _ _ _ Ecfg) as (_ & _ & _ & _ & _ & _ & Hcl & _).
  cbn [fst]. rewrite (Hcl H). apply andb_true_r.
Qed.

(** C10.  A negative result of receiveClientFd does not imply that
    [controlSock] is unset: when recvmsg returns a positive count for a
    message without ancillary descriptor, receiveClientFd returns -1 although
    it has neither closed nor unset [controlSock], and the CHECK_LT in
    processIncoming's drain of the control socket fails. *)
Theorem receiveClientFd_negative_with_control_open :
  forall loops fuel s w selCount serr ready ret rerr rest,
    0 <= clientSock s ->
    HaveFullPacket s = false ->
    0 <= controlSock s ->
    script w = RSelect selCount serr ready false :: RRecvmsg ret rerr None false :: rest ->
    0 <= selCount ->
    wake_ready s ready = false ->
    FD_ISSET (controlSock s) ready = true ->
    0 < ret ->
    (forall w0, script w0 = RRecvmsg ret rerr None false :: rest ->
       exists w1,
         receiveClientFd (S fuel) s w0 = Returned (-1, s, w1)
         /\ trace w1 = trace w0 ++ [EvRecvmsg (controlSock s)]
         /\ open_fds w1 = open_fds w0)
    /\ processIncoming (S loops) (S fuel) s w = Aborted "CHECK_LT(netState->controlSock, 0)".
Proof.
  intros loops fuel s w selCount serr ready ret rerr rest
         Hcl Hfull Hctl Hs Hsel Hwake Hready Hret.
  split.
  - intros w0 Hs0. eexists. split.
    + apply (receiveClientFd_without_descriptor fuel s w0 ret rerr rest Hs0 Hret).
    + split; reflexivity.
  - unfold processIncoming.
    rewrite (geb_true _ Hcl), Hfull. cbn [negb].
    rewrite (select_loop_pass loops (S fuel) s (set_errno 0 w) selCount serr ready
               (RRecvmsg ret rerr None false :: rest) Hcl Hs Hsel Hwake).
    unfold drain_control.
    rewrite (geb_true _ Hctl), (reported_control _ _ _ Hctl), Hready. cbn [andb].
    destruct (after_select_spec s (RRecvmsg ret rerr None false :: rest) (set_errno 0 w))
      as (Hscr & _).
    rewrite (receiveClientFd_without_descriptor fuel s _ ret rerr rest Hscr Hret).
    cbn [bindO]. change (-1 >=? 0) with false. cbv iota.
    rewrite (ltb_false _ Hctl). reflexivity.
Qed.

Lemma drain_control_not_ready fuel s ready w w1 :
  control_ready s ready = false ->
  drain_control fuel (reported s ready w) s w1 = Returned (s, w1).
Proof.
  unfold control_ready, drain_control, reported. intro H.
  rewrite FD_ISSET_filter.
  apply andb_false_iff in H. destruct H as [-> | ->]; [reflexivity|].
  cbn [andb]. rewrite andb_false_r. reflexivity.
Qed.

Lemma is_open_install (fd : Z) (w : World) : is_open fd (install_fd fd w) = true.
Proof.
  unfold install_fd. destruct (is_open fd w) eqn:E.
  - unfold is_open in *. cbn [open_fds]. exact E.
  - unfold is_open. cbn [open_fds existsb]. rewrite Z.eqb_refl. reflexivity.
Qed.




(** C8.  What processIncoming does when the read from the client socket
    does not deliver bytes.  On EINTR it returns true at once, without
    reporting connection loss and without going round the wait loop again;
    on every other read error and on a read of zero bytes it goes to [fail]:
    Close, return false. *)
Theorem client_read_without_data :
  forall loops fuel s w selCount serr ready ret rerr data rest,
    0 <= clientSock s ->
    HaveFullPacket s = false ->
    script w = RSelect selCount serr ready false :: RRead ret rerr data :: rest ->
    0 <= selCount ->
    wake_ready s ready = false ->
    control_ready s ready = false ->
    FD_ISSET (clientSock s) ready = true ->
    ret <= 0 ->
    exists w1,
      script w1 = rest
      /\ (exists nfds fds,
            trace w1 = trace w ++ wakepipe_note s
                         ++ [EvSelect nfds fds;
                             EvRead (clientSock s) (inputCount s)
                                    (kInputBufferSize - inputCount s)])
      /\ (ret < 0 -> rerr = EINTR ->
          processIncoming (S loops) fuel s w
          = Returned (true, s, LOG "+++ EINTR hit" w1))
      /\ (ret < 0 -> rerr <> EINTR ->
          processIncoming (S loops) fuel s w
          = Returned (false, fst (Close s w1), snd (Close s w1)))
      /\ (ret = 0 ->
          processIncoming (S loops) fuel s w
          = Returned (false, fst (Close s w1), snd (Close s w1))).
Proof.
  intros loops fuel s w selCount serr ready ret rerr data rest
         Hcl Hfull Hs Hsel Hwake Hctl Hready Hret.
  set (w0 := set_errno 0 w).
  set (rest1 := RRead ret rerr data :: rest).
  destruct (after_select_spec s rest1 w0) as (Hscr & Herrno & Hopen & Hpid & nfds & fds & Htr).
  set (w1 := fail_errno ret rerr
               (emit (EvRead (clientSock s) (inputCount s) (kInputBufferSize - inputCount s))
                  (set_script rest (after_select s rest1 w0)))).
  assert (Hpi : processIncoming (S loops) fuel s w
                = ('(how, s2, w2) <-
                     (if ret <? 0 then
                        if negb (errno w1 =? EINTR) then Returned (ExitFail, s, w1)
                        else Returned (ExitReturn true, s, LOG "+++ EINTR hit" w1)
                      else Returned (ExitFail, s, w1)) ;;
                   match how with
                   | ExitReturn b => Returned (b, s2, w2)
                   | ExitFail => fail s2 w2
                   | ExitBreak readCount =>
                       let s3 := set_inputCount (inputCount s2 + readCount) s2 in
                       if negb (HaveFullPacket s3) then Returned (true, s3, w2)
                       else handshake_or_packet fuel s3 w2
                   end)).
  { unfold processIncoming.
    rewrite (geb_true _ Hcl), Hfull. cbn [negb]. fold w0.
    rewrite (select_loop_pass loops fuel s w0 selCount serr ready rest1 Hcl Hs Hsel Hwake).
    rewrite (drain_control_not_ready _ _ _ _ _ Hctl). cbn [bindO].
    unfold read_client. rewrite (geb_true _ Hcl), (reported_client _ _ _ Hcl), Hready.
    cbn [andb]. rewrite (sys_read_answer _ _ _ _ _ _ _ _ Hscr). cbn [bindO]. fold w1.
    assert (E : (ret >? 0) = false) by (rewrite Z.gtb_ltb; apply Z.ltb_ge; lia).
    rewrite E.
    destruct (ret <? 0) eqn:Eneg.
    - destruct (negb (errno w1 =? EINTR)); reflexivity.
    - assert (ret = 0) by (apply Z.ltb_ge in Eneg; lia). subst ret. reflexivity. }
  exists w1. split.
  { unfold w1, fail_errno. destruct (ret <? 0); reflexivity. }
  split.
  { exists nfds, fds. unfold w1, fail_errno.
    destruct (ret <? 0); cbn [trace set_errno emit set_script]; rewrite Htr;
      rewrite <- !app_assoc; reflexivity. }
  assert (Herr1 : ret < 0 -> errno w1 = rerr).
  { intro Hneg. unfold w1, fail_errno.
    assert (E : (ret <? 0) = true) by (apply Z.ltb_lt; exact Hneg).
    rewrite E. reflexivity. }
  split; [|split].
  - intros Hneg He. rewrite Hpi.
    assert (E : (ret <? 0) = true) by (apply Z.ltb_lt; exact Hneg).
    rewrite E, (Herr1 Hneg), He, Z.eqb_refl. reflexivity.
  - intros Hneg He. rewrite Hpi.
    assert (E : (ret <? 0) = true) by (apply Z.ltb_lt; exact Hneg).
    assert (E' : (rerr =? EINTR) = false) by (apply Z.eqb_neq; exact He).
    rewrite E, (Herr1 Hneg), E'. cbn [negb bindO]. unfold fail.
    destruct (Close s w1); reflexivity.
  - intros ->. rewrite Hpi. cbn [Z.ltb Z.compare bindO]. unfold fail.
    destruct (Close s w1); reflexivity.
Qed.

End ProcessIncoming.

(** ** The handshake *)

Lemma nat_of_ascii_diff (x y : ascii) :
  x <> y -> Z.of_nat (nat_of_ascii x) - Z.of_nat (nat_of_ascii y) <> 0.
Proof.
  intros Hne Hz. apply Hne.
  rewrite <- (ascii_nat_embedding x), <- (ascii_nat_embedding y).
  f_equal. lia.
Qed.

Lemma memcmp_zero_iff (n : nat) :
  forall a b, List.length b = n -> (memcmp a b n = 0 <-> firstn n a = b).
Proof.
  induction n as [|n IH]; intros a b Hlen.
  - destruct b; [|discriminate]. cbn. split; reflexivity.
  - destruct b as [|y b]; [discriminate|]. injection Hlen as Hlen.
    destruct a as [|x a]; cbn [memcmp firstn].
    + split; [lia | discriminate].
    + destruct (Ascii.eqb_spec x y) as [->|Hne].
      * rewrite (IH a b Hlen). split; [intros ->; reflexivity | intro H; injection H; auto].
      * split.
        -- intro H. exfalso. exact (nat_of_ascii_diff x y Hne H).
        -- intro H. injection H as H _. contradiction.
Qed.

Lemma TEMP_FAILURE_RETRY_write_interrupted (n : nat) :
  forall fuel fd buf w rest,
    script w = eintr_writes n ++ rest ->
    TEMP_FAILURE_RETRY (n + fuel) (sys_write fd buf) w
    = TEMP_FAILURE_RETRY fuel (sys_write fd buf)
        (mkWorld (trace w ++ repeat (EvWrite fd buf) n) (open_fds w)
                 (match n with O => errno w | S _ => EINTR end) (pid w) rest).
Proof.
  induction n as [|n IH]; intros fuel fd buf w rest Hs.
  - simpl in Hs. rewrite app_nil_r, <- Hs, world_eta. reflexivity.
  - simpl in Hs. change (S n + fuel)%nat with (S (n + fuel)).
    cbn [TEMP_FAILURE_RETRY]. rewrite (sys_write_answer _ _ _ _ _ _ Hs).
    cbn [bindO fail_errno Z.ltb Z.compare].
    cbn [errno set_errno emit set_script]. rewrite !Z.eqb_refl. cbn [andb].
    rewrite (IH fuel fd buf _ rest) by reflexivity.
    f_equal. cbn [trace open_fds errno pid script set_errno emit set_script].
    rewrite <- app_assoc. simpl. destruct n; reflexivity.
Qed.

(** In the model of the methods defined elsewhere, a connection that awaits
    the handshake has its chunk complete as soon as 14 bytes are buffered. *)
Lemma HaveFullPacket_model_handshake (s : JdwpNetState) :
  IsAwaitingHandshake s = true -> 14 <= inputCount s -> HaveFullPacket_model s = true.
Proof.
  intros Ha Hn. unfold HaveFullPacket_model. rewrite Ha.
  apply Z.leb_le. exact Hn.
Qed.

(** *** The wait loop leaves the handshake flag alone *)

Lemma bindO_returned {A B : Type} (m : Outcome A) (k : A -> Outcome B) (b : B) :
  bindO m k = Returned b -> exists a, m = Returned a /\ k a = Returned b.
Proof.
  destruct m as [a| | |l]; cbn [bindO]; intro H; try discriminate.
  exists a. split; [reflexivity | exact H].
Qed.

Lemma after_call_awaiting peer s :
  IsAwaitingHandshake (after_call peer s) = IsAwaitingHandshake s.
Proof.
  destruct peer; [|reflexivity]. unfold after_call, peer_shutdown.
  destruct s as [cl buf cnt aw ctl sd wk].
  cbv beta iota zeta delta [set_shuttingDown set_clientSock set_controlSock
       clientSock controlSock wakeFds inputBuffer inputCount awaiting_handshake_
       shuttingDown IsAwaitingHandshake].
  destruct (cl >=? 0); cbv beta iota; destruct (ctl >=? 0); reflexivity.
Qed.

Lemma recvmsg_retry_awaiting fuel :
  forall d s w ret d' s' w',
    recvmsg_retry fuel d s w = Returned (ret, d', s', w') ->
    IsAwaitingHandshake s' = IsAwaitingHandshake s.
Proof.
  induction fuel as [|fuel IH]; intros d s w ret d' s' w' H; [discriminate|].
  cbn [recvmsg_retry] in H. apply bindO_returned in H.
  destruct H as ([[[r d1] peer] w1] & _ & H).
  destruct ((r <? 0) && (errno w1 =? EINTR)).
  - rewrite (IH _ _ _ _ _ _ _ H). apply after_call_awaiting.
  - injection H as _ _ <- _. apply after_call_awaiting.
Qed.

Lemma receiveClientFd_awaiting fuel s w fd s' w' :
  receiveClientFd fuel s w = Returned (fd, s', w') ->
  IsAwaitingHandshake s' = IsAwaitingHandshake s.
Proof.
  unfold receiveClientFd. intro H. apply bindO_returned in H.
  destruct H as ([[[r d1] s1] w1] & Hr & H).
  apply recvmsg_retry_awaiting in Hr. rewrite <- Hr.
  destruct (r <=? 0); injection H as _ <- _; reflexivity.
Qed.

Lemma drain_control_awaiting fuel readfds s w s' w' :
  drain_control fuel readfds s w = Returned (s', w') ->
  IsAwaitingHandshake s' = IsAwaitingHandshake s.
Proof.
  unfold drain_control. intro H.
  destruct ((controlSock s >=? 0) && FD_ISSET (controlSock s) readfds).
  - apply bindO_returned in H. destruct H as ([[sock s1] w1] & Hr & H).
    apply receiveClientFd_awaiting in Hr. rewrite <- Hr.
    destruct (sock >=? 0); [injection H as <- _; reflexivity|].
    destruct (controlSock s1 <? 0); [injection H as <- _; reflexivity | discriminate].
  - injection H as <- _. reflexivity.
Qed.

Lemma read_client_awaiting readfds s w how s' w' :
  read_client readfds s w = Returned (how, s', w') ->
  IsAwaitingHandshake s' = IsAwaitingHandshake s.
Proof.
  unfold read_client. intro H.
  destruct ((clientSock s >=? 0) && FD_ISSET (clientSock s) readfds).
  - apply bindO_returned in H. destruct H as ([[rc data] w1] & _ & H).
    cbv zeta in H.
    assert (Hs : IsAwaitingHandshake
                   (if rc >? 0
                    then set_inputBuffer (store_at (inputBuffer s) (inputCount s) rc data) s
                    else s) = IsAwaitingHandshake s)
      by (destruct (rc >? 0); reflexivity).
    rewrite <- Hs.
    destruct (rc <? 0).
    + destruct (negb (errno w1 =? EINTR)); injection H as _ <- _; reflexivity.
    + destruct (rc =? 0); injection H as _ <- _; reflexivity.
  - injection H as _ <- _. reflexivity.
Qed.

Lemma select_loop_awaiting loops :
  forall fuel s w how s' w',
    select_loop loops fuel s w = Returned (how, s', w') ->
    IsAwaitingHandshake s' = IsAwaitingHandshake s.
Proof.
  induction loops as [|loops IH]; intros fuel s w how s' w' H; [discriminate|].
  cbn [select_loop] in H.
  destruct (configure_fds s w) as [[readfds maxfd] w0].
  destruct (maxfd <? 0); [injection H as _ <- _; reflexivity|].
  apply bindO_returned in H. destruct H as ([[[selCount fds] peer] w1] & _ & H).
  cbv zeta in H.
  rewrite <- (after_call_awaiting peer s).
  destruct (selCount <? 0).
  { destruct (errno w1 =? EINTR); [exact (IH _ _ _ _ _ _ H)|].
    injection H as _ <- _. reflexivity. }
  destruct ((fst (wakeFds (after_call peer s)) >=? 0)
            && FD_ISSET (fst (wakeFds (after_call peer s))) fds).
  { injection H as _ <- _. reflexivity. }
  apply bindO_returned in H. destruct H as ([s1 w2] & Hd & H).
  apply drain_control_awaiting in Hd. rewrite <- Hd.
  apply bindO_returned in H. destruct H as ([[h s2] w3] & Hr & H).
  apply read_client_awaiting in Hr. rewrite <- Hr.
  destruct h as [h|]; [injection H as _ <- _; reflexivity|].
  exact (IH _ _ _ _ _ _ H).
Qed.

(** *** The wait loop writes nothing *)

Lemma writes_of_app (t1 t2 : list Event) :
  writes_of (t1 ++ t2) = writes_of t1 ++ writes_of t2.
Proof.
  induction t1 as [|e t1 IH]; [reflexivity|].
  destruct e; cbn [app writes_of]; rewrite IH; reflexivity.
Qed.

Lemma trace_answered ret err e rest w :
  trace (fail_errno ret err (emit e (set_script rest w))) = trace w ++ [e].
Proof. unfold fail_errno. destruct (ret <? 0); reflexivity. Qed.

Lemma recvmsg_retry_writes fuel :
  forall d s w ret d' s' w',
    recvmsg_retry fuel d s w = Returned (ret, d', s', w') ->
    writes_of (trace w') = writes_of (trace w).
Proof.
  induction fuel as [|fuel IH]; intros d s w ret d' s' w' H; [discriminate|].
  cbn [recvmsg_retry] in H. apply bindO_returned in H.
  destruct H as ([[[r d1] peer] w1] & Hsys & H).
  assert (Hw1 : writes_of (trace w1) = writes_of (trace w)).
  { unfold sys_recvmsg in Hsys. destruct (script w) as [|[] rest]; try discriminate.
    cbv zeta in Hsys. destruct (ret0 <? 0).
    - injection Hsys as _ _ _ <-. rewrite trace_answered, writes_of_app. apply app_nil_r.
    - destruct ancillary_fd as [c|]; injection Hsys as _ _ _ <-.
      + cbn [trace install_fd]. rewrite trace_answered, writes_of_app. apply app_nil_r.
      + rewrite trace_answered, writes_of_app. apply app_nil_r. }
  destruct ((r <? 0) && (errno w1 =? EINTR)).
  - rewrite (IH _ _ _ _ _ _ _ H). exact Hw1.
  - injection H as _ _ _ <-. exact Hw1.
Qed.

Lemma receiveClientFd_writes fuel s w fd s' w' :
  receiveClientFd fuel s w = Returned (fd, s', w') ->
  writes_of (trace w') = writes_of (trace w).
Proof.
  unfold receiveClientFd. intro H. apply bindO_returned in H.
  destruct H as ([[[r d1] s1] w1] & Hr & H).
  apply recvmsg_retry_writes in Hr.
  destruct (r <=? 0); injection H as _ _ <-; [|exact Hr].
  rewrite trace_after_close, writes_of_app.
  destruct (r <? 0); unfold LOG; cbn [trace emit];
    rewrite ?writes_of_app; cbn [writes_of]; rewrite ?app_nil_r; exact Hr.
Qed.

Lemma drain_control_writes fuel readfds s w s' w' :
  drain_control fuel readfds s w = Returned (s', w') ->
  writes_of (trace w') = writes_of (trace w).
Proof.
  unfold drain_control. intro H.
  destruct ((controlSock s >=? 0) && FD_ISSET (controlSock s) readfds).
  - apply bindO_returned in H. destruct H as ([[sock s1] w1] & Hr & H).
    apply receiveClientFd_writes in Hr.
    destruct (sock >=? 0).
    + injection H as _ <-. rewrite trace_after_close, writes_of_app. unfold LOG.
      cbn [trace emit]. rewrite writes_of_app. cbn [writes_of].
      rewrite !app_nil_r. exact Hr.
    + destruct (controlSock s1 <? 0); [injection H as _ <-; exact Hr | discriminate].
  - injection H as _ <-. reflexivity.
Qed.

Lemma read_client_writes readfds s w how s' w' :
  read_client readfds s w = Returned (how, s', w') ->
  writes_of (trace w') = writes_of (trace w).
Proof.
  unfold read_client. intro H.
  destruct ((clientSock s >=? 0) && FD_ISSET (clientSock s) readfds).
  - apply bindO_returned in H. destruct H as ([[rc data] w1] & Hsys & H).
    assert (Hw1 : writes_of (trace w1) = writes_of (trace w)).
    { unfold sys_read in Hsys. destruct (script w) as [|[] rest]; try discriminate.
      injection Hsys as _ _ <-. rewrite trace_answered, writes_of_app. apply app_nil_r. }
    cbv zeta in H. destruct (rc <? 0).
    + destruct (negb (errno w1 =? EINTR)); injection H as _ _ <-; [exact Hw1|].
      unfold LOG. cbn [trace emit]. rewrite writes_of_app. cbn [writes_of].
      rewrite app_nil_r. exact Hw1.
    + destruct (rc =? 0); injection H as _ _ <-; exact Hw1.
  - injection H as _ _ <-. reflexivity.
Qed.

Lemma select_loop_writes loops :
  forall fuel s w how s' w',
    select_loop loops fuel s w = Returned (how, s', w') ->
    writes_of (trace w') = writes_of (trace w).
Proof.
  induction loops as [|loops IH]; intros fuel s w how s' w' H; [discriminate|].
  cbn [select_loop] in H.
  destruct (configure_fds s w) as [[readfds maxfd] w0] eqn:Ecfg.
  assert (Hw0 : writes_of (trace w0) = writes_of (trace w)).
  { destruct (configure_fds_spec _ _ _ _ _ Ecfg) as (_ & _ & _ & _ & Ht & _).
    rewrite Ht, writes_of_app. unfold wakepipe_note.
    destruct (fst (wakeFds s) >=? 0); apply app_nil_r. }
  destruct (maxfd <? 0); [injection H as _ _ <-; exact Hw0|].
  apply bindO_returned in H. destruct H as ([[[selCount fds] peer] w1] & Hsys & H).
  assert (Hw1 : writes_of (trace w1) = writes_of (trace w)).
  { unfold sys_select in Hsys. destruct (script w0) as [|[] rest]; try discriminate.
    injection Hsys as _ _ _ <-. rewrite trace_answered, writes_of_app, Hw0.
    apply app_nil_r. }
  cbv zeta in H.
  destruct (selCount <? 0).
  { destruct (errno w1 =? EINTR); [rewrite (IH _ _ _ _ _ _ H); exact Hw1|].
    injection H as _ _ <-. unfold LOG. cbn [trace emit].
    rewrite writes_of_app. cbn [writes_of]. rewrite app_nil_r. exact Hw1. }
  destruct ((fst (wakeFds (after_call peer s)) >=? 0)
            && FD_ISSET (fst (wakeFds (after_call peer s))) fds).
  { injection H as _ _ <-. unfold LOG. cbn [trace emit].
    rewrite writes_of_app. cbn [writes_of]. rewrite app_nil_r. exact Hw1. }
  apply bindO_returned in H. destruct H as ([s1 w2] & Hd & H).
  apply drain_control_writes in Hd.
  apply bindO_returned in H. destruct H as ([[h s2] w3] & Hr & H).
  apply read_client_writes in Hr.
  destruct h as [h|].
  - injection H as _ _ <-. rewrite Hr, Hd. exact Hw1.
  - rewrite (IH _ _ _ _ _ _ H), Hr, Hd. exact Hw1.
Qed.

Section Handshake.

Context {EM : ExternMethods}.

Lemma processIncoming_full_packet loops fuel s w :
  0 <= clientSock s ->
  HaveFullPacket s = true ->
  processIncoming loops fuel s w = handshake_or_packet fuel s w.
Proof.
  intros Hcl Hfull. unfold processIncoming.
  rewrite (geb_true _ Hcl), Hfull. reflexivity.
Qed.

(** A call of processIncoming that leaves its wait by [break]: the bytes
    read are counted in, and the call goes on when they complete a packet. *)
Lemma processIncoming_after_read loops fuel s w rc s1 w1 :
  0 <= clientSock s ->
  HaveFullPacket s = false ->
  select_loop loops fuel s (set_errno 0 w) = Returned (ExitBreak rc, s1, w1) ->
  processIncoming loops fuel s w
  = (if HaveFullPacket (set_inputCount (inputCount s1 + rc) s1)
     then handshake_or_packet fuel (set_inputCount (inputCount s1 + rc) s1) w1
     else Returned (true, set_inputCount (inputCount s1 + rc) s1, w1)).
Proof.
  intros Hcl Hnot Hloop. unfold processIncoming.
  rewrite (geb_true _ Hcl), Hnot. cbn [negb]. cbv zeta. rewrite Hloop. cbn [bindO].
  destruct (HaveFullPacket (set_inputCount (inputCount s1 + rc) s1)); reflexivity.
Qed.

(** Both ways to the code behind the wait lead to [handshake_or_packet], with
    the handshake flag of the entry and with nothing written on the way. *)
Lemma processIncoming_packet_ready loops fuel s w sh wh :
  0 <= clientSock s ->
  packet_ready loops fuel s w sh wh ->
  processIncoming loops fuel s w = handshake_or_packet fuel sh wh
  /\ IsAwaitingHandshake sh = IsAwaitingHandshake s
  /\ writes_of (trace wh) = writes_of (trace w).
Proof.
  intros Hcl [Hfull | rc s1 w1 Hnot Hloop Hfull].
  - split; [apply processIncoming_full_packet; assumption|]. split; reflexivity.
  - split; [|split].
    + rewrite (processIncoming_after_read _ _ _ _ _ _ _ Hcl Hnot Hloop), Hfull.
      reflexivity.
    + rewrite <- (select_loop_awaiting _ _ _ _ _ _ _ Hloop). reflexivity.
    + exact (select_loop_writes _ _ _ _ _ _ _ Hloop).
Qed.

(** The handshake branch on a buffer that starts with the literal. *)
Lemma handshake_echo n fuel s w cc err rest :
  IsAwaitingHandshake s = true ->
  firstn 14 (inputBuffer s) = kMagicHandshake ->
  script w = eintr_writes n ++ RWrite cc err :: rest ->
  ~ (cc = -1 /\ err = EINTR) ->
  exists w1,
    script w1 = rest
    /\ open_fds w1 = open_fds w
    /\ trace w1 = trace w ++ repeat (EvWrite (clientSock s) kMagicHandshake) (S n)
    /\ handshake_or_packet (n + S fuel) s w
       = (if negb (cc =? kMagicHandshakeLen)
          then fail s (LOG "Failed writing handshake bytes" w1)
          else Returned (true,
                         SetAwaitingHandshake false (ConsumeBytes kMagicHandshakeLen s),
                         w1)).
Proof.
  intros Hawait Hgood Hs Hnot.
  assert (Hlen : List.length kMagicHandshake = Z.to_nat kMagicHandshakeLen) by reflexivity.
  pose proof (memcmp_zero_iff _ (inputBuffer s) kMagicHandshake Hlen) as Hcmp.
  change (Z.to_nat kMagicHandshakeLen) with 14%nat in Hcmp.
  set (w1 := fail_errno cc err
               (emit (EvWrite (clientSock s) kMagicHandshake)
                  (set_script rest
                     (mkWorld (trace w ++ repeat (EvWrite (clientSock s) kMagicHandshake) n)
                              (open_fds w)
                              (match n with O => 0 | S _ => EINTR end) (pid w)
                              (RWrite cc err :: rest))))).
  exists w1. split; [|split; [|split]].
  - unfold w1, fail_errno. destruct (cc <? 0); reflexivity.
  - unfold w1, fail_errno. destruct (cc <? 0); reflexivity.
  - unfold w1, fail_errno.
    destruct (cc <? 0); cbn [trace set_errno emit set_script];
      rewrite <- app_assoc; f_equal;
      (replace (S n) with (n + 1)%nat by lia); rewrite repeat_app; reflexivity.
  - unfold handshake_or_packet. rewrite Hawait.
    change (Z.to_nat kMagicHandshakeLen) with 14%nat.
    apply Hcmp in Hgood as Hz. rewrite Hz. cbn [Z.eqb negb]. rewrite Hgood.
    rewrite (TEMP_FAILURE_RETRY_write_interrupted n (S fuel) _ _ (set_errno 0 w)
               (RWrite cc err :: rest) Hs).
    cbn [TEMP_FAILURE_RETRY trace open_fds errno pid set_errno].
    rewrite (sys_write_answer _ _ _ cc err rest) by reflexivity.
    cbn [bindO]. fold w1.
    assert (E : (cc =? -1) && (errno w1 =? EINTR) = false).
    { destruct (Z.eqb_spec cc (-1)) as [->|Hne]; [|reflexivity].
      cbn [andb]. unfold w1. cbn [fail_errno Z.ltb Z.compare errno set_errno].
      apply Z.eqb_neq. intro He. apply Hnot. split; [reflexivity | exact He]. }
    rewrite E. reflexivity.
Qed.

(** A call that returns true with the handshake flag cleared at its entry
    leaves it cleared, provided the packet handler does. *)
Lemma processIncoming_keeps_cleared_flag loops fuel s w s' w' :
  (forall s2 w2 r s3 w3,
     HandlePacket s2 w2 = Returned (r, s3, w3) ->
     IsAwaitingHandshake s2 = false -> IsAwaitingHandshake s3 = false) ->
  processIncoming loops fuel s w = Returned (true, s', w') ->
  IsAwaitingHandshake s = false ->
  IsAwaitingHandshake s' = false.
Proof.
  intros Hhp H Hflag. unfold processIncoming in H.
  destruct (negb (clientSock s >=? 0)); [discriminate|].
  destruct (HaveFullPacket s).
  - cbn [negb] in H. unfold handshake_or_packet in H. rewrite Hflag in H.
    exact (Hhp _ _ _ _ _ H Hflag).
  - cbn [negb] in H. cbv zeta in H. apply bindO_returned in H.
    destruct H as ([[how s1] w1] & Hloop & H).
    pose proof (select_loop_awaiting _ _ _ _ _ _ _ Hloop) as Hsame.
    rewrite Hflag in Hsame.
    destruct how as [b| |rc].
    + injection H as _ <- _. exact Hsame.
    + unfold fail in H. destruct (Close s1 w1). discriminate.
    + destruct (HaveFullPacket (set_inputCount (inputCount s1 + rc) s1)).
      * cbn [negb] in H. unfold handshake_or_packet in H.
        change (IsAwaitingHandshake (set_inputCount (inputCount s1 + rc) s1))
          with (IsAwaitingHandshake s1) in H.
        rewrite Hsame in H. exact (Hhp _ _ _ _ _ H Hsame).
      * cbn [negb] in H. injection H as <- _. exact Hsame.
Qed.

(** C1.  The handshake of a connection.  A call of processIncoming comes to
    the code behind its wait either at once, with a full chunk buffered at
    its entry, or after the read that completes the chunk (this is how every
    handshake arrives, acceptConnection having reset the count to 0); on
    either way the handshake flag is the one of the entry and nothing has
    been written.  With the flag set, the first 14 bytes of the buffer are
    compared with "JDWP-Handshake": on a mismatch nothing is written and the
    call goes to [fail] (Close, return false); on a match those 14 bytes are
    written to the client socket (again after each EINTR), a result other
    than 14 goes to [fail], and on 14 the call consumes 14 bytes, clears the
    flag and returns true.  With the flag cleared the call hands the packet
    to the packet handler on either way and writes no echo; the wait loop
    neither writes nor changes the flag; a call whose read does not complete
    a packet returns true with the flag as it was; and over any number of
    successful calls a cleared flag stays cleared as long as the packet
    handler leaves it alone: the echo is written at most once between two
    calls of acceptConnection. *)
Theorem handshake_checked_and_echoed :
  forall loops fuel s w sh wh,
    0 <= clientSock s ->
    packet_ready loops fuel s w sh wh ->
    (IsAwaitingHandshake sh = IsAwaitingHandshake s
     /\ writes_of (trace wh) = writes_of (trace w))
    /\ (IsAwaitingHandshake s = true ->
        firstn 14 (inputBuffer sh) <> kMagicHandshake ->
        processIncoming loops fuel s w
        = Returned (false, fst (Close sh (LOG "ERROR: bad handshake" wh)),
                           snd (Close sh (LOG "ERROR: bad handshake" wh))))
    /\ (IsAwaitingHandshake s = true ->
        firstn 14 (inputBuffer sh) = kMagicHandshake ->
        forall n cc err rest,
          script wh = eintr_writes n ++ RWrite cc err :: rest ->
          ~ (cc = -1 /\ err = EINTR) ->
          (n < fuel)%nat ->
          exists w1,
            script w1 = rest
            /\ open_fds w1 = open_fds wh
            /\ trace w1 = trace wh ++ repeat (EvWrite (clientSock sh) kMagicHandshake) (S n)
            /\ (cc = 14 ->
                processIncoming loops fuel s w
                = Returned (true, SetAwaitingHandshake false (ConsumeBytes 14 sh), w1)
                /\ IsAwaitingHandshake (SetAwaitingHandshake false (ConsumeBytes 14 sh))
                   = false)
            /\ (cc <> 14 ->
                processIncoming loops fuel s w
                = Returned (false,
                            fst (Close sh (LOG "Failed writing handshake bytes" w1)),
                            snd (Close sh (LOG "Failed writing handshake bytes" w1)))))
    /\ (IsAwaitingHandshake s = false ->
        processIncoming loops fuel s w = HandlePacket sh wh)
    /\ (forall loops2 fuel2 s2 w2 how s3 w3,
          select_loop loops2 fuel2 s2 w2 = Returned (how, s3, w3) ->
          IsAwaitingHandshake s3 = IsAwaitingHandshake s2
          /\ writes_of (trace w3) = writes_of (trace w2))
    /\ (forall loops2 fuel2 s2 w2 rc s3 w3,
          0 <= clientSock s2 ->
          HaveFullPacket s2 = false ->
          select_loop loops2 fuel2 s2 (set_errno 0 w2) = Returned (ExitBreak rc, s3, w3) ->
          HaveFullPacket (set_inputCount (inputCount s3 + rc) s3) = false ->
          processIncoming loops2 fuel2 s2 w2
          = Returned (true, set_inputCount (inputCount s3 + rc) s3, w3)
          /\ IsAwaitingHandshake (set_inputCount (inputCount s3 + rc) s3)
             = IsAwaitingHandshake s2)
    /\ ((forall s2 w2 r s3 w3,
           HandlePacket s2 w2 = Returned (r, s3, w3) ->
           IsAwaitingHandshake s2 = false -> IsAwaitingHandshake s3 = false) ->
        forall s2 w2 s3 w3,
          served s2 w2 s3 w3 ->
          IsAwaitingHandshake s2 = false -> IsAwaitingHandshake s3 = false).
Proof.
  intros loops fuel s w sh wh Hcl Hready.
  destruct (processIncoming_packet_ready _ _ _ _ _ _ Hcl Hready) as (Hrun & Hflag & Hwr).
  assert (Hlen : List.length kMagicHandshake = Z.to_nat kMagicHandshakeLen) by reflexivity.
  pose proof (memcmp_zero_iff _ (inputBuffer sh) kMagicHandshake Hlen) as Hcmp.
  change (Z.to_nat kMagicHandshakeLen) with 14%nat in Hcmp.
  split; [split; assumption|].
  split; [|split; [|split; [|split; [|split]]]].
  - intros Hawait Hbad. rewrite Hrun.
    unfold handshake_or_packet. rewrite Hflag, Hawait.
    change (Z.to_nat kMagicHandshakeLen) with 14%nat.
    destruct (memcmp (inputBuffer sh) kMagicHandshake 14 =? 0) eqn:E.
    + apply Z.eqb_eq, Hcmp in E. contradiction.
    + cbn [negb]. unfold fail.
      destruct (Close sh (LOG "ERROR: bad handshake" wh)); reflexivity.
  - intros Hawait Hgood n cc err rest Hs Hnot Hfuel.
    rewrite <- Hflag in Hawait.
    destruct (handshake_echo n (fuel - S n) sh wh cc err rest Hawait Hgood Hs Hnot)
      as (w1 & Hscr & Hopen & Htr & Hhs).
    replace (n + S (fuel - S n))%nat with fuel in Hhs by lia.
    exists w1. split; [exact Hscr|]. split; [exact Hopen|]. split; [exact Htr|].
    split.
    + intros ->. split; [|reflexivity]. rewrite Hrun, Hhs. reflexivity.
    + intros Hne. rewrite Hrun, Hhs.
      assert (E : (cc =? kMagicHandshakeLen) = false) by (apply Z.eqb_neq; exact Hne).
      rewrite E. cbn [negb]. unfold fail.
      destruct (Close sh (LOG "Failed writing handshake bytes" w1)); reflexivity.
  - intros Hclear. rewrite Hrun. unfold handshake_or_packet.
    rewrite Hflag, Hclear. reflexivity.
  - intros loops2 fuel2 s2 w2 how s3 w3 Hloop. split.
    + exact (select_loop_awaiting _ _ _ _ _ _ _ Hloop).
    + exact (select_loop_writes _ _ _ _ _ _ _ Hloop).
  - intros loops2 fuel2 s2 w2 rc s3 w3 Hcl2 Hnot Hloop Hstill. split.
    + rewrite (processIncoming_after_read _ _ _ _ _ _ _ Hcl2 Hnot Hloop), Hstill.
      reflexivity.
    + exact (select_loop_awaiting _ _ _ _ _ _ _ Hloop).
  - intros Hhp s2 w2 s3 w3 Hserved.
    induction Hserved as [s0 w0 | l f s0 w0 s1 w1 s2 w2 Hcall _ IH]; intro Hclear.
    + exact Hclear.
    + apply IH. exact (processIncoming_keeps_cleared_flag _ _ _ _ _ _ Hhp Hcall Hclear).
Qed.

End Handshake.

(** * The theorems at concrete sessions *)

(** ** C1 *)

Lemma handshake_checked_and_echoed_witness :
  (exists w1,
     trace w1 = [EvSelect 7 [4; 5; 6]; EvRead 5 0 8192; EvWrite 5 kMagicHandshake]
     /\ processIncoming (EM := model_methods) 1 1 attached
          (running 4321 [RSelect 1 0 [5] false; RRead 14 0 kMagicHandshake; RWrite 14 0])
        = Returned (true, SetAwaitingHandshake false (ConsumeBytes_model 14 greeted), w1))
  /\ inputCount (SetAwaitingHandshake false (ConsumeBytes_model 14 greeted)) = 0.
Proof.
  split; [|reflexivity].
  assert (Hloop : select_loop 1 1 attached
                    (set_errno 0
                       (running 4321 [RSelect 1 0 [5] false; RRead 14 0 kMagicHandshake;
                                      RWrite 14 0]))
                  = Returned (ExitBreak 14,
                              set_inputBuffer (inputBuffer greeted) attached,
                              mkWorld [EvSelect 7 [4; 5; 6]; EvRead 5 0 8192] [4; 5; 6; 7] 0
                                      4321 [RWrite 14 0]))
    by (vm_compute; reflexivity).
  pose proof (ready_after_read (EM := model_methods) 1 1 attached
                (running 4321 [RSelect 1 0 [5] false; RRead 14 0 kMagicHandshake;
                               RWrite 14 0])
                14 (set_inputBuffer (inputBuffer greeted) attached)
                (mkWorld [EvSelect 7 [4; 5; 6]; EvRead 5 0 8192] [4; 5; 6; 7] 0 4321
                         [RWrite 14 0])
                eq_refl Hloop eq_refl) as Hready.
  destruct (handshake_checked_and_echoed (EM := model_methods) 1 1 attached _ _ _
              ltac:(cbn; lia) Hready)
    as (_ & _ & Hgood & _).
  destruct (Hgood eq_refl eq_refl 0%nat 14 0 [] eq_refl ltac:(lia) ltac:(lia))
    as (w1 & _ & _ & Ht & Hok & _).
  exists w1. split; [exact Ht | exact (proj1 (Hok eq_refl))].
Defined.

(** Two calls on one connection: the first reads the 14 bytes of the
    handshake and echoes them, the second reads an empty packet and hands it
    to the packet handler.  The trace holds one write. *)
Example handshake_is_echoed_once_over_two_calls :
  match two_calls (EM := model_methods) 1 1 attached
          (running 4321 [RSelect 1 0 [5] false; RRead 14 0 kMagicHandshake; RWrite 14 0;
                         RSelect 1 0 [5] false; RRead 11 0 empty_packet]) with
  | Some (s1, w1, (s2, w2)) =>
      IsAwaitingHandshake s1 = false /\ inputCount s1 = 0
      /\ writes_of (trace w1) = [(5, kMagicHandshake)]
      /\ IsAwaitingHandshake s2 = false /\ inputCount s2 = 0
      /\ trace w2 = [EvSelect 7 [4; 5; 6]; EvRead 5 0 8192; EvWrite 5 kMagicHandshake;
                     EvSelect 7 [4; 5; 6]; EvRead 5 0 8192; EvHandlePacket empty_packet]
  | None => False
  end.
Proof. vm_compute. repeat split. Qed.

Example bad_handshake_is_not_echoed :
  processIncoming (EM := model_methods) 1 1 misgreeted (running 4321 [RWrite 14 0])
  = Returned (false, set_clientSock (-1) misgreeted,
              mkWorld [EvLog "ERROR: bad handshake"; EvClose 5] [4; 6; 7] 0 4321
                      [RWrite 14 0]).
Proof. reflexivity. Qed.

(** ** C2 *)

Lemma shutdown_then_free_leaks_sockets_witness :
  exists s' w',
    netShutdown 1 (Some attached) (running 4321 [RWrite 1 0]) = Returned (Some s', w')
    /\ shuttingDown s' = true /\ clientSock s' = -1 /\ controlSock s' = -1
    /\ trace (netFree (Some s') w')
       = [EvShutdown 5; EvShutdown 4; EvWrite 7 [zero]; EvClose 6; EvClose 7]
    /\ is_open 5 (netFree (Some s') w') = true
    /\ is_open 4 (netFree (Some s') w') = true
    /\ is_open 6 (netFree (Some s') w') = false
    /\ is_open 7 (netFree (Some s') w') = false.
Proof.
  apply (shutdown_then_free_leaks_sockets 0 attached (running 4321 [RWrite 1 0]) 1 0 []);
    try (cbn; lia); try reflexivity.
  repeat constructor; cbn; lia.
Defined.

(** ** C3 *)

Lemma pid_announced_after_connect_witness :
  exists s' w',
    acceptConnection false 1 2 new_JdwpNetState
      (starting 4321 [RSocket 3 0; RPipe 0 0 4 5; RConnect (-1) ECONNREFUSED; RUsleep false;
                      RConnect 0 0; RSend 4 0; RRecvmsg 1 0 (Some 9) false])
    = Returned (true, s', w')
    /\ trace w' = [EvSocket; EvPipe; EvConnect 3; EvUsleep 500000; EvConnect 3;
                   EvSend 3 (list_ascii_of_string "10e1"); EvRecvmsg 3].
Proof.
  destruct (pid_announced_after_connect false 1 0 0 new_JdwpNetState
              (starting 4321 [RSocket 3 0; RPipe 0 0 4 5; RConnect (-1) ECONNREFUSED;
                              RUsleep false; RConnect 0 0; RSend 4 0;
                              RRecvmsg 1 0 (Some 9) false])
              3 0 0 0 4 5 0 4 0 1 0 9 []
              eq_refl ltac:(cbn; lia) eq_refl ltac:(lia) ltac:(lia) ltac:(lia) ltac:(lia)
              ltac:(lia))
    as (s' & w' & Hrun & Htrace & _).
  exists s', w'. split; [exact Hrun | exact Htrace].
Defined.

(** The process identifier 74565 is 0x12345: "%04x" prints five digits, of
    which snprintf keeps the first four, and "1234" is what is sent; the low
    16 bits are 0x2345. *)
Lemma pid_above_16_bits_announced_by_leading_digits :
  acceptConnection false 1 1 new_JdwpNetState
    (starting 74565 [RSocket 3 0; RPipe 0 0 4 5; RConnect 0 0; RSend 4 0;
                     RRecvmsg 1 0 (Some 9) false])
  = Returned (true, accepted 3 (4, 5), after_announcing_74565)
  /\ In (EvSend 3 (list_ascii_of_string "1234")) (trace after_announcing_74565)
  /\ hex4_low16 74565 = list_ascii_of_string "2345"
  /\ pid_announcement 74565 <> hex4_low16 74565.
Proof.
  split; [vm_compute; reflexivity|].
  split; [cbn; tauto|].
  split; [reflexivity | discriminate].
Qed.

(** ** C4 *)


(** Six receives in a row that deliver no descriptor: the sixth failure ends
    the call, and the answers that follow are not touched. *)
Example six_receive_failures_end_the_call :
  acceptConnection false 6 1 attached
    (running 4321 (repeat (RRecvmsg 1 0 None false) 6 ++ [RRecvmsg 1 0 (Some 9) false]))
  = Returned (false, set_clientSock (-1) attached,
              mkWorld (repeat (EvRecvmsg 4) 6 ++ [EvLog "adb connection max retries exceeded"])
                      [4; 5; 6; 7] 0 4321 [RRecvmsg 1 0 (Some 9) false]).
Proof. vm_compute. reflexivity. Qed.

(** ** C5 *)


(** ** C6 *)

Lemma backoff_sleep_sequence_witness :
  exists s' w',
    acceptConnection false 1 5 new_JdwpNetState (starting 4321 slow_daemon_answers)
    = Returned (true, s', w')
    /\ usleeps_of (trace w')
       = map (fun k => sleep_ms_at k * 1000) (seq 0 4).
Proof.
  destruct (backoff_sleep_sequence false 4 0 0 new_JdwpNetState
              (starting 4321 slow_daemon_answers)
              3 0 0 0 4 5 0 4 0 1 0 9 []
              eq_refl ltac:(cbn; lia) eq_refl ltac:(lia) ltac:(lia) ltac:(lia) ltac:(lia)
              ltac:(lia))
    as ((s' & w' & Hrun & Hsleeps) & _).
  exists s', w'. split; [exact Hrun | exact Hsleeps].
Defined.

(** After the third failed attempt sleep_ms is 1125; one and a half times
    that is 1687.5, below the cap of 2000, but the fourth sleep is 1687 ms. *)
Lemma fourth_sleep_is_not_one_and_a_half_times_the_third :
  acceptConnection false 1 5 new_JdwpNetState (starting 4321 slow_daemon_answers)
  = Returned (true, accepted 3 (4, 5), after_slow_daemon)
  /\ usleeps_of (trace after_slow_daemon) = [500000; 750000; 1125000; 1687000]
  /\ sleep_ms_at 2 = 1125
  /\ sleep_ms_at 3 = 1687
  /\ 2 * sleep_ms_at 3 <> 3 * sleep_ms_at 2
  /\ 3 * sleep_ms_at 2 < 2 * 2000.
Proof.
  split; [vm_compute; reflexivity|].
  split; [reflexivity|]. split; [reflexivity|]. split; [reflexivity|].
  split; [discriminate | reflexivity].
Qed.

(** ** C7 *)

Lemma receiveClientFd_failure_closes_control_witness :
  exists s' w',
    receiveClientFd 2 attached
      (running 4321 [RRecvmsg (-1) EINTR None false; RRecvmsg 0 0 None false])
    = Returned (-1, s', w')
    /\ controlSock s' = -1
    /\ trace w' = [EvRecvmsg 4; EvRecvmsg 4; EvClose 4]
    /\ is_open 4 w' = false.
Proof.
  destruct (receiveClientFd_failure_closes_control 1 0 attached
              (running 4321 [RRecvmsg (-1) EINTR None false; RRecvmsg 0 0 None false])
              0 0 None false [] eq_refl ltac:(lia) ltac:(lia))
    as (s' & w' & Hrun & _ & Hctl & Htrace & Hclosed & _).
  exists s', w'. repeat split; assumption.
Defined.

(** ** C8 *)

Lemma client_read_without_data_witness :
  exists w1,
    script w1 = []
    /\ processIncoming (EM := model_methods) 1 1 attached
         (running 4321 [RSelect 1 0 [5] false; RRead (-1) EINTR []])
       = Returned (true, attached, LOG "+++ EINTR hit" w1).
Proof.
  destruct (client_read_without_data (EM := model_methods) 0 1 attached
              (running 4321 [RSelect 1 0 [5] false; RRead (-1) EINTR []])
              1 0 [5] (-1) EINTR [] []
              ltac:(cbn; lia) eq_refl eq_refl ltac:(lia) eq_refl eq_refl eq_refl ltac:(lia))
    as (w1 & Hscript & _ & Heintr & _).
  exists w1. split; [exact Hscript | exact (Heintr ltac:(lia) eq_refl)].
Defined.

(** The read is interrupted in the first round.  processIncoming returns
    true there and then: one select has been issued, and the answers of the
    second round, which would have delivered 3 bytes, are still to come. *)
Lemma interrupted_read_returns_without_another_wait :
  processIncoming (EM := model_methods) 3 3 attached (running 4321 interrupted_read_answers)
  = Returned (true, attached, after_interrupted_read)
  /\ selects_of (trace after_interrupted_read) = 1%nat
  /\ script after_interrupted_read
     = [RSelect 1 0 [5] false; RRead 3 0 (list_ascii_of_string "abc")].
Proof.
  split; [vm_compute; reflexivity|].
  split; reflexivity.
Qed.

(** ** C10 *)

Lemma receiveClientFd_negative_with_control_open_witness :
  (exists w1,
     receiveClientFd 1 attached (running 4321 [RRecvmsg 1 0 None false])
     = Returned (-1, attached, w1)
     /\ trace w1 = [EvRecvmsg 4]
     /\ open_fds w1 = [4; 5; 6; 7])
  /\ controlSock attached = 4
  /\ processIncoming (EM := model_methods) 1 1 attached
       (running 4321 [RSelect 1 0 [4] false; RRecvmsg 1 0 None false])
     = Aborted "CHECK_LT(netState->controlSock, 0)".
Proof.
  destruct (receiveClientFd_negative_with_control_open (EM := model_methods) 0 0 attached
              (running 4321 [RSelect 1 0 [4] false; RRecvmsg 1 0 None false])
              1 0 [4] 1 0 []
              ltac:(cbn; lia) eq_refl ltac:(cbn; lia) eq_refl ltac:(lia) eq_refl eq_refl
              ltac:(lia))
    as (Hrecv & Habort).
  split; [exact (Hrecv (running 4321 [RRecvmsg 1 0 None false]) eq_refl)|].
  split; [reflexivity | exact Habort].
Defined.

(** * Further properties of the transport *)

(** ** adbStateFree *)

Lemma adbStateFree_steps (s : JdwpNetState) (w : World) :
  adbStateFree (Some s) w
  = free_field false (snd (wakeFds s))
      (free_field false (fst (wakeFds s))
         (free_field true (controlSock s) (free_field true (clientSock s) w))).
Proof.
  destruct s as [cl buf cnt aw ctl sd [wk0 wk1]].
  unfold adbStateFree, free_field.
  cbv beta iota zeta delta [set_wakeFds clientSock controlSock wakeFds inputBuffer
       inputCount awaiting_handshake_ shuttingDown fst].
  destruct (cl >=? 0); destruct (ctl >=? 0); destruct (wk0 >=? 0);
    cbv beta iota zeta; cbn [snd]; destruct (wk1 >=? 0); reflexivity.
Qed.

Lemma free_field_closes socket fd w : 0 <= fd -> is_open fd (free_field socket fd w) = false.
Proof.
  intro H. unfold free_field. rewrite (geb_true _ H). apply is_open_after_close.
Qed.

Lemma free_field_other socket fd x w :
  x <> fd -> is_open x (free_field socket fd w) = is_open x w.
Proof.
  intro H. unfold free_field. destruct (fd >=? 0); [|reflexivity].
  rewrite is_open_after_close_other by assumption.
  destruct socket; [apply is_open_after_shutdown | reflexivity].
Qed.

Lemma free_field_keeps_closed socket fd x w :
  is_open x w = false -> is_open x (free_field socket fd w) = false.
Proof.
  intro H. destruct (Z.eq_dec x fd) as [->|Hne].
  - unfold free_field. destruct (fd >=? 0); [apply is_open_after_close | exact H].
  - rewrite free_field_other by assumption. exact H.
Qed.

Lemma free_field_trace socket fd w :
  trace (free_field socket fd w) = trace w ++ free_field_events socket fd.
Proof.
  unfold free_field, free_field_events. destruct (fd >=? 0); [|symmetry; apply app_nil_r].
  rewrite trace_after_close. destruct socket.
  - rewrite trace_after_shutdown, <- app_assoc. reflexivity.
  - reflexivity.
Qed.

(** X1.  adbStateFree on its own releases everything the state holds: every
    descriptor field that holds a descriptor (a value >= 0) is closed when
    it returns, each such field gets exactly one close (the sockets after a
    shutdown), and no other descriptor of the process is touched. *)
Theorem free_releases_all_held_descriptors :
  forall s w,
    (forall fd, 0 <= fd -> In fd (held_fds s) -> is_open fd (adbStateFree (Some s) w) = false)
    /\ (forall fd, ~ In fd (held_fds s) ->
          is_open fd (adbStateFree (Some s) w) = is_open fd w)
    /\ trace (adbStateFree (Some s) w)
       = trace w ++ free_field_events true (clientSock s)
           ++ free_field_events true (controlSock s)
           ++ free_field_events false (fst (wakeFds s))
           ++ free_field_events false (snd (wakeFds s)).
Proof.
  intros s w. rewrite adbStateFree_steps. split; [|split].
  - intros fd Hfd Hin. unfold held_fds in Hin. cbn [In] in Hin.
    destruct Hin as [<-|[<-|[<-|[<-|[]]]]].
    + do 3 apply free_field_keeps_closed. apply free_field_closes. exact Hfd.
    + do 2 apply free_field_keeps_closed. apply free_field_closes. exact Hfd.
    + apply free_field_keeps_closed. apply free_field_closes. exact Hfd.
    + apply free_field_closes. exact Hfd.
  - intros fd Hnot. unfold held_fds in Hnot. cbn [In] in Hnot.
    rewrite !free_field_other; [reflexivity| | | |]; intro; subst; tauto.
  - rewrite !free_field_trace, <- !app_assoc. reflexivity.
Qed.

(** ** adbStateShutdown *)

Lemma shutdowns_of_app (t1 t2 : list Event) :
  shutdowns_of (t1 ++ t2) = shutdowns_of t1 ++ shutdowns_of t2.
Proof.
  induction t1 as [|e t1 IH]; [reflexivity|].
  destruct e; cbn [app shutdowns_of]; rewrite IH; reflexivity.
Qed.

Lemma closes_of_app (t1 t2 : list Event) :
  closes_of (t1 ++ t2) = closes_of t1 ++ closes_of t2.
Proof.
  induction t1 as [|e t1 IH]; [reflexivity|].
  destruct e; cbn [app closes_of]; rewrite IH; reflexivity.
Qed.

(** What a completed TEMP_FAILURE_RETRY(write(...)) did to the environment:
    some number of write calls and nothing else. *)
Lemma TEMP_FAILURE_RETRY_write_effect fuel fd buf :
  forall w rc w',
    TEMP_FAILURE_RETRY fuel (sys_write fd buf) w = Returned (rc, w') ->
    open_fds w' = open_fds w
    /\ exists k, trace w' = trace w ++ repeat (EvWrite fd buf) (S k).
Proof.
  induction fuel as [|fuel IH]; intros w rc w' H; [discriminate|].
  cbn [TEMP_FAILURE_RETRY] in H. apply bindO_returned in H.
  destruct H as ([rc1 w1] & Hw & H).
  unfold sys_write in Hw. destruct (script w) as [|[] rest]; try discriminate.
  injection Hw as <- <-.
  assert (Ho : open_fds (fail_errno ret err (emit (EvWrite fd buf) (set_script rest w)))
               = open_fds w)
    by (unfold fail_errno; destruct (ret <? 0); reflexivity).
  assert (Ht : trace (fail_errno ret err (emit (EvWrite fd buf) (set_script rest w)))
               = trace w ++ [EvWrite fd buf])
    by (unfold fail_errno; destruct (ret <? 0); reflexivity).
  destruct ((ret =? -1)
            && (errno (fail_errno ret err (emit (EvWrite fd buf) (set_script rest w)))
                =? EINTR)).
  - destruct (IH _ _ _ H) as (Ho' & k & Ht'). split; [congruence|].
    exists (S k). rewrite Ht', Ht, <- app_assoc. reflexivity.
  - injection H as <- <-. split; [exact Ho|]. exists 0%nat. exact Ht.
Qed.

Lemma peer_shutdown_idempotent (s : JdwpNetState) :
  peer_shutdown (peer_shutdown s) = peer_shutdown s.
Proof.
  destruct s as [cl buf cnt aw ctl sd wk]. unfold peer_shutdown.
  cbv beta iota zeta delta [set_shuttingDown set_clientSock set_controlSock
       clientSock controlSock wakeFds inputBuffer inputCount awaiting_handshake_
       shuttingDown].
  destruct (cl >=? 0) eqn:E1; cbv beta iota; destruct (ctl >=? 0) eqn:E2;
    repeat (progress (cbv beta iota; rewrite ?E1, ?E2; change (-1 >=? 0) with false));
    reflexivity.
Qed.

Lemma peer_shutdown_fields (s : JdwpNetState) :
  shuttingDown (peer_shutdown s) = true
  /\ clientSock (peer_shutdown s) < 0
  /\ controlSock (peer_shutdown s) < 0
  /\ wakeFds (peer_shutdown s) = wakeFds s
  /\ inputBuffer (peer_shutdown s) = inputBuffer s
  /\ inputCount (peer_shutdown s) = inputCount s
  /\ awaiting_handshake_ (peer_shutdown s) = awaiting_handshake_ s.
Proof.
  destruct s as [cl buf cnt aw ctl sd wk]. unfold peer_shutdown.
  cbv beta iota zeta delta [set_shuttingDown set_clientSock set_controlSock
       clientSock controlSock wakeFds inputBuffer inputCount awaiting_handshake_
       shuttingDown].
  destruct (Z.geb_spec cl 0); cbv beta iota; destruct (Z.geb_spec ctl 0);
    repeat split; lia.
Qed.

Lemma adbStateShutdown_effect fuel s w r w' :
  adbStateShutdown fuel (Some s) w = Returned (r, w') ->
  open_fds w' = open_fds w
  /\ closes_of (trace w') = closes_of (trace w)
  /\ shutdowns_of (trace w')
     = shutdowns_of (trace w)
         ++ (if clientSock s >=? 0 then [clientSock s] else [])
         ++ (if controlSock s >=? 0 then [controlSock s] else []).
Proof.
  unfold adbStateShutdown.
  destruct s as [cl buf cnt aw ctl sd [wk0 wk1]].
  cbv beta iota zeta delta [set_shuttingDown set_clientSock set_controlSock
       clientSock controlSock wakeFds inputBuffer inputCount awaiting_handshake_
       shuttingDown].
  set (w1 := if cl >=? 0 then snd (sys_shutdown cl w) else w).
  set (w2 := if ctl >=? 0 then snd (sys_shutdown ctl w1) else w1).
  assert (Ho : open_fds w2 = open_fds w).
  { unfold w2, w1, sys_shutdown.
    destruct (ctl >=? 0); destruct (cl >=? 0);
      repeat match goal with |- context [is_open ?a ?b] => destruct (is_open a b) end;
      reflexivity. }
  assert (Ht : trace w2 = trace w ++ (if cl >=? 0 then [EvShutdown cl] else [])
                            ++ (if ctl >=? 0 then [EvShutdown ctl] else [])).
  { unfold w2, w1. destruct (ctl >=? 0); destruct (cl >=? 0);
      rewrite ?trace_after_shutdown, <- ?app_assoc, ?app_nil_r; reflexivity. }
  assert (Hrun : (if snd (wk0, wk1) >=? 0
                  then '(_, wz) <- TEMP_FAILURE_RETRY fuel (sys_write (snd (wk0, wk1)) [zero]) w2 ;;
                       Returned (r, wz)
                  else Returned (r, w2)) = Returned (r, w') ->
                 open_fds w' = open_fds w2
                 /\ exists k, trace w' = trace w2 ++ repeat (EvWrite wk1 [zero]) k).
  { cbn [snd]. destruct (wk1 >=? 0).
    - intro H. apply bindO_returned in H. destruct H as ([rc wz] & Hw & H).
      injection H as <-. destruct (TEMP_FAILURE_RETRY_write_effect _ _ _ _ _ _ Hw) as (Ho' & k & Hk).
      split; [exact Ho'|]. exists (S k). exact Hk.
    - intro H. injection H as <-. split; [reflexivity|]. exists 0%nat.
      symmetry. apply app_nil_r. }
  intro H.
  assert (H' : open_fds w' = open_fds w2
               /\ exists k, trace w' = trace w2 ++ repeat (EvWrite wk1 [zero]) k).
  { apply Hrun. clear Hrun. revert H. unfold w2, w1.
    destruct (cl >=? 0); destruct (ctl >=? 0); cbv beta iota zeta;
      destruct (snd (wk0, wk1) >=? 0); intro H;
      try (apply bindO_returned in H; destruct H as ([rc wz] & Hw & H);
           injection H as <- <-; rewrite Hw; reflexivity);
      try (injection H as <- <-; reflexivity). }
  destruct H' as (Ho' & k & Hk).
  assert (Hnw : forall k, shutdowns_of (repeat (EvWrite wk1 [zero]) k) = []
                          /\ closes_of (repeat (EvWrite wk1 [zero]) k) = []).
  { intro j. induction j as [|j [IH1 IH2]]; split; try reflexivity; assumption. }
  split; [congruence|]. split.
  - rewrite Hk, Ht, !closes_of_app. rewrite (proj2 (Hnw k)).
    destruct (cl >=? 0); destruct (ctl >=? 0); cbn [closes_of app]; rewrite ?app_nil_r;
      reflexivity.
  - rewrite Hk, Ht, !shutdowns_of_app. rewrite (proj1 (Hnw k)).
    destruct (cl >=? 0); destruct (ctl >=? 0); cbn [shutdowns_of app]; rewrite ?app_nil_r;
      reflexivity.
Qed.

(** X2.  What adbStateShutdown leaves behind.  When it returns, the state
    has [shuttingDown] set and both socket fields unset, the wake pipe
    fields and the input buffer are as before, the sockets that were held
    got a shutdown call each, and no descriptor at all has been closed: the
    descriptor table is the same as before the call. *)
Theorem shutdown_unsets_sockets_and_closes_nothing :
  forall fuel s w r w',
    adbStateShutdown fuel (Some s) w = Returned (r, w') ->
    exists s',
      r = Some s'
      /\ shuttingDown s' = true
      /\ clientSock s' < 0 /\ controlSock s' < 0
      /\ wakeFds s' = wakeFds s
      /\ inputBuffer s' = inputBuffer s /\ inputCount s' = inputCount s
      /\ IsAwaitingHandshake s' = IsAwaitingHandshake s
      /\ open_fds w' = open_fds w
      /\ closes_of (trace w') = closes_of (trace w)
      /\ shutdowns_of (trace w')
         = shutdowns_of (trace w)
             ++ (if clientSock s >=? 0 then [clientSock s] else [])
             ++ (if controlSock s >=? 0 then [controlSock s] else []).
Proof.
  intros fuel s w r w' H.
  pose proof (adbStateShutdown_assignments _ _ _ _ _ H) as Hr.
  destruct (adbStateShutdown_effect _ _ _ _ _ H) as (Ho & Hc & Hs).
  destruct (peer_shutdown_fields s) as (F1 & F2 & F3 & F4 & F5 & F6 & F7).
  exists (peer_shutdown s). repeat split; assumption.
Qed.

(** X3.  adbStateShutdown is idempotent.  A second call on the state the
    first one left does not change the state again and issues no further
    shutdown(2) and no close: at most it writes to the wake pipe once more. *)
Theorem shutdown_twice_changes_nothing_more :
  forall fuel fuel' s w s1 w1 r w2,
    adbStateShutdown fuel (Some s) w = Returned (Some s1, w1) ->
    adbStateShutdown fuel' (Some s1) w1 = Returned (r, w2) ->
    r = Some s1
    /\ shutdowns_of (trace w2) = shutdowns_of (trace w1)
    /\ closes_of (trace w2) = closes_of (trace w1)
    /\ open_fds w2 = open_fds w.
Proof.
  intros fuel fuel' s w s1 w1 r w2 H1 H2.
  pose proof (adbStateShutdown_assignments _ _ _ _ _ H1) as Hr1.
  injection Hr1 as ->.
  pose proof (adbStateShutdown_assignments _ _ _ _ _ H2) as Hr2.
  rewrite peer_shutdown_idempotent in Hr2.
  destruct (adbStateShutdown_effect _ _ _ _ _ H1) as (Ho1 & _ & _).
  destruct (adbStateShutdown_effect _ _ _ _ _ H2) as (Ho2 & Hc2 & Hs2).
  destruct (peer_shutdown_fields s) as (_ & F2 & F3 & _).
  split; [exact Hr2|]. split; [|split; [exact Hc2 | congruence]].
  rewrite Hs2.
  assert (E1 : (clientSock (peer_shutdown s) >=? 0) = false)
    by (rewrite Z.geb_leb; apply Z.leb_gt; exact F2).
  assert (E2 : (controlSock (peer_shutdown s) >=? 0) = false)
    by (rewrite Z.geb_leb; apply Z.leb_gt; exact F3).
  rewrite E1, E2. cbn [app]. apply app_nil_r.
Qed.

(** ** What the calls leave of the state *)

Lemma after_call_not_shutdown peer s :
  shuttingDown (after_call peer s) = false -> after_call peer s = s.
Proof.
  destruct peer; [|reflexivity]. cbn [after_call].
  destruct (peer_shutdown_fields s) as (F & _). rewrite F. discriminate.
Qed.

Lemma after_call_cases peer s : after_call peer s = s \/ after_call peer s = peer_shutdown s.
Proof. destruct peer; [right|left]; reflexivity. Qed.

Lemma is_open_install_mono fd x w : is_open fd w = true -> is_open fd (install_fd x w) = true.
Proof.
  intro H. unfold install_fd. destruct (is_open x w) eqn:E.
  - exact H.
  - unfold is_open in *. cbn [open_fds existsb]. rewrite H. apply orb_true_r.
Qed.

(** The state after the receive loop is the state before it, or that state
    after a shutdown by the VM thread; the int of the control buffer is the
    one it started with or a descriptor that is now open. *)
Lemma recvmsg_retry_result fuel :
  forall d s w ret d' s' w',
    recvmsg_retry fuel d s w = Returned (ret, d', s', w') ->
    (s' = s \/ s' = peer_shutdown s)
    /\ (d' = d \/ is_open d' w' = true).
Proof.
  induction fuel as [|fuel IH]; intros d s w ret d' s' w' H; [discriminate|].
  cbn [recvmsg_retry] in H. apply bindO_returned in H.
  destruct H as ([[[r d1] peer] w1] & Hsys & H).
  assert (Hd1 : d1 = d \/ is_open d1 w1 = true).
  { unfold sys_recvmsg in Hsys. destruct (script w) as [|[] rest]; try discriminate.
    cbv zeta in Hsys. destruct (ret0 <? 0).
    - injection Hsys as _ <- _ _. left. reflexivity.
    - destruct ancillary_fd as [c|]; injection Hsys as _ <- _ <-.
      + right. apply is_open_install.
      + left. reflexivity. }
  destruct ((r <? 0) && (errno w1 =? EINTR)) eqn:Eloop.
  - assert (d1 = d).
    { unfold sys_recvmsg in Hsys. destruct (script w) as [|[] rest]; try discriminate.
      cbv zeta in Hsys. destruct (ret0 <? 0) eqn:Eneg.
      - injection Hsys as _ <- _ _. reflexivity.
      - exfalso. destruct ancillary_fd; injection Hsys as <- _ _ _;
          rewrite Eneg in Eloop; discriminate. }
    subst d1. destruct (IH _ _ _ _ _ _ _ H) as (Hs & Hd). split; [|exact Hd].
    destruct (after_call_cases peer s) as [E|E]; rewrite E in Hs.
    + exact Hs.
    + right. destruct Hs as [->| ->]; [reflexivity | apply peer_shutdown_idempotent].
  - injection H as <- <- <- <-. split; [apply after_call_cases | exact Hd1].
Qed.

Lemma receiveClientFd_result fuel s w fd s' w' :
  receiveClientFd fuel s w = Returned (fd, s', w') ->
  (fd = -1 \/ is_open fd w' = true)
  /\ inputBuffer s' = inputBuffer s
  /\ inputCount s' = inputCount s
  /\ wakeFds s' = wakeFds s
  /\ (shuttingDown s = true -> shuttingDown s' = true)
  /\ (shuttingDown s' = false -> fd <> -1 -> s' = s).
Proof.
  unfold receiveClientFd. intro H. apply bindO_returned in H.
  destruct H as ([[[r d1] s1] w1] & Hr & H).
  destruct (recvmsg_retry_result _ _ _ _ _ _ _ _ Hr) as (Hs & Hd).
  destruct (peer_shutdown_fields s) as (F1 & _ & _ & F4 & F5 & F6 & _).
  assert (Hframe : inputBuffer s1 = inputBuffer s /\ inputCount s1 = inputCount s
                   /\ wakeFds s1 = wakeFds s
                   /\ (shuttingDown s = true -> shuttingDown s1 = true)
                   /\ (shuttingDown s1 = false -> s1 = s)).
  { destruct Hs as [->| ->].
    - repeat split; auto.
    - repeat split; auto. rewrite F1. discriminate. }
  destruct Hframe as (B & C & W & S1 & S2).
  destruct (r <=? 0).
  - injection H as <- <- _. split; [left; reflexivity|].
    repeat split; auto. intros _ Hne. contradiction.
  - injection H as <- <- <-. split; [|repeat split; auto].
    destruct Hd as [->|Ho]; [left; reflexivity | right; exact Ho].
Qed.

(** ** acceptConnection: what success means *)

Section AcceptResult.

Variable HAVE_ANDROID_OS : bool.

Lemma connect_loop_left_by_break fuel :
  forall ms buff s w s' w',
    connect_loop HAVE_ANDROID_OS fuel ms buff s w = Returned (true, s', w') -> s' = s.
Proof.
  induction fuel as [|fuel IH]; intros ms buff s w s' w' H; [discriminate|].
  cbn [connect_loop] in H. apply bindO_returned in H.
  destruct H as ([ret w1] & _ & H).
  destruct (ret =? 0).
  - apply bindO_returned in H. destruct H as ([trusted w2] & _ & H).
    destruct (negb trusted).
    + destruct (sys_shutdown (controlSock s) w2). discriminate.
    + apply bindO_returned in H. destruct H as ([ret2 w3] & _ & H).
      destruct (ret2 >=? 0); [|discriminate]. injection H as <- _. reflexivity.
  - apply bindO_returned in H. destruct H as ([peer w2] & _ & H). cbv zeta in H.
    destruct (shuttingDown (after_call peer s)) eqn:E; [discriminate|].
    rewrite (IH _ _ _ _ _ _ H). apply after_call_not_shutdown. exact E.
Qed.

Lemma connect_control_succeeded fuel s w s' w' :
  connect_control HAVE_ANDROID_OS fuel s w = Returned (true, s', w') ->
  0 <= controlSock s'
  /\ inputBuffer s' = inputBuffer s
  /\ shuttingDown s' = shuttingDown s.
Proof.
  unfold connect_control. intro H. apply bindO_returned in H.
  destruct H as ([fd w1] & _ & H). cbv zeta in H.
  destruct (controlSock (set_controlSock fd s) <? 0) eqn:E; [discriminate|].
  apply bindO_returned in H. destruct H as ([[ret fds] w2] & _ & H).
  destruct (ret <? 0); [discriminate|].
  apply connect_loop_left_by_break in H. subst s'.
  cbn [controlSock inputBuffer shuttingDown set_wakeFds set_controlSock] in *.
  repeat split. apply Z.ltb_ge. exact E.
Qed.

Lemma acceptConnection_from_succeeded (retries : nat) :
  forall fuel retryCount s w s' w',
    acceptConnection_from HAVE_ANDROID_OS retries fuel retryCount s w
    = Returned (true, s', w') ->
    shuttingDown s' = false
    /\ 0 <= clientSock s' /\ is_open (clientSock s') w' = true
    /\ 0 <= controlSock s'
    /\ IsAwaitingHandshake s' = true
    /\ inputCount s' = 0
    /\ inputBuffer s' = inputBuffer s.
Proof.
  induction retries as [|retries IH]; intros fuel retryCount s w s' w' H; [discriminate|].
  cbn [acceptConnection_from] in H.
  destruct (shuttingDown s) eqn:Esd; [discriminate|].
  apply bindO_returned in H. destruct H as ([[go_on s1] w1] & Hconn & H).
  destruct go_on; [|discriminate]. cbn [negb] in H.
  assert (Hs1 : 0 <= controlSock s1 /\ inputBuffer s1 = inputBuffer s).
  { destruct (controlSock s <? 0) eqn:E.
    - destruct (connect_control_succeeded _ _ _ _ _ Hconn) as (A & B & _). split; assumption.
    - injection Hconn as <- _. split; [apply Z.ltb_ge; exact E | reflexivity]. }
  destruct Hs1 as (Hctl & Hbuf).
  apply bindO_returned in H. destruct H as ([[fd s2] w2] & Hrecv & H). cbv zeta in H.
  destruct (receiveClientFd_result _ _ _ _ _ _ Hrecv) as (Hfd & B2 & _ & _ & _ & Hsame).
  destruct (shuttingDown (set_clientSock fd s2)) eqn:Esd2; [discriminate|].
  cbn [shuttingDown set_clientSock] in Esd2.
  destruct (clientSock (set_clientSock fd s2) <? 0) eqn:Ecl.
  - destruct (retryCount + 1 >? 5); [discriminate|].
    destruct (IH _ _ _ _ _ _ H) as (P1 & P2 & P3 & P4 & P5 & P6 & P7).
    repeat split; try assumption.
    rewrite P7. cbn [inputBuffer set_clientSock]. congruence.
  - injection H as <- <-. cbn [clientSock set_clientSock] in Ecl.
    apply Z.ltb_ge in Ecl.
    assert (Hne : fd <> -1) by lia.
    specialize (Hsame Esd2 Hne). subst s2.
    cbn [shuttingDown clientSock controlSock inputCount inputBuffer IsAwaitingHandshake
         awaiting_handshake_ set_inputCount SetAwaitingHandshake set_clientSock].
    repeat split; try assumption.
    destruct Hfd as [->|Ho]; [lia | exact Ho].
Qed.

(** X4.  What a successful acceptConnection guarantees, whatever the
    environment did on the way (failed connects, lost control connections,
    retries): the transport is not shutting down, [clientSock] holds a
    descriptor that is open, the control socket is held, the handshake is
    awaited, nothing counts as buffered, and the bytes of the input buffer
    are untouched. *)
Theorem accept_success_gives_fresh_connection :
  forall retries fuel s w s' w',
    acceptConnection HAVE_ANDROID_OS retries fuel s w = Returned (true, s', w') ->
    shuttingDown s' = false
    /\ 0 <= clientSock s' /\ is_open (clientSock s') w' = true
    /\ 0 <= controlSock s'
    /\ IsAwaitingHandshake s' = true
    /\ inputCount s' = 0
    /\ inputBuffer s' = inputBuffer s.
Proof.
  intros retries fuel s w s' w'. unfold acceptConnection.
  apply acceptConnection_from_succeeded.
Qed.

End AcceptResult.

(** ** acceptConnection: the ways the connector gives up *)

Lemma TEMP_FAILURE_RETRY_send_interrupted (n : nat) :
  forall fuel fd buf w rest,
    script w = eintr_sends n ++ rest ->
    TEMP_FAILURE_RETRY (n + fuel) (sys_send fd buf) w
    = TEMP_FAILURE_RETRY fuel (sys_send fd buf)
        (mkWorld (trace w ++ repeat (EvSend fd buf) n) (open_fds w)
                 (match n with O => errno w | S _ => EINTR end) (pid w) rest).
Proof.
  induction n as [|n IH]; intros fuel fd buf w rest Hs.
  - simpl in Hs. rewrite app_nil_r, <- Hs, world_eta. reflexivity.
  - simpl in Hs. change (S n + fuel)%nat with (S (n + fuel)).
    cbn [TEMP_FAILURE_RETRY]. rewrite (sys_send_answer _ _ _ _ _ _ Hs).
    cbn [bindO fail_errno Z.ltb Z.compare].
    cbn [errno set_errno emit set_script]. rewrite !Z.eqb_refl. cbn [andb].
    rewrite (IH fuel fd buf _ rest) by reflexivity.
    f_equal. cbn [trace open_fds errno pid script set_errno emit set_script].
    rewrite <- app_assoc. simpl. destruct n; reflexivity.
Qed.

Section AcceptGivesUp.

Variable HAVE_ANDROID_OS : bool.

(** acceptConnection with no control socket, up to its connect loop after
    [n] failed attempts. *)
Lemma accept_dialing n retries fuel retryCount s w fd e0 pret e1 rd wr rest :
  shuttingDown s = false ->
  controlSock s < 0 ->
  script w = RSocket fd e0 :: RPipe pret e1 rd wr :: failed_connects n ++ rest ->
  0 <= fd -> 0 <= pret ->
  acceptConnection_from HAVE_ANDROID_OS (S retries) (n + fuel) retryCount s w
  = ('(go_on, s1, w1) <-
       connect_loop HAVE_ANDROID_OS fuel (sleep_ms_at n)
         (array_set (snprintf_04x 5 (pid w)) 4 zero)
         (dialing_state fd rd wr s) (dialing n fd rd wr rest w) ;;
     if negb go_on then Returned (false, s1, w1)
     else
       '(cfd, s2, w2) <- receiveClientFd (n + fuel) s1 w1 ;;
       if shuttingDown (set_clientSock cfd s2) then Returned (false, set_clientSock cfd s2, w2)
       else if clientSock (set_clientSock cfd s2) <? 0 then
         if retryCount + 1 >? 5 then
           Returned (false, set_clientSock cfd s2,
                     LOG "adb connection max retries exceeded" w2)
         else acceptConnection_from HAVE_ANDROID_OS retries (n + fuel) (retryCount + 1)
                (set_clientSock cfd s2) w2
       else Returned (true,
                      set_inputCount 0 (SetAwaitingHandshake true (set_clientSock cfd s2)),
                      w2)).
Proof.
  intros Hsd Hctl Hs Hfd Hp.
  cbn [acceptConnection_from]. rewrite Hsd.
  assert (E : (controlSock s <? 0) = true) by (apply Z.ltb_lt; exact Hctl).
  rewrite E. unfold connect_control.
  rewrite (sys_socket_answer _ _ _ _ Hs). cbn zeta.
  rewrite fail_errno_ok by assumption. rewrite (ltb_false _ Hfd).
  cbn [bindO]. cbn [controlSock set_controlSock]. rewrite (ltb_false _ Hfd).
  rewrite (sys_pipe_answer _ _ pret e1 rd wr (failed_connects n ++ rest)) by reflexivity.
  cbn zeta. rewrite fail_errno_ok by assumption. rewrite (ltb_false _ Hp).
  cbn [bindO]. rewrite (ltb_false _ Hp).
  rewrite (connect_loop_failed HAVE_ANDROID_OS n fuel _ _ _ _ rest); [|exact Hsd|reflexivity].
  unfold dialing, dialing_state, sys_getpid, sleep_ms_at.
  cbn [trace open_fds errno pid script emit set_script install_fd controlSock
       set_controlSock set_wakeFds].
  rewrite <- !app_assoc. reflexivity.
Qed.


(** X5.  A shutdown during the backoff sleep ends acceptConnection.  After
    any number of failed connect attempts, when the VM thread shuts the
    transport down while acceptConnection sleeps, the call returns false
    straight after that sleep: it does not connect again, sends nothing, and
    leaves the answers that follow untouched. *)
Theorem shutdown_during_backoff_ends_accept :
  forall n retries fuel s w fd e0 pret e1 rd wr cret cerr rest,
    shuttingDown s = false ->
    controlSock s < 0 ->
    script w = RSocket fd e0 :: RPipe pret e1 rd wr
                 :: failed_connects n ++ RConnect cret cerr :: RUsleep true :: rest ->
    0 <= fd -> 0 <= pret -> cret <> 0 ->
    exists w',
      acceptConnection HAVE_ANDROID_OS (S retries) (n + S fuel) s w
      = Returned (false, peer_shutdown (dialing_state fd rd wr s), w')
      /\ trace w' = trace w ++ [EvSocket; EvPipe] ++ backoff_events fd 500 n
                       ++ [EvConnect fd; EvUsleep (sleep_ms_at n * 1000)]
      /\ script w' = rest.
Proof.
  intros n retries fuel s w fd e0 pret e1 rd wr cret cerr rest Hsd Hctl Hs Hfd Hp Hc.
  unfold acceptConnection.
  rewrite (accept_dialing n retries (S fuel) 0 s w fd e0 pret e1 rd wr
             (RConnect cret cerr :: RUsleep true :: rest) Hsd Hctl Hs Hfd Hp).
  cbn [connect_loop].
  rewrite (sys_connect_answer _ _ cret cerr (RUsleep true :: rest)) by reflexivity.
  cbn [bindO]. assert (E : (cret =? 0) = false) by (apply Z.eqb_neq; exact Hc).
  rewrite E.
  rewrite (sys_usleep_answer _ _ true rest)
    by (unfold fail_errno; destruct (cret <? 0); reflexivity).
  cbn [bindO after_call].
  destruct (peer_shutdown_fields (dialing_state fd rd wr s)) as (F & _). rewrite F.
  cbn [bindO negb].
  eexists. split; [reflexivity|]. split.
  - unfold fail_errno, dialing, dialing_state.
    destruct (cret <? 0); cbn [trace emit set_script set_errno controlSock
                               set_wakeFds set_controlSock];
      rewrite <- !app_assoc; reflexivity.
  - reflexivity.
Qed.

(** X6.  A failure to set up the control channel is final for the call.
    When socket() fails acceptConnection logs and returns false without any
    further call.  When pipe() fails it does the same, but the socket just
    created stays open and stays in [controlSock], and [wakeFds] is as
    before; no connect is attempted. *)
Theorem setup_failure_ends_accept :
  forall retries fuel s w,
    shuttingDown s = false ->
    controlSock s < 0 ->
    (forall fd e0 rest,
       script w = RSocket fd e0 :: rest -> fd < 0 ->
       exists w',
         acceptConnection HAVE_ANDROID_OS (S retries) fuel s w
         = Returned (false, set_controlSock fd s, w')
         /\ trace w' = trace w ++ [EvSocket; EvLog "Could not create ADB control socket"]
         /\ open_fds w' = open_fds w
         /\ script w' = rest)
    /\ (forall fd e0 pret e1 rd wr rest,
          script w = RSocket fd e0 :: RPipe pret e1 rd wr :: rest ->
          0 <= fd -> pret < 0 ->
          exists s' w',
            acceptConnection HAVE_ANDROID_OS (S retries) fuel s w
            = Returned (false, s', w')
            /\ controlSock s' = fd /\ wakeFds s' = wakeFds s
            /\ is_open fd w' = true
            /\ trace w' = trace w ++ [EvSocket; EvPipe; EvLog "pipe failed"]
            /\ script w' = rest).
Proof.
  intros retries fuel s w Hsd Hctl.
  assert (E : (controlSock s <? 0) = true) by (apply Z.ltb_lt; exact Hctl).
  split.
  - intros fd e0 rest Hs Hfd.
    assert (Efd : (fd <? 0) = true) by (apply Z.ltb_lt; exact Hfd).
    unfold acceptConnection. cbn [acceptConnection_from]. rewrite Hsd, E.
    unfold connect_control. rewrite (sys_socket_answer _ _ _ _ Hs). cbn zeta.
    rewrite Efd. cbn [bindO]. cbn [controlSock set_controlSock]. rewrite Efd.
    cbn [bindO negb].
    eexists. split; [reflexivity|].
    unfold LOG, fail_errno. rewrite Efd.
    cbn [trace open_fds script emit set_errno set_script]. rewrite <- !app_assoc.
    repeat split.
  - intros fd e0 pret e1 rd wr rest Hs Hfd Hp.
    assert (Ep : (pret <? 0) = true) by (apply Z.ltb_lt; exact Hp).
    unfold acceptConnection. cbn [acceptConnection_from]. rewrite Hsd, E.
    unfold connect_control. rewrite (sys_socket_answer _ _ _ _ Hs). cbn zeta.
    rewrite fail_errno_ok by assumption. rewrite (ltb_false _ Hfd).
    cbn [bindO]. cbn [controlSock set_controlSock]. rewrite (ltb_false _ Hfd).
    rewrite (sys_pipe_answer _ _ pret e1 rd wr rest) by reflexivity.
    cbn zeta. rewrite Ep. cbn [bindO]. rewrite Ep. cbn [bindO negb].
    do 2 eexists. split; [reflexivity|].
    unfold LOG, fail_errno. rewrite Ep.
    split; [reflexivity|]. split; [reflexivity|].
    split; [|split; [|reflexivity]].
    + unfold is_open. cbn [open_fds emit set_errno set_script].
      apply (is_open_install fd (emit EvSocket (set_script (RPipe pret e1 rd wr :: rest) w))).
    + cbn [trace emit set_errno set_script install_fd]. rewrite <- !app_assoc. reflexivity.
Qed.

(** X7.  The pid is sent with TEMP_FAILURE_RETRY, and a send error ends the
    call.  After the connect that succeeds, a send interrupted by EINTR is
    repeated with the same four bytes; when send then fails with another
    error acceptConnection logs and returns false without receiving, and
    the connected socket stays in [controlSock]. *)
Theorem send_failure_ends_accept :
  forall n k retries fuel s w fd e0 pret e1 rd wr e2 r e3 rest,
    shuttingDown s = false ->
    controlSock s < 0 ->
    script w = RSocket fd e0 :: RPipe pret e1 rd wr
                 :: failed_connects n ++ RConnect 0 e2 :: trust_answers HAVE_ANDROID_OS
                 ++ eintr_sends k ++ RSend r e3 :: rest ->
    0 <= fd -> 0 <= pret -> r < 0 -> ~ (r = -1 /\ e3 = EINTR) ->
    exists w',
      acceptConnection HAVE_ANDROID_OS (S retries) (n + (k + S fuel)) s w
      = Returned (false, dialing_state fd rd wr s, w')
      /\ trace w' = trace w ++ [EvSocket; EvPipe] ++ backoff_events fd 500 n
                       ++ [EvConnect fd] ++ trust_events HAVE_ANDROID_OS fd
                       ++ repeat (EvSend fd (pid_announcement (pid w))) (S k)
                       ++ [EvLog "Weird, can't send JDWP process pid to ADB"]
      /\ script w' = rest.
Proof.
  intros n k retries fuel s w fd e0 pret e1 rd wr e2 r e3 rest
         Hsd Hctl Hs Hfd Hp Hr Hnot.
  unfold acceptConnection.
  rewrite (accept_dialing n retries (k + S fuel) 0 s w fd e0 pret e1 rd wr
             (RConnect 0 e2 :: trust_answers HAVE_ANDROID_OS
                ++ eintr_sends k ++ RSend r e3 :: rest) Hsd Hctl Hs Hfd Hp).
  replace (k + S fuel)%nat with (S (k + fuel)) by lia.
  cbn [connect_loop].
  rewrite (sys_connect_answer _ _ 0 e2
             (trust_answers HAVE_ANDROID_OS ++ eintr_sends k ++ RSend r e3 :: rest))
    by reflexivity.
  cbn [bindO Z.eqb fail_errno Z.ltb Z.compare].
  set (w1 := emit (EvConnect (controlSock (dialing_state fd rd wr s)))
               (set_script (trust_answers HAVE_ANDROID_OS ++ eintr_sends k
                              ++ RSend r e3 :: rest)
                  (dialing n fd rd wr
                     (RConnect 0 e2 :: trust_answers HAVE_ANDROID_OS
                        ++ eintr_sends k ++ RSend r e3 :: rest) w))).
  set (w2 := mkWorld (trace w1 ++ trust_events HAVE_ANDROID_OS fd) (open_fds w1)
                     (errno w1) (pid w1) (eintr_sends k ++ RSend r e3 :: rest)).
  assert (Htrust : (if HAVE_ANDROID_OS
                    then socket_peer_is_trusted (controlSock (dialing_state fd rd wr s)) w1
                    else Returned (true, w1)) = Returned (true, w2)).
  { unfold w2, trust_events, socket_peer_is_trusted. unfold w1 at 1.
    unfold trust_answers. destruct HAVE_ANDROID_OS.
    - cbn [script emit set_script app]. reflexivity.
    - cbn [app]. rewrite app_nil_r. unfold w1, trust_answers. cbn [app]. reflexivity. }
  rewrite Htrust. cbn [bindO negb].
  replace (S (k + fuel)) with (k + S fuel)%nat by lia.
  rewrite (TEMP_FAILURE_RETRY_send_interrupted k (S fuel) _ _ w2 (RSend r e3 :: rest))
    by reflexivity.
  cbn [TEMP_FAILURE_RETRY].
  rewrite (sys_send_answer _ _ _ r e3 rest) by reflexivity.
  cbn [bindO].
  assert (Eneg : (r <? 0) = true) by (apply Z.ltb_lt; exact Hr).
  assert (Eloop : forall wz, (r =? -1) && (errno (fail_errno r e3 wz) =? EINTR) = false).
  { intro wz. unfold fail_errno. rewrite Eneg. cbn [errno set_errno].
    destruct (Z.eqb_spec r (-1)) as [->|]; [|reflexivity].
    cbn [andb]. apply Z.eqb_neq. intro He. apply Hnot. split; [reflexivity | exact He]. }
  rewrite Eloop. cbn [bindO].
  assert (Ege : (r >=? 0) = false) by (rewrite Z.geb_leb; apply Z.leb_gt; exact Hr).
  rewrite Ege. cbn [bindO negb].
  eexists. split; [reflexivity|]. split.
  - unfold LOG, fail_errno. rewrite Eneg.
    cbn [trace emit set_errno set_script]. unfold w2. cbn [trace]. unfold w1.
    cbn [trace emit set_script dialing dialing_state controlSock set_wakeFds
         set_controlSock pid].
    rewrite <- !app_assoc. cbn [app].
    replace (S k) with (k + 1)%nat by lia. rewrite repeat_app, <- !app_assoc.
    unfold pid_announcement. reflexivity.
  - unfold LOG, fail_errno. rewrite Eneg. reflexivity.
Qed.

End AcceptGivesUp.

(** X8.  On a build with HAVE_ANDROID_OS, a control peer that is not
    trusted ends acceptConnection: after the connect that succeeds and the
    failed check, the socket is shut down and the call returns false
    without sending the pid.  The socket is not closed and stays in
    [controlSock]. *)
Theorem untrusted_peer_ends_accept :
  forall n retries fuel s w fd e0 pret e1 rd wr e2 rest,
    shuttingDown s = false ->
    controlSock s < 0 ->
    script w = RSocket fd e0 :: RPipe pret e1 rd wr
                 :: failed_connects n ++ RConnect 0 e2 :: RPeerTrusted false :: rest ->
    0 <= fd -> 0 <= pret ->
    exists w',
      acceptConnection true (S retries) (n + S fuel) s w
      = Returned (false, dialing_state fd rd wr s, w')
      /\ trace w' = trace w ++ [EvSocket; EvPipe] ++ backoff_events fd 500 n
                       ++ [EvConnect fd; EvPeerTrusted fd; EvShutdown fd]
      /\ is_open fd w' = true
      /\ script w' = rest.
Proof.
  intros n retries fuel s w fd e0 pret e1 rd wr e2 rest Hsd Hctl Hs Hfd Hp.
  unfold acceptConnection.
  rewrite (accept_dialing true n retries (S fuel) 0 s w fd e0 pret e1 rd wr
             (RConnect 0 e2 :: RPeerTrusted false :: rest) Hsd Hctl Hs Hfd Hp).
  cbn [connect_loop].
  rewrite (sys_connect_answer _ _ 0 e2 (RPeerTrusted false :: rest)) by reflexivity.
  cbn [bindO Z.eqb fail_errno Z.ltb Z.compare].
  unfold socket_peer_is_trusted. cbn [script emit set_script bindO negb].
  assert (Hopen : forall wz, is_open fd (install_fd fd wz) = true)
    by (intro; apply is_open_install).
  assert (Ho : is_open fd
                 (install_fd wr (install_fd rd
                    (install_fd fd w))) = true)
    by (do 2 apply is_open_install_mono; apply is_open_install).
  unfold sys_shutdown.
  match goal with
  | |- context [is_open ?a ?b] =>
      replace (is_open a b) with true
        by (symmetry; unfold is_open, dialing, dialing_state in *;
            cbn [open_fds emit set_script controlSock set_wakeFds set_controlSock] in *;
            exact Ho)
  end.
  cbn [bindO negb Z.eqb].
  eexists. split; [reflexivity|]. split; [|split].
  - unfold dialing, dialing_state.
    cbn [trace emit set_script controlSock set_wakeFds set_controlSock].
    rewrite <- !app_assoc. reflexivity.
  - unfold is_open, dialing in *. cbn [open_fds emit set_script] in *. exact Ho.
  - reflexivity.
Qed.

(** ** acceptConnection and receiveClientFd: the receive *)

Lemma peer_shutdown_controlSock s : 0 <= controlSock s -> controlSock (peer_shutdown s) = -1.
Proof.
  intro H. destruct s as [cl buf cnt aw ctl sd wk]. unfold peer_shutdown.
  cbv beta iota zeta delta [set_shuttingDown set_clientSock set_controlSock
       clientSock controlSock wakeFds inputBuffer inputCount awaiting_handshake_
       shuttingDown] in *.
  destruct (cl >=? 0); cbv beta iota; rewrite (geb_true _ H); reflexivity.
Qed.

(** X9.  A shutdown that happens while acceptConnection waits in the receive
    ends the call whatever the receive returned: acceptConnection returns
    false right after receiveClientFd, without counting a retry, without the
    "max retries exceeded" line even at the last retry, and without
    receiving again.  After a receive that failed or met the end of the
    stream, receiveClientFd has made its one close call, on whatever
    [controlSock] held at that moment: the control socket, or -1 when the
    shutdown had unset the field already. *)
Theorem shutdown_during_receive_ends_accept :
  forall HAVE_ANDROID_OS retries fuel retryCount s w ret err anc rest,
    shuttingDown s = false ->
    0 <= controlSock s ->
    script w = RRecvmsg ret err anc true :: rest ->
    (ret < 0 -> err <> EINTR) ->
    exists s' w' closed,
      acceptConnection_from HAVE_ANDROID_OS (S retries) (S fuel) retryCount s w
      = Returned (false, s', w')
      /\ shuttingDown s' = true
      /\ (closed = controlSock s \/ closed = -1)
      /\ script w' = rest
      /\ trace w'
         = trace w ++ [EvRecvmsg (controlSock s)]
             ++ (if ret <=? 0
                 then (if ret <? 0
                       then [EvLog "Receiving file descriptor from ADB failed"] else [])
                      ++ [EvClose closed]
                 else []).
Proof.
  intros HAVE_ANDROID_OS retries fuel retryCount s w ret err anc rest Hsd Hctl Hs Herr.
  destruct (peer_shutdown_fields s) as (F1 & _).
  pose proof (peer_shutdown_controlSock s Hctl) as Fc.
  cbn [acceptConnection_from]. rewrite Hsd, (ltb_false _ Hctl). cbn [bindO negb].
  unfold receiveClientFd. cbn [recvmsg_retry].
  rewrite (sys_recvmsg_answer _ _ _ _ _ _ _ _ Hs). cbv zeta.
  destruct (ret <? 0) eqn:Eneg.
  - assert (Hne : (err =? EINTR) = false) by (apply Z.eqb_neq, Herr, Z.ltb_lt, Eneg).
    assert (Ele : (ret <=? 0) = true) by (apply Z.leb_le; apply Z.ltb_lt in Eneg; lia).
    unfold fail_errno. rewrite Eneg. cbn [bindO errno set_errno andb after_call].
    rewrite Hne, andb_false_r. cbn [bindO]. rewrite Ele, Eneg. cbn [bindO].
    cbn [shuttingDown set_clientSock set_controlSock]. rewrite F1.
    do 2 eexists. exists (-1). split; [reflexivity|].
    cbn [shuttingDown controlSock set_clientSock set_controlSock].
    split; [exact F1|]. split; [right; reflexivity|].
    rewrite script_after_close, trace_after_close, Fc. unfold LOG.
    cbn [script trace emit set_errno set_script]. rewrite <- !app_assoc.
    split; reflexivity.
  - unfold fail_errno. rewrite Eneg.
    destruct (ret <=? 0) eqn:Ele.
    + destruct anc as [c|]; cbn [bindO andb after_call]; rewrite ?Eneg; cbn [bindO andb];
        rewrite Ele, ?Eneg; cbn [bindO];
        cbn [shuttingDown set_clientSock set_controlSock]; rewrite F1;
        (do 2 eexists; exists (-1); split; [reflexivity|]);
        cbn [shuttingDown controlSock set_clientSock set_controlSock];
        (split; [exact F1|]); (split; [right; reflexivity|]);
        rewrite script_after_close, trace_after_close, Fc;
        cbn [script trace emit set_errno set_script install_fd]; rewrite <- !app_assoc;
        split; reflexivity.
    + destruct anc as [c|]; cbn [bindO andb after_call]; rewrite ?Eneg; cbn [bindO andb];
        rewrite Ele; cbn [bindO];
        cbn [shuttingDown set_clientSock]; rewrite F1;
        (do 2 eexists; exists (-1); split; [reflexivity|]);
        cbn [shuttingDown controlSock set_clientSock];
        (split; [exact F1|]); (split; [right; reflexivity|]);
        cbn [script trace emit set_errno set_script install_fd];
        split; reflexivity.
Qed.

(** X10.  receiveClientFd hands out the descriptor of the first receive that
    completes.  After any number of receives interrupted by EINTR, a receive
    that returns a positive count with a descriptor makes receiveClientFd
    return that descriptor; the descriptor is open, the state is exactly as
    before (the control socket is kept), nothing is closed and no further
    receive is made. *)
Theorem receiveClientFd_returns_the_descriptor :
  forall n fuel s w ret err c rest,
    script w = eintr_answers n ++ RRecvmsg ret err (Some c) false :: rest ->
    0 < ret ->
    exists w',
      receiveClientFd (n + S fuel) s w = Returned (c, s, w')
      /\ is_open c w' = true
      /\ (forall fd, is_open fd w = true -> is_open fd w' = true)
      /\ trace w' = trace w ++ repeat (EvRecvmsg (controlSock s)) (S n)
      /\ script w' = rest.
Proof.
  intros n fuel s w ret err c rest Hs Hret.
  unfold receiveClientFd.
  rewrite (recvmsg_retry_interrupted n (S fuel) (-1) s w _ Hs).
  fold (receiveClientFd (S fuel) s
          (interrupted n (controlSock s) (RRecvmsg ret err (Some c) false :: rest) w)).
  rewrite (receiveClientFd_descriptor fuel s _ ret err c rest); [|reflexivity|exact Hret].
  eexists. split; [reflexivity|]. split; [apply is_open_install|].
  split; [|split; [|reflexivity]].
  - intros fd Ho. apply is_open_install_mono. exact Ho.
  - cbn [trace install_fd emit set_script interrupted]. rewrite <- app_assoc.
    replace (S n) with (n + 1)%nat by lia. rewrite repeat_app. reflexivity.
Qed.

(** ** processIncoming: what the wait loop keeps *)

Lemma loop_frame_refl s : loop_frame s s.
Proof. unfold loop_frame. auto. Qed.

Lemma loop_frame_trans s1 s2 s3 : loop_frame s1 s2 -> loop_frame s2 s3 -> loop_frame s1 s3.
Proof.
  unfold loop_frame. intros (A1 & B1 & C1) (A2 & B2 & C2).
  repeat split; [congruence | congruence | auto].
Qed.

Lemma loop_frame_after_call peer s :
  loop_frame s (after_call peer s) /\ inputBuffer (after_call peer s) = inputBuffer s.
Proof.
  destruct (peer_shutdown_fields s) as (F1 & _ & _ & F4 & F5 & F6 & _).
  destruct peer; cbn [after_call]; unfold loop_frame; repeat split; auto.
Qed.

Lemma drain_control_frame fuel readfds s w s' w' :
  drain_control fuel readfds s w = Returned (s', w') ->
  loop_frame s s' /\ inputBuffer s' = inputBuffer s.
Proof.
  unfold drain_control. intro H.
  destruct ((controlSock s >=? 0) && FD_ISSET (controlSock s) readfds).
  - apply bindO_returned in H. destruct H as ([[sock s1] w1] & Hr & H).
    destruct (receiveClientFd_result _ _ _ _ _ _ Hr) as (_ & B & C & W & S1 & _).
    assert (s' = s1).
    { destruct (sock >=? 0); [injection H as <- _; reflexivity|].
      destruct (controlSock s1 <? 0); [injection H as <- _; reflexivity | discriminate]. }
    subst s'. unfold loop_frame. repeat split; assumption.
  - injection H as <- _. split; [apply loop_frame_refl | reflexivity].
Qed.

Lemma read_client_frame readfds s w how s' w' :
  read_client readfds s w = Returned (how, s', w') ->
  loop_frame s s'
  /\ (forall rc, how = Some (ExitBreak rc) ->
        0 < rc
        /\ inputBuffer s'
           = store_at (inputBuffer s) (inputCount s) rc
               (match script w with RRead _ _ data :: _ => data | _ => [] end))
  /\ ((forall rc, how <> Some (ExitBreak rc)) -> inputBuffer s' = inputBuffer s).
Proof.
  unfold read_client. intro H.
  destruct ((clientSock s >=? 0) && FD_ISSET (clientSock s) readfds).
  - apply bindO_returned in H. destruct H as ([[rc data] w1] & Hsys & H).
    unfold sys_read in Hsys. destruct (script w) as [|[] rest]; try discriminate.
    injection Hsys as <- <- <-. cbv zeta in H.
    destruct (Z.ltb_spec ret 0) as [Hneg|Hnn].
    + assert (E : (ret >? 0) = false) by (rewrite Z.gtb_ltb; apply Z.ltb_ge; lia).
      rewrite E in H.
      destruct (negb (errno _ =? EINTR)); injection H as <- <- _;
        (split; [apply loop_frame_refl|]); (split; [intros; discriminate | reflexivity]).
    + destruct (Z.eqb_spec ret 0) as [->|Hne].
      * injection H as <- <- _.
        split; [apply loop_frame_refl|]. split; [intros; discriminate | reflexivity].
      * assert (E : (ret >? 0) = true) by (rewrite Z.gtb_ltb; apply Z.ltb_lt; lia).
        rewrite E in H. injection H as <- <- _.
        split; [unfold loop_frame; repeat split; auto|].
        split.
        -- intros rc Hrc. injection Hrc as <-. split; [lia | reflexivity].
        -- intro Hno. exfalso. exact (Hno ret eq_refl).
  - injection H as <- <- _.
    split; [apply loop_frame_refl|]. split; [intros; discriminate | reflexivity].
Qed.

Lemma select_loop_frame loops :
  forall fuel s w how s' w',
    select_loop loops fuel s w = Returned (how, s', w') ->
    loop_frame s s'
    /\ (forall rc, how = ExitBreak rc -> 0 < rc)
    /\ ((forall rc, how <> ExitBreak rc) -> inputBuffer s' = inputBuffer s).
Proof.
  induction loops as [|loops IH]; intros fuel s w how s' w' H; [discriminate|].
  cbn [select_loop] in H.
  destruct (configure_fds s w) as [[readfds maxfd] w0].
  destruct (maxfd <? 0).
  { injection H as <- <- _.
    split; [apply loop_frame_refl|]. split; [intros; discriminate | reflexivity]. }
  apply bindO_returned in H. destruct H as ([[[selCount fds] peer] w1] & _ & H).
  cbv zeta in H.
  destruct (loop_frame_after_call peer s) as (Fa & Ba).
  destruct (selCount <? 0).
  { destruct (errno w1 =? EINTR).
    - destruct (IH _ _ _ _ _ _ H) as (F & R & B).
      split; [exact (loop_frame_trans _ _ _ Fa F)|]. split; [exact R|].
      intro Hno. rewrite (B Hno). exact Ba.
    - injection H as <- <- _.
      split; [exact Fa|]. split; [intros; discriminate | intros; exact Ba]. }
  destruct ((fst (wakeFds (after_call peer s)) >=? 0)
            && FD_ISSET (fst (wakeFds (after_call peer s))) fds).
  { injection H as <- <- _.
    split; [exact Fa|]. split; [intros; discriminate | intros; exact Ba]. }
  apply bindO_returned in H. destruct H as ([s1 w2] & Hd & H).
  destruct (drain_control_frame _ _ _ _ _ _ Hd) as (Fd & Bd).
  apply bindO_returned in H. destruct H as ([[h s2] w3] & Hr & H).
  destruct (read_client_frame _ _ _ _ _ _ Hr) as (Fr & Rr & Br).
  pose proof (loop_frame_trans _ _ _ Fa (loop_frame_trans _ _ _ Fd Fr)) as F2.
  destruct h as [h|].
  - injection H as <- <- _. split; [exact F2|]. split.
    + intros rc ->. exact (proj1 (Rr rc eq_refl)).
    + intro Hno. rewrite Br; [congruence|]. intros rc Hrc. injection Hrc as ->.
      exact (Hno rc eq_refl).
  - destruct (IH _ _ _ _ _ _ H) as (F & R & B).
    split; [exact (loop_frame_trans _ _ _ F2 F)|]. split; [exact R|].
    intro Hno. rewrite (B Hno). rewrite Br; [congruence|]. intros; discriminate.
Qed.

(** X11.  What the wait loop of processIncoming keeps.  However many rounds
    the loop makes and whatever arrives, when it is left [inputCount] and
    [wakeFds] are as before and a set [shuttingDown] is still set; it is
    left by [break] only with a positive read count, and unless it is left
    that way the bytes of the input buffer are untouched. *)
Theorem wait_loop_keeps_count_and_wake_pipe :
  forall loops fuel s w how s' w',
    select_loop loops fuel s w = Returned (how, s', w') ->
    inputCount s' = inputCount s
    /\ wakeFds s' = wakeFds s
    /\ (shuttingDown s = true -> shuttingDown s' = true)
    /\ (forall rc, how = ExitBreak rc -> 0 < rc)
    /\ ((forall rc, how <> ExitBreak rc) -> inputBuffer s' = inputBuffer s).
Proof.
  intros loops fuel s w how s' w' H.
  destruct (select_loop_frame _ _ _ _ _ _ _ H) as ((C & W & S1) & R & B).
  repeat split; assumption.
Qed.

(** ** processIncoming: the ways the wait ends *)

Lemma configure_fds_pure (s : JdwpNetState) (w : World) :
  configure_fds s w
  = (waited_fds s, waited_max s,
     mkWorld (trace w ++ wakepipe_note s) (open_fds w) (errno w) (pid w) (script w)).
Proof.
  unfold waited_fds, waited_max, configure_fds, wakepipe_note.
  destruct (controlSock s >=? 0); destruct (clientSock s >=? 0);
    destruct (fst (wakeFds s) >=? 0); cbn [fst snd];
    rewrite ?app_nil_r, ?world_eta; reflexivity.
Qed.

Lemma waited_max_nonneg (s : JdwpNetState) : 0 <= clientSock s -> 0 <= waited_max s.
Proof.
  intro H.
  destruct (configure_fds_spec s (mkWorld [] [] 0 0 []) _ _ _ (configure_fds_pure s _))
    as (_ & _ & _ & _ & _ & _ & _ & Hmax).
  exact (Hmax H).
Qed.


Lemma select_loop_interrupted (n : nat) :
  forall loops fuel s w rest,
    0 <= clientSock s ->
    script w = eintr_selects n ++ rest ->
    select_loop (n + loops) fuel s w
    = select_loop loops fuel s
        (mkWorld (trace w ++ List.concat (repeat (select_events s) n)) (open_fds w)
                 (match n with O => errno w | S _ => EINTR end) (pid w) rest).
Proof.
  induction n as [|n IH]; intros loops fuel s w rest Hcl Hs.
  - simpl in Hs. cbn [repeat List.concat]. rewrite app_nil_r, <- Hs, world_eta. reflexivity.
  - simpl in Hs. change (S n + loops)%nat with (S (n + loops)).
    cbn [select_loop]. rewrite configure_fds_pure.
    rewrite (ltb_false _ (waited_max_nonneg s Hcl)).
    rewrite (sys_select_answer _ _ _ (-1) EINTR [] false (eintr_selects n ++ rest))
      by exact Hs.
    cbn [bindO after_call fail_errno Z.ltb Z.compare].
    cbn [errno set_errno emit set_script]. rewrite Z.eqb_refl.
    rewrite (IH loops fuel s _ rest Hcl) by reflexivity.
    f_equal. cbn [trace open_fds errno pid script set_errno emit set_script repeat List.concat].
    unfold select_events. rewrite <- !app_assoc. destruct n; reflexivity.
Qed.

Section WaitEnds.

Context {EM : ExternMethods}.

(** X12.  select and EINTR.  A select interrupted by a signal is simply
    issued again, within the same call of processIncoming and any number of
    times; a select that fails with any other error ends the call with
    "select failed" and connection loss (Close, return false), without a
    receive or a read. *)
Theorem select_failure_is_connection_loss :
  forall n loops fuel s w sret serr ready rest,
    0 <= clientSock s ->
    HaveFullPacket s = false ->
    script w = eintr_selects n ++ RSelect sret serr ready false :: rest ->
    sret < 0 ->
    serr <> EINTR ->
    processIncoming (n + S loops) fuel s w
    = Returned
        (false,
         fst (Close s (mkWorld (trace w ++ List.concat (repeat (select_events s) (S n))
                                  ++ [EvLog "select failed"])
                               (open_fds w) serr (pid w) rest)),
         snd (Close s (mkWorld (trace w ++ List.concat (repeat (select_events s) (S n))
                                  ++ [EvLog "select failed"])
                               (open_fds w) serr (pid w) rest))).
Proof.
  intros n loops fuel s w sret serr ready rest Hcl Hfull Hs Hneg Herr.
  set (W := mkWorld (trace w ++ List.concat (repeat (select_events s) (S n))
                       ++ [EvLog "select failed"])
                    (open_fds w) serr (pid w) rest).
  assert (Hloop : select_loop (n + S loops) fuel s (set_errno 0 w)
                  = Returned (ExitFail, s, W)).
  { rewrite (select_loop_interrupted n (S loops) fuel s (set_errno 0 w)
               (RSelect sret serr ready false :: rest) Hcl Hs).
    cbn [select_loop]. rewrite configure_fds_pure.
    rewrite (ltb_false _ (waited_max_nonneg s Hcl)).
    rewrite (sys_select_answer _ _ _ sret serr ready false rest) by reflexivity.
    cbn [bindO after_call].
    assert (E : (sret <? 0) = true) by (apply Z.ltb_lt; exact Hneg).
    assert (E' : (serr =? EINTR) = false) by (apply Z.eqb_neq; exact Herr).
    unfold fail_errno. rewrite E. cbn [errno set_errno]. rewrite E'.
    unfold W, LOG, emit, set_errno, set_script.
    cbn [trace open_fds errno pid script].
    do 3 f_equal.
    replace (S n) with (n + 1)%nat by lia.
    rewrite repeat_app, concat_app. cbn [repeat List.concat]. unfold select_events.
    rewrite <- !app_assoc. cbn [app]. reflexivity. }
  unfold processIncoming. rewrite (geb_true _ Hcl), Hfull. cbn [negb].
  rewrite Hloop. cbn [bindO]. unfold fail. destruct (Close s W); reflexivity.
Qed.


(** X14.  With nothing left to wait on processIncoming returns false and
    does not call Close.  When there is no wake pipe and the VM thread shuts
    the transport down during a select that is interrupted, the next round
    finds all three descriptors unset and returns false directly; the state
    is the one the shutdown left. *)
Theorem nothing_to_wait_on_returns_false :
  forall loops fuel s w ready rest,
    0 <= clientSock s ->
    HaveFullPacket s = false ->
    fst (wakeFds s) < 0 ->
    script w = RSelect (-1) EINTR ready true :: rest ->
    processIncoming (S (S loops)) fuel s w
    = Returned
        (false, peer_shutdown s,
         mkWorld (trace w ++ select_events s
                    ++ [EvLog "NOTE: entering select w/o wakepipe"])
                 (open_fds w) EINTR (pid w) rest).
Proof.
  intros loops fuel s w ready rest Hcl Hfull Hwk Hs.
  unfold processIncoming. rewrite (geb_true _ Hcl), Hfull. cbn [negb].
  cbn [select_loop]. rewrite configure_fds_pure.
  rewrite (ltb_false _ (waited_max_nonneg s Hcl)).
  rewrite (sys_select_answer _ _ _ (-1) EINTR ready true rest) by exact Hs.
  cbn [bindO after_call fail_errno Z.ltb Z.compare].
  cbn [errno set_errno emit set_script]. rewrite Z.eqb_refl.
  destruct (peer_shutdown_fields s) as (_ & F2 & F3 & F4 & _).
  assert (E1 : (controlSock (peer_shutdown s) >=? 0) = false)
    by (rewrite Z.geb_leb; apply Z.leb_gt; exact F3).
  assert (E2 : (clientSock (peer_shutdown s) >=? 0) = false)
    by (rewrite Z.geb_leb; apply Z.leb_gt; exact F2).
  assert (E3 : (fst (wakeFds (peer_shutdown s)) >=? 0) = false)
    by (rewrite F4, Z.geb_leb; apply Z.leb_gt; exact Hwk).
  unfold configure_fds. rewrite E1, E2, E3. cbn [Z.ltb Z.compare bindO].
  unfold LOG, select_events, emit, set_errno, set_script.
  cbn [trace open_fds errno pid script].
  do 3 f_equal. rewrite <- !app_assoc. reflexivity.
Qed.

End WaitEnds.

(** ** processIncoming: a read that delivers bytes *)

Lemma store_at_spec (buf data : list ascii) (offset k : Z) :
  0 <= offset -> 0 <= k ->
  (Z.to_nat (offset + k) <= List.length buf)%nat ->
  (Z.to_nat k <= List.length data)%nat ->
  List.length (store_at buf offset k data) = List.length buf
  /\ firstn (Z.to_nat offset) (store_at buf offset k data) = firstn (Z.to_nat offset) buf
  /\ firstn (Z.to_nat k) (skipn (Z.to_nat offset) (store_at buf offset k data))
     = firstn (Z.to_nat k) data
  /\ skipn (Z.to_nat (offset + k)) (store_at buf offset k data)
     = skipn (Z.to_nat (offset + k)) buf.
Proof.
  intros Ho Hk Hb Hd. unfold store_at.
  rewrite Z2Nat.inj_add in * by assumption.
  set (o := Z.to_nat offset) in *. set (n := Z.to_nat k) in *.
  assert (L1 : List.length (firstn o buf) = o) by (rewrite length_firstn; lia).
  assert (L2 : List.length (firstn n data) = n) by (rewrite length_firstn; lia).
  split; [|split; [|split]].
  - rewrite !length_app, L1, L2, length_skipn. lia.
  - rewrite firstn_app, L1, Nat.sub_diag. cbn [firstn]. rewrite app_nil_r.
    rewrite firstn_all2 by lia. reflexivity.
  - rewrite skipn_app, L1, Nat.sub_diag. cbn [skipn].
    rewrite (skipn_all2 (firstn o buf)) by lia. cbn [app].
    rewrite firstn_app, L2, Nat.sub_diag. cbn [firstn]. rewrite app_nil_r.
    rewrite firstn_all2 by lia. reflexivity.
  - rewrite skipn_app, L1. rewrite (skipn_all2 (firstn o buf)) by lia. cbn [app].
    replace (o + n - o)%nat with n by lia.
    rewrite skipn_app, L2, Nat.sub_diag. cbn [skipn].
    rewrite (skipn_all2 (firstn n data)) by lia. reflexivity.
Qed.

Lemma waited_fds_client (s : JdwpNetState) :
  0 <= clientSock s -> FD_ISSET (clientSock s) (waited_fds s) = true.
Proof.
  intro H.
  destruct (configure_fds_spec s (mkWorld [] [] 0 0 []) _ _ _ (configure_fds_pure s _))
    as (_ & _ & _ & _ & _ & _ & Hcl & _).
  exact (Hcl H).
Qed.

Lemma drain_control_skipped fuel s ready w :
  control_ready s ready = false ->
  drain_control fuel (filter (fun fd => FD_ISSET fd (waited_fds s)) ready) s w
  = Returned (s, w).
Proof.
  unfold control_ready, drain_control. intro H. rewrite FD_ISSET_filter.
  apply andb_false_iff in H. destruct H as [-> | ->]; [reflexivity|].
  cbn [andb]. rewrite andb_false_r. reflexivity.
Qed.

Section ReadDelivers.

Context {EM : ExternMethods}.

(** X15.  A read that delivers bytes.  When the client socket is ready and
    the read returns [k] > 0 bytes, processIncoming makes exactly that one
    read, asking for at most the room left in the buffer at offset
    [inputCount], adds [k] to [inputCount], and then either returns true
    (the packet is not complete yet) or goes on to the handshake or packet
    handling in the same call.  The bytes buffered before stay where they
    were, the new bytes follow them, and the rest of the buffer is
    untouched. *)
Theorem read_appends_to_the_buffer :
  forall loops fuel s w sret serr ready k e data rest,
    0 <= clientSock s ->
    HaveFullPacket s = false ->
    script w = RSelect sret serr ready false :: RRead k e data :: rest ->
    0 <= sret ->
    wake_ready s ready = false ->
    control_ready s ready = false ->
    FD_ISSET (clientSock s) ready = true ->
    0 < k ->
    processIncoming (S loops) fuel s w
    = (if HaveFullPacket (appended k data s)
       then handshake_or_packet fuel (appended k data s)
              (mkWorld (trace w ++ select_events s
                          ++ [EvRead (clientSock s) (inputCount s)
                                     (kInputBufferSize - inputCount s)])
                       (open_fds w) 0 (pid w) rest)
       else Returned (true, appended k data s,
                      mkWorld (trace w ++ select_events s
                                 ++ [EvRead (clientSock s) (inputCount s)
                                            (kInputBufferSize - inputCount s)])
                              (open_fds w) 0 (pid w) rest))
    /\ inputCount (appended k data s) = inputCount s + k
    /\ (0 <= inputCount s ->
        (Z.to_nat (inputCount s + k) <= List.length (inputBuffer s))%nat ->
        (Z.to_nat k <= List.length data)%nat ->
        List.length (inputBuffer (appended k data s)) = List.length (inputBuffer s)
        /\ firstn (Z.to_nat (inputCount s)) (inputBuffer (appended k data s))
           = firstn (Z.to_nat (inputCount s)) (inputBuffer s)
        /\ firstn (Z.to_nat k)
                  (skipn (Z.to_nat (inputCount s)) (inputBuffer (appended k data s)))
           = firstn (Z.to_nat k) data
        /\ skipn (Z.to_nat (inputCount s + k)) (inputBuffer (appended k data s))
           = skipn (Z.to_nat (inputCount s + k)) (inputBuffer s)).
Proof.
  intros loops fuel s w sret serr ready k e data rest
         Hcl Hfull Hs Hsel Hwake Hctl Hready Hk.
  split; [|split; [reflexivity|]].
  - set (W := mkWorld (trace w ++ select_events s
                         ++ [EvRead (clientSock s) (inputCount s)
                                    (kInputBufferSize - inputCount s)])
                      (open_fds w) 0 (pid w) rest).
    assert (Hloop : select_loop (S loops) fuel s (set_errno 0 w)
                    = Returned (ExitBreak k,
                                set_inputBuffer
                                  (store_at (inputBuffer s) (inputCount s) k data) s, W)).
    { cbn [select_loop]. rewrite configure_fds_pure.
      rewrite (ltb_false _ (waited_max_nonneg s Hcl)).
      rewrite (sys_select_answer _ _ _ sret serr ready false (RRead k e data :: rest))
        by exact Hs.
      cbn [bindO after_call]. rewrite fail_errno_ok by assumption.
      rewrite (ltb_false _ Hsel).
      unfold wake_ready in Hwake. rewrite FD_ISSET_filter.
      assert (E3 : (fst (wakeFds s) >=? 0)
                   && (FD_ISSET (fst (wakeFds s)) ready
                       && FD_ISSET (fst (wakeFds s)) (waited_fds s)) = false).
      { apply andb_false_iff in Hwake.
        destruct Hwake as [-> | ->]; [reflexivity | apply andb_false_r]. }
      rewrite E3. rewrite (drain_control_skipped _ _ _ _ Hctl). cbn [bindO].
      unfold read_client.
      rewrite (geb_true _ Hcl), FD_ISSET_filter, Hready, (waited_fds_client _ Hcl).
      cbn [andb].
      rewrite (sys_read_answer _ _ _ _ k e data rest) by reflexivity.
      cbn [bindO]. rewrite fail_errno_ok by lia.
      assert (E1 : (k >? 0) = true) by (rewrite Z.gtb_ltb; apply Z.ltb_lt; exact Hk).
      assert (E2 : (k <? 0) = false) by (apply Z.ltb_ge; lia).
      assert (E4 : (k =? 0) = false) by (apply Z.eqb_neq; lia).
      rewrite E1, E2, E4. cbn [bindO].
      unfold W, emit, set_errno, set_script, select_events.
      cbn [trace open_fds errno pid script].
      do 3 f_equal. rewrite <- !app_assoc. reflexivity. }
    unfold processIncoming. rewrite (geb_true _ Hcl), Hfull. cbn [negb].
    rewrite Hloop. cbn [bindO]. cbv zeta.
    change (set_inputCount
              (inputCount (set_inputBuffer (store_at (inputBuffer s) (inputCount s) k data) s)
               + k)
              (set_inputBuffer (store_at (inputBuffer s) (inputCount s) k data) s))
      with (appended k data s).
    destruct (HaveFullPacket (appended k data s)); reflexivity.
  - intros Hc Hb Hd. unfold appended. cbn [inputBuffer set_inputCount set_inputBuffer].
    apply store_at_spec; try assumption; lia.
Qed.

End ReadDelivers.

(** ** The pid announcement and the backoff, further *)

Lemma hex_digit_in (d : Z) : 0 <= d < 16 -> In (hex_digit d) hex_chars.
Proof.
  intro H. unfold hex_digit. apply nth_In.
  simpl List.length. lia.
Qed.

Lemma hex_value_digit (d : Z) : 0 <= d < 16 -> hex_value (hex_digit d) = d.
Proof.
  intro H.
  assert (C : d = 0 \/ d = 1 \/ d = 2 \/ d = 3 \/ d = 4 \/ d = 5 \/ d = 6 \/ d = 7
              \/ d = 8 \/ d = 9 \/ d = 10 \/ d = 11 \/ d = 12 \/ d = 13 \/ d = 14
              \/ d = 15) by lia.
  repeat (destruct C as [ -> | C]; [reflexivity|]). subst d. reflexivity.
Qed.

Lemma hex_digits_chars fuel :
  forall v acc,
    0 <= v -> Forall (fun c => In c hex_chars) acc ->
    Forall (fun c => In c hex_chars) (hex_digits fuel v acc).
Proof.
  induction fuel as [|fuel IH]; intros v acc Hv Hacc; [exact Hacc|].
  cbn [hex_digits]. destruct (Z.ltb_spec v 16).
  - constructor; [apply hex_digit_in; lia | exact Hacc].
  - apply IH.
    + Z.div_mod_to_equations; lia.
    + constructor; [apply hex_digit_in; Z.div_mod_to_equations; lia | exact Hacc].
Qed.

Lemma Forall_prefix {A : Type} (P : A -> Prop) (n : nat) :
  forall l, Forall P l -> Forall P (firstn n l).
Proof.
  induction n as [|n IH]; intros l H; [constructor|].
  destruct H as [|x l Hx Hl]; [constructor|].
  cbn [firstn]. constructor; [exact Hx | apply IH; exact Hl].
Qed.

Lemma hex_number_low16 (v : Z) : 0 <= v < 65536 -> hex_number (hex4_low16 v) = v.
Proof.
  intro H. unfold hex4_low16, hex_number. cbv zeta. cbn [fold_left].
  rewrite (Z.mod_small v 65536) by lia.
  rewrite !hex_value_digit by (Z.div_mod_to_equations; lia).
  Z.div_mod_to_equations; lia.
Qed.

(** X16.  The announcement tells processes apart as long as pids fit in 16
    bits.  All four bytes are characters of "0123456789abcdef" for every
    pid; two different pids below 65536 never have the same announcement;
    above that the announcement of different processes can coincide (74565
    and 74566 are both announced as "1234"). *)
Theorem pid_announcement_is_hex_and_injective_below_65536 :
  (forall p, Forall (fun c => In c hex_chars) (pid_announcement p))
  /\ (forall p q,
        0 <= p < 65536 -> 0 <= q < 65536 ->
        pid_announcement p = pid_announcement q -> p = q)
  /\ pid_announcement 74565 = pid_announcement 74566.
Proof.
  split; [|split].
  - intro p. rewrite pid_announcement_firstn. apply Forall_prefix.
    unfold format_04x. cbv zeta. apply Forall_app. split.
    + apply Forall_forall. intros c Hc. apply repeat_spec in Hc. subst c.
      apply (hex_digit_in 0). lia.
    + apply hex_digits_chars; [|constructor].
      apply Z.mod_pos_bound. reflexivity.
  - intros p q Hp Hq Heq.
    rewrite (pid_announcement_low16 p Hp), (pid_announcement_low16 q Hq) in Heq.
    rewrite <- (hex_number_low16 p Hp), <- (hex_number_low16 q Hq), Heq. reflexivity.
  - reflexivity.
Qed.

(** X17.  The backoff reaches its cap after four failed attempts and stays
    there: the sleeps never get shorter from one attempt to the next, they
    grow strictly until the cap, and from the fifth sleep on every sleep is
    exactly 2000 ms. *)
Theorem backoff_settles_at_the_cap :
  (forall k, sleep_ms_at k <= sleep_ms_at (S k))
  /\ (forall k, (k < 4)%nat -> sleep_ms_at k < sleep_ms_at (S k))
  /\ (forall k, (4 <= k)%nat -> sleep_ms_at k = 2000).
Proof.
  assert (Hcap : forall k, (4 <= k)%nat -> sleep_ms_at k = 2000).
  { intros k Hk. induction k as [|k IH]; [lia|].
    destruct (Nat.eq_dec (S k) 4) as [->|Hne]; [reflexivity|].
    rewrite sleep_ms_at_succ, IH by lia. reflexivity. }
  split; [|split; [|exact Hcap]].
  - intro k. rewrite sleep_ms_at_succ. pose proof (sleep_ms_at_bounds k).
    Z.div_mod_to_equations; lia.
  - intros k Hk.
    assert (C : k = 0%nat \/ k = 1%nat \/ k = 2%nat \/ k = 3%nat) by lia.
    destruct C as [ -> | [ -> | [ -> | -> ]]]; reflexivity.
Qed.

(** ** receiveClientFd: what it never does *)

(** X18.  What receiveClientFd can and cannot change.  Whenever it returns,
    the result is -1 or a descriptor that is open; the input buffer, the
    input count and the wake pipe fields are as before; a set
    [shuttingDown] stays set; and unless the transport was shut down
    meanwhile it has not touched [clientSock], and [controlSock] is either
    as before or unset. *)
Theorem receiveClientFd_touches_only_the_control_socket :
  forall fuel s w fd s' w',
    receiveClientFd fuel s w = Returned (fd, s', w') ->
    (fd = -1 \/ is_open fd w' = true)
    /\ inputBuffer s' = inputBuffer s
    /\ inputCount s' = inputCount s
    /\ wakeFds s' = wakeFds s
    /\ (shuttingDown s = true -> shuttingDown s' = true)
    /\ (shuttingDown s' = false ->
        clientSock s' = clientSock s
        /\ (controlSock s' = controlSock s \/ controlSock s' = -1)).
Proof.
  intros fuel s w fd s' w' H.
  destruct (receiveClientFd_result _ _ _ _ _ _ H) as (R & B & C & W & S1 & _).
  do 5 (split; [assumption|]).
  intro Hsd. revert H. unfold receiveClientFd. intro H.
  apply bindO_returned in H. destruct H as ([[[r d1] s1] w1] & Hr & H).
  destruct (recvmsg_retry_result _ _ _ _ _ _ _ _ Hr) as (Hs & _).
  destruct (peer_shutdown_fields s) as (F1 & _).
  assert (Hs1 : shuttingDown s1 = false).
  { destruct (r <=? 0); injection H as _ <- _; [|exact Hsd].
    destruct s1; exact Hsd. }
  assert (E : s1 = s).
  { destruct Hs as [ -> | -> ]; [reflexivity | rewrite F1 in Hs1; discriminate]. }
  subst s1. destruct (r <=? 0); injection H as _ <- _.
  - destruct s; split; [reflexivity | right; reflexivity].
  - split; [reflexivity | left; reflexivity].
Qed.

(** ** The wake pipe across reconnects *)

Lemma adbStateFree_other (s : JdwpNetState) (w : World) (x : Z) :
  ~ In x (held_fds s) -> is_open x (adbStateFree (Some s) w) = is_open x w.
Proof.
  intro H. unfold held_fds in H. cbn [In] in H.
  rewrite adbStateFree_steps.
  rewrite !free_field_other; [reflexivity | | | |]; intro E; apply H; subst x; tauto.
Qed.

(** C9.  The wake pipe is created with every control socket, and the pair
    it replaces is lost.  A pass of acceptConnection that finds [controlSock]
    unset while [wakeFds] holds an open pipe, as every pass after a failed
    receive does, opens a socket and calls pipe again without closing
    anything: the new pair overwrites the old one, whose two descriptors stay
    open with no field of the state left that refers to them, so that
    adbStateFree, which closes what the fields hold, leaves them open too. *)
Theorem reconnect_overwrites_wake_pipe :
  forall HAVE_ANDROID_OS retries fuel n s w rd0 wr0
         fd e0 pret e1 rd wr e2 r e3 ret e4 c rest,
    shuttingDown s = false ->
    controlSock s < 0 ->
    wakeFds s = (rd0, wr0) ->
    0 <= rd0 -> 0 <= wr0 ->
    is_open rd0 w = true -> is_open wr0 w = true ->
    script w = RSocket fd e0 :: RPipe pret e1 rd wr
                 :: failed_connects n ++ RConnect 0 e2 :: trust_answers HAVE_ANDROID_OS
                 ++ RSend r e3 :: RRecvmsg ret e4 (Some c) false :: rest ->
    0 <= fd -> 0 <= pret -> 0 <= r -> 0 < ret -> 0 <= c ->
    ~ In rd0 [fd; rd; wr; c] -> ~ In wr0 [fd; rd; wr; c] ->
    exists s' w',
      acceptConnection HAVE_ANDROID_OS (S retries) (n + S fuel) s w
      = Returned (true, s', w')
      /\ trace w' = trace w ++ [EvSocket; EvPipe] ++ backoff_events fd 500 n
                       ++ [EvConnect fd] ++ trust_events HAVE_ANDROID_OS fd
                       ++ [EvSend fd (pid_announcement (pid w)); EvRecvmsg fd]
      /\ wakeFds s' = (rd, wr)
      /\ is_open rd0 w' = true /\ is_open wr0 w' = true
      /\ ~ In rd0 (held_fds s') /\ ~ In wr0 (held_fds s')
      /\ is_open rd0 (adbStateFree (Some s') w') = true
      /\ is_open wr0 (adbStateFree (Some s') w') = true.
Proof.
  intros HAVE_ANDROID_OS retries fuel n s w rd0 wr0 fd e0 pret e1 rd wr e2 r e3 ret e4 c rest
         Hsd Hctl _ _ _ Hrd0 Hwr0 Hs Hfd Hp Hr Hret Hc Hfr Hfw.
  assert (Hopen : forall x, is_open x w = true ->
                    is_open x (install_fd c
                                 (emit (EvRecvmsg fd)
                                    (connected HAVE_ANDROID_OS n fd rd wr rest w))) = true).
  { intros x Hx. apply is_open_install_mono.
    change (is_open x (install_fd wr (install_fd rd (install_fd fd w))) = true).
    do 3 apply is_open_install_mono. exact Hx. }
  assert (Hheld : forall x, ~ In x [fd; rd; wr; c] ->
                    ~ In x (held_fds
                              (set_inputCount 0
                                 (SetAwaitingHandshake true
                                    (set_clientSock c
                                       (set_wakeFds (rd, wr) (set_controlSock fd s))))))).
  { intros x Hx Hin. apply Hx. unfold held_fds in Hin.
    cbn [In clientSock controlSock wakeFds fst snd set_inputCount SetAwaitingHandshake
            set_clientSock set_wakeFds set_controlSock] in Hin.
    cbn [In]. tauto. }
  do 2 eexists. split.
  { unfold acceptConnection.
    apply (accept_connected HAVE_ANDROID_OS n retries fuel 0 s w
             fd e0 pret e1 rd wr e2 r e3 ret e4 c rest); assumption. }
  split.
  { unfold connected. cbn [trace install_fd emit]. rewrite <- !app_assoc. reflexivity. }
  split; [reflexivity|].
  split; [exact (Hopen _ Hrd0)|]. split; [exact (Hopen _ Hwr0)|].
  split; [exact (Hheld _ Hfr)|]. split; [exact (Hheld _ Hfw)|].
  split.
  - rewrite (adbStateFree_other _ _ _ (Hheld _ Hfr)). exact (Hopen _ Hrd0).
  - rewrite (adbStateFree_other _ _ _ (Hheld _ Hfw)). exact (Hopen _ Hwr0).
Qed.

(** * The further properties at concrete sessions *)

(** ** X1 *)

Lemma free_releases_all_held_descriptors_witness :
  is_open 5 (adbStateFree (Some attached) (running 4321 [])) = false
  /\ is_open 7 (adbStateFree (Some attached) (running 4321 [])) = false
  /\ is_open 11 (adbStateFree (Some attached) (mkWorld [] [4; 5; 6; 7; 11] 0 4321 []))
     = true
  /\ trace (adbStateFree (Some attached) (running 4321 []))
     = [EvShutdown 5; EvClose 5; EvShutdown 4; EvClose 4; EvClose 6; EvClose 7].
Proof.
  destruct (free_releases_all_held_descriptors attached (running 4321 []))
    as (Hheld & _ & Htrace).
  destruct (free_releases_all_held_descriptors attached
              (mkWorld [] [4; 5; 6; 7; 11] 0 4321 [])) as (_ & Hother & _).
  split; [apply Hheld; [lia | cbn; tauto]|].
  split; [apply Hheld; [lia | cbn; tauto]|].
  split; [|exact Htrace].
  rewrite Hother; [reflexivity|].
  cbn. intros [H|[H|[H|[H|[]]]]]; discriminate H.
Defined.

(** ** X2 *)

Lemma shutdown_unsets_sockets_and_closes_nothing_witness :
  adbStateShutdown 1 (Some attached) (running 4321 [RWrite 1 0])
  = Returned (Some (peer_shutdown attached),
              mkWorld [EvShutdown 5; EvShutdown 4; EvWrite 7 [zero]] [4; 5; 6; 7] 0 4321 [])
  /\ exists s',
       Some (peer_shutdown attached) = Some s'
       /\ shuttingDown s' = true
       /\ clientSock s' < 0 /\ controlSock s' < 0
       /\ wakeFds s' = (6, 7)
       /\ inputBuffer s' = inputBuffer attached /\ inputCount s' = 0
       /\ IsAwaitingHandshake s' = true
       /\ [4; 5; 6; 7] = [4; 5; 6; 7]
       /\ closes_of [EvShutdown 5; EvShutdown 4; EvWrite 7 [zero]] = []
       /\ shutdowns_of [EvShutdown 5; EvShutdown 4; EvWrite 7 [zero]] = [5; 4].
Proof.
  assert (H : adbStateShutdown 1 (Some attached) (running 4321 [RWrite 1 0])
              = Returned (Some (peer_shutdown attached),
                          mkWorld [EvShutdown 5; EvShutdown 4; EvWrite 7 [zero]]
                                  [4; 5; 6; 7] 0 4321 []))
    by (vm_compute; reflexivity).
  split; [exact H|].
  exact (shutdown_unsets_sockets_and_closes_nothing _ _ _ _ _ H).
Defined.

(** ** X3 *)

Lemma shutdown_twice_changes_nothing_more_witness :
  adbStateShutdown 1 (Some (peer_shutdown attached))
    (mkWorld [EvShutdown 5; EvShutdown 4; EvWrite 7 [zero]] [4; 5; 6; 7] 0 4321
             [RWrite 1 0])
  = Returned (Some (peer_shutdown attached),
              mkWorld [EvShutdown 5; EvShutdown 4; EvWrite 7 [zero]; EvWrite 7 [zero]]
                      [4; 5; 6; 7] 0 4321 [])
  /\ shutdowns_of [EvShutdown 5; EvShutdown 4; EvWrite 7 [zero]; EvWrite 7 [zero]]
     = shutdowns_of [EvShutdown 5; EvShutdown 4; EvWrite 7 [zero]]
  /\ closes_of [EvShutdown 5; EvShutdown 4; EvWrite 7 [zero]; EvWrite 7 [zero]]
     = closes_of [EvShutdown 5; EvShutdown 4; EvWrite 7 [zero]].
Proof.
  assert (H1 : adbStateShutdown 1 (Some attached) (running 4321 [RWrite 1 0; RWrite 1 0])
               = Returned (Some (peer_shutdown attached),
                           mkWorld [EvShutdown 5; EvShutdown 4; EvWrite 7 [zero]]
                                   [4; 5; 6; 7] 0 4321 [RWrite 1 0]))
    by (vm_compute; reflexivity).
  assert (H2 : adbStateShutdown 1 (Some (peer_shutdown attached))
                 (mkWorld [EvShutdown 5; EvShutdown 4; EvWrite 7 [zero]] [4; 5; 6; 7] 0 4321
                          [RWrite 1 0])
               = Returned (Some (peer_shutdown attached),
                           mkWorld [EvShutdown 5; EvShutdown 4; EvWrite 7 [zero];
                                    EvWrite 7 [zero]] [4; 5; 6; 7] 0 4321 []))
    by (vm_compute; reflexivity).
  split; [exact H2|].
  destruct (shutdown_twice_changes_nothing_more _ _ _ _ _ _ _ _ H1 H2)
    as (_ & Hs & Hc & _).
  split; [exact Hs | exact Hc].
Defined.

(** ** X4 *)

Lemma accept_success_gives_fresh_connection_witness :
  acceptConnection false 1 1 new_JdwpNetState
    (starting 4321 [RSocket 3 0; RPipe 0 0 4 5; RConnect 0 0; RSend 4 0;
                    RRecvmsg 1 0 (Some 9) false])
  = Returned (true, accepted 3 (4, 5),
              mkWorld [EvSocket; EvPipe; EvConnect 3;
                       EvSend 3 (list_ascii_of_string "10e1"); EvRecvmsg 3]
                      [9; 5; 4; 3] 0 4321 [])
  /\ shuttingDown (accepted 3 (4, 5)) = false
  /\ is_open (clientSock (accepted 3 (4, 5)))
             (mkWorld [EvSocket; EvPipe; EvConnect 3;
                       EvSend 3 (list_ascii_of_string "10e1"); EvRecvmsg 3]
                      [9; 5; 4; 3] 0 4321 []) = true
  /\ IsAwaitingHandshake (accepted 3 (4, 5)) = true
  /\ inputCount (accepted 3 (4, 5)) = 0.
Proof.
  assert (H : acceptConnection false 1 1 new_JdwpNetState
                (starting 4321 [RSocket 3 0; RPipe 0 0 4 5; RConnect 0 0; RSend 4 0;
                                RRecvmsg 1 0 (Some 9) false])
              = Returned (true, accepted 3 (4, 5),
                          mkWorld [EvSocket; EvPipe; EvConnect 3;
                                   EvSend 3 (list_ascii_of_string "10e1"); EvRecvmsg 3]
                                  [9; 5; 4; 3] 0 4321 []))
    by (vm_compute; reflexivity).
  split; [exact H|].
  destruct (accept_success_gives_fresh_connection _ _ _ _ _ _ _ H)
    as (Hsd & _ & Hopen & _ & Haw & Hcnt & _).
  split; [exact Hsd|]. split; [exact Hopen|]. split; [exact Haw | exact Hcnt].
Defined.

(** ** X5 *)

Lemma shutdown_during_backoff_ends_accept_witness :
  exists w',
    acceptConnection false 1 2 new_JdwpNetState
      (starting 4321 [RSocket 3 0; RPipe 0 0 4 5; RConnect (-1) ECONNREFUSED;
                      RUsleep false; RConnect (-1) ECONNREFUSED; RUsleep true])
    = Returned (false, peer_shutdown (dialing_state 3 4 5 new_JdwpNetState), w')
    /\ trace w' = [EvSocket; EvPipe; EvConnect 3; EvUsleep 500000; EvConnect 3;
                   EvUsleep 750000]
    /\ script w' = [].
Proof.
  exact (shutdown_during_backoff_ends_accept false 1 0 0 new_JdwpNetState
           (starting 4321 [RSocket 3 0; RPipe 0 0 4 5; RConnect (-1) ECONNREFUSED;
                           RUsleep false; RConnect (-1) ECONNREFUSED; RUsleep true])
           3 0 0 0 4 5 (-1) ECONNREFUSED []
           eq_refl ltac:(cbn; lia) eq_refl ltac:(lia) ltac:(lia) ltac:(lia)).
Defined.

(** ** X6 *)

Lemma setup_failure_ends_accept_witness :
  (exists w',
     acceptConnection false 1 1 new_JdwpNetState (starting 4321 [RSocket (-1) 24])
     = Returned (false, set_controlSock (-1) new_JdwpNetState, w')
     /\ trace w' = [EvSocket; EvLog "Could not create ADB control socket"]
     /\ open_fds w' = []
     /\ script w' = [])
  /\ (exists s' w',
        acceptConnection false 1 1 new_JdwpNetState
          (starting 4321 [RSocket 3 0; RPipe (-1) 24 0 0])
        = Returned (false, s', w')
        /\ controlSock s' = 3 /\ wakeFds s' = (-1, -1)
        /\ is_open 3 w' = true
        /\ trace w' = [EvSocket; EvPipe; EvLog "pipe failed"]
        /\ script w' = []).
Proof.
  split.
  - exact (proj1 (setup_failure_ends_accept false 0 1 new_JdwpNetState
                    (starting 4321 [RSocket (-1) 24]) eq_refl ltac:(cbn; lia))
                 (-1) 24 [] eq_refl ltac:(lia)).
  - exact (proj2 (setup_failure_ends_accept false 0 1 new_JdwpNetState
                    (starting 4321 [RSocket 3 0; RPipe (-1) 24 0 0]) eq_refl
                    ltac:(cbn; lia))
                 3 0 (-1) 24 0 0 [] eq_refl ltac:(lia) ltac:(lia)).
Defined.

(** ** X7 *)

Lemma send_failure_ends_accept_witness :
  exists w',
    acceptConnection false 1 2 new_JdwpNetState
      (starting 4321 [RSocket 3 0; RPipe 0 0 4 5; RConnect 0 0; RSend (-1) EINTR;
                      RSend (-1) 32])
    = Returned (false, dialing_state 3 4 5 new_JdwpNetState, w')
    /\ trace w' = [EvSocket; EvPipe; EvConnect 3;
                   EvSend 3 (list_ascii_of_string "10e1");
                   EvSend 3 (list_ascii_of_string "10e1");
                   EvLog "Weird, can't send JDWP process pid to ADB"]
    /\ script w' = [].
Proof.
  exact (send_failure_ends_accept false 0 1 0 0 new_JdwpNetState
           (starting 4321 [RSocket 3 0; RPipe 0 0 4 5; RConnect 0 0; RSend (-1) EINTR;
                           RSend (-1) 32])
           3 0 0 0 4 5 0 (-1) 32 []
           eq_refl ltac:(cbn; lia) eq_refl ltac:(lia) ltac:(lia) ltac:(lia)
           ltac:(unfold EINTR; lia)).
Defined.

(** ** X8 *)

Lemma untrusted_peer_ends_accept_witness :
  exists w',
    acceptConnection true 1 1 new_JdwpNetState
      (starting 4321 [RSocket 3 0; RPipe 0 0 4 5; RConnect 0 0; RPeerTrusted false])
    = Returned (false, dialing_state 3 4 5 new_JdwpNetState, w')
    /\ trace w' = [EvSocket; EvPipe; EvConnect 3; EvPeerTrusted 3; EvShutdown 3]
    /\ is_open 3 w' = true
    /\ script w' = [].
Proof.
  exact (untrusted_peer_ends_accept 0 0 0 new_JdwpNetState
           (starting 4321 [RSocket 3 0; RPipe 0 0 4 5; RConnect 0 0; RPeerTrusted false])
           3 0 0 0 4 5 0 []
           eq_refl ltac:(cbn; lia) eq_refl ltac:(lia) ltac:(lia)).
Defined.

(** ** X9 *)

Lemma shutdown_during_receive_ends_accept_witness :
  exists s' w' closed,
    acceptConnection_from false 1 1 5 attached (running 4321 [RRecvmsg (-1) 104 None true])
    = Returned (false, s', w')
    /\ shuttingDown s' = true
    /\ (closed = 4 \/ closed = -1)
    /\ script w' = []
    /\ trace w' = [EvRecvmsg 4; EvLog "Receiving file descriptor from ADB failed";
                   EvClose closed].
Proof.
  exact (shutdown_during_receive_ends_accept false 0 0 5 attached
           (running 4321 [RRecvmsg (-1) 104 None true]) (-1) 104 None []
           eq_refl ltac:(cbn; lia) eq_refl ltac:(unfold EINTR; lia)).
Defined.

(** ** X10 *)

Lemma receiveClientFd_returns_the_descriptor_witness :
  exists w',
    receiveClientFd 2 attached
      (running 4321 [RRecvmsg (-1) EINTR None false; RRecvmsg 1 0 (Some 9) false])
    = Returned (9, attached, w')
    /\ is_open 9 w' = true
    /\ (forall fd,
          is_open fd (running 4321 [RRecvmsg (-1) EINTR None false;
                                    RRecvmsg 1 0 (Some 9) false]) = true ->
          is_open fd w' = true)
    /\ trace w' = [EvRecvmsg 4; EvRecvmsg 4]
    /\ script w' = [].
Proof.
  exact (receiveClientFd_returns_the_descriptor 1 0 attached
           (running 4321 [RRecvmsg (-1) EINTR None false; RRecvmsg 1 0 (Some 9) false])
           1 0 9 [] eq_refl ltac:(lia)).
Defined.

(** ** X11 *)

Lemma wait_loop_keeps_count_and_wake_pipe_witness :
  select_loop 1 1 attached
    (running 4321 [RSelect 1 0 [5] false; RRead 3 0 (list_ascii_of_string "abc")])
  = Returned (ExitBreak 3,
              set_inputBuffer (store_at (inputBuffer attached) 0 3
                                        (list_ascii_of_string "abc")) attached,
              mkWorld [EvSelect 7 [4; 5; 6]; EvRead 5 0 8192] [4; 5; 6; 7] 0 4321 [])
  /\ inputCount (set_inputBuffer (store_at (inputBuffer attached) 0 3
                                           (list_ascii_of_string "abc")) attached) = 0
  /\ wakeFds (set_inputBuffer (store_at (inputBuffer attached) 0 3
                                        (list_ascii_of_string "abc")) attached) = (6, 7)
  /\ (forall rc, ExitBreak 3 = ExitBreak rc -> 0 < rc).
Proof.
  assert (H : select_loop 1 1 attached
                (running 4321 [RSelect 1 0 [5] false;
                               RRead 3 0 (list_ascii_of_string "abc")])
              = Returned (ExitBreak 3,
                          set_inputBuffer (store_at (inputBuffer attached) 0 3
                                                    (list_ascii_of_string "abc")) attached,
                          mkWorld [EvSelect 7 [4; 5; 6]; EvRead 5 0 8192] [4; 5; 6; 7] 0
                                  4321 []))
    by (vm_compute; reflexivity).
  split; [exact H|].
  destruct (wait_loop_keeps_count_and_wake_pipe _ _ _ _ _ _ _ H)
    as (Hc & Hw & _ & Hrc & _).
  split; [exact Hc|]. split; [exact Hw | exact Hrc].
Defined.

(** ** X12 *)

Lemma select_failure_is_connection_loss_witness :
  exists s' w',
    processIncoming (EM := model_methods) 2 1 attached
      (running 4321 [RSelect (-1) EINTR [] false; RSelect (-1) EBADF [] false])
    = Returned (false, s', w')
    /\ clientSock s' = -1
    /\ trace w' = [EvSelect 7 [4; 5; 6]; EvSelect 7 [4; 5; 6]; EvLog "select failed";
                   EvClose 5]
    /\ is_open 5 w' = false.
Proof.
  eexists. eexists. split.
  - exact (select_failure_is_connection_loss (EM := model_methods) 1 0 1 attached
             (running 4321 [RSelect (-1) EINTR [] false; RSelect (-1) EBADF [] false])
             (-1) EBADF [] [] ltac:(cbn; lia) eq_refl eq_refl ltac:(lia)
             ltac:(unfold EBADF, EINTR; lia)).
  - split; [reflexivity|]. split; reflexivity.
Defined.

(** ** X13 *)


(** ** X14 *)

Lemma nothing_to_wait_on_returns_false_witness :
  processIncoming (EM := model_methods) 2 1 (set_wakeFds (-1, -1) attached)
    (running 4321 [RSelect (-1) EINTR [] true])
  = Returned (false, peer_shutdown (set_wakeFds (-1, -1) attached),
              mkWorld [EvLog "NOTE: entering select w/o wakepipe"; EvSelect 6 [4; 5];
                       EvLog "NOTE: entering select w/o wakepipe"]
                      [4; 5; 6; 7] EINTR 4321 []).
Proof.
  exact (nothing_to_wait_on_returns_false (EM := model_methods) 0 1
           (set_wakeFds (-1, -1) attached) (running 4321 [RSelect (-1) EINTR [] true])
           [] [] ltac:(cbn; lia) eq_refl ltac:(cbn; lia) eq_refl).
Defined.

(** ** X15 *)

Lemma read_appends_to_the_buffer_witness :
  processIncoming (EM := model_methods) 1 1 attached
    (running 4321 [RSelect 1 0 [5] false; RRead 3 0 (list_ascii_of_string "abc")])
  = Returned (true, appended 3 (list_ascii_of_string "abc") attached,
              mkWorld [EvSelect 7 [4; 5; 6]; EvRead 5 0 8192] [4; 5; 6; 7] 0 4321 [])
  /\ inputCount (appended 3 (list_ascii_of_string "abc") attached) = 3
  /\ firstn 3 (inputBuffer (appended 3 (list_ascii_of_string "abc") attached))
     = list_ascii_of_string "abc".
Proof.
  destruct (read_appends_to_the_buffer (EM := model_methods) 0 1 attached
              (running 4321 [RSelect 1 0 [5] false;
                             RRead 3 0 (list_ascii_of_string "abc")])
              1 0 [5] 3 0 (list_ascii_of_string "abc") []
              ltac:(cbn; lia) eq_refl eq_refl ltac:(lia) eq_refl eq_refl eq_refl
              ltac:(lia))
    as (Hrun & Hcount & Hbuf).
  split; [exact Hrun|]. split; [exact Hcount|].
  destruct Hbuf as (_ & _ & Hnew & _).
  - apply Z.leb_le. reflexivity.
  - apply Nat.leb_le. vm_compute. reflexivity.
  - apply Nat.leb_le. vm_compute. reflexivity.
  - exact Hnew.
Defined.

(** ** X16 *)

Lemma pid_announcement_is_hex_and_injective_below_65536_witness :
  pid_announcement 4321 <> pid_announcement 4322
  /\ Forall (fun c => In c hex_chars) (pid_announcement 4321).
Proof.
  destruct pid_announcement_is_hex_and_injective_below_65536 as (Hhex & Hinj & _).
  split; [|exact (Hhex 4321)].
  intro H. apply (Hinj 4321 4322 ltac:(lia) ltac:(lia)) in H. discriminate H.
Defined.

(** ** X17 *)

Lemma backoff_settles_at_the_cap_witness :
  sleep_ms_at 2 < sleep_ms_at 3 /\ sleep_ms_at 7 = 2000.
Proof.
  destruct backoff_settles_at_the_cap as (_ & Hgrow & Hcap).
  split; [exact (Hgrow 2%nat ltac:(lia)) | exact (Hcap 7%nat ltac:(lia))].
Defined.

(** ** X18 *)

Lemma receiveClientFd_touches_only_the_control_socket_witness :
  receiveClientFd 1 attached (running 4321 [RRecvmsg 0 0 None false])
  = Returned (-1, set_controlSock (-1) attached,
              mkWorld [EvRecvmsg 4; EvClose 4] [5; 6; 7] 0 4321 [])
  /\ inputCount (set_controlSock (-1) attached) = 0
  /\ wakeFds (set_controlSock (-1) attached) = (6, 7)
  /\ clientSock (set_controlSock (-1) attached) = 5.
Proof.
  assert (H : receiveClientFd 1 attached (running 4321 [RRecvmsg 0 0 None false])
              = Returned (-1, set_controlSock (-1) attached,
                          mkWorld [EvRecvmsg 4; EvClose 4] [5; 6; 7] 0 4321 []))
    by (vm_compute; reflexivity).
  split; [exact H|].
  destruct (receiveClientFd_touches_only_the_control_socket _ _ _ _ _ _ H)
    as (_ & _ & Hc & Hw & _ & Hrest).
  split; [exact Hc|]. split; [exact Hw|].
  exact (proj1 (Hrest eq_refl)).
Defined.

(** ** C9 *)

Lemma reconnect_overwrites_wake_pipe_witness :
  exists s' w',
    acceptConnection false 1 1
      (mkNetState (-1) (inputBuffer new_JdwpNetState) 0 false (-1) false (4, 5))
      (mkWorld [] [4; 5] 0 4321
               [RSocket 6 0; RPipe 0 0 7 8; RConnect 0 0; RSend 4 0;
                RRecvmsg 1 0 (Some 9) false])
    = Returned (true, s', w')
    /\ trace w' = [EvSocket; EvPipe; EvConnect 6;
                   EvSend 6 (list_ascii_of_string "10e1"); EvRecvmsg 6]
    /\ wakeFds s' = (7, 8)
    /\ is_open 4 w' = true /\ is_open 5 w' = true
    /\ ~ In 4 (held_fds s') /\ ~ In 5 (held_fds s')
    /\ is_open 4 (adbStateFree (Some s') w') = true
    /\ is_open 5 (adbStateFree (Some s') w') = true.
Proof.
  apply (reconnect_overwrites_wake_pipe false 0 0 0
           (mkNetState (-1) (inputBuffer new_JdwpNetState) 0 false (-1) false (4, 5))
           (mkWorld [] [4; 5] 0 4321
                    [RSocket 6 0; RPipe 0 0 7 8; RConnect 0 0; RSend 4 0;
                     RRecvmsg 1 0 (Some 9) false])
           4 5 6 0 0 0 7 8 0 4 0 1 0 9 []);
    try reflexivity; try lia; try (cbn; lia);
    cbn [In]; intros [H|[H|[H|[H|[]]]]]; discriminate H.
Defined.

(** One call of acceptConnection on a fresh state, then adbStateFree.  The
    first pass creates the wake pipe (4, 5); the receive fails, the control
    socket is closed, and the second pass calls pipe again: [wakeFds] now
    holds (7, 8), and descriptors 4 and 5 are still open with nothing left
    that refers to them.  adbStateFree closes 9, 6, 7 and 8, and 4 and 5
    remain open. *)
Example wake_pipe_is_created_again_on_retry :
  acceptConnection false 6 1 new_JdwpNetState (starting 4321 reconnect_answers)
  = Returned (true, accepted 6 (7, 8), after_reconnect)
  /\ wakeFds (accepted 6 (7, 8)) = (7, 8)
  /\ pipes_of (trace after_reconnect) = 2%nat
  /\ is_open 4 after_reconnect = true
  /\ is_open 5 after_reconnect = true
  /\ closes_of (trace (adbStateFree (Some (accepted 6 (7, 8))) after_reconnect))
     = [3; 9; 6; 7; 8]
  /\ open_fds (adbStateFree (Some (accepted 6 (7, 8))) after_reconnect) = [5; 4].
Proof.
  split; [vm_compute; reflexivity|].
  repeat split; reflexivity.
Qed.
